(** * Crypto-Tracker: the price gateway and the portfolio store of [backend/app.py]

    A shallow embedding of the Flask application's helpers and handlers:
    [http_get], [get_top_coins], [get_simple_prices], [get_btc_chart_7d],
    [get_coin_logos_by_ids], [refresh_portfolio_prices], [add_coin],
    [delete_coin] and the pages [index], [prices] and [portfolio].

    Conventions of the embedding.
    - Python values that come out of [r.json()] are the inductive [json];
      Python's [None] is [JNull].
    - A Python [float] is an IEEE binary64 value, [spec_float] at precision 53
      and maximal exponent 1024.
    - A call that may raise returns a [result]; the exception classes the
      code can meet are the constructors of [exn].
    - The remote service and the wall clock are the record [env]: what
      [session.get] answers to a request once the adapter's retries are over,
      and what [datetime.utcnow()] reads.
    - Network traffic and log lines are collected as a list of [event]s.
    - The [portfolio] table is the list of its rows in rowid order, together
      with the AUTOINCREMENT counter.  A REAL column holds what SQLite keeps
      of the float bound to it ([Sql.real]: NULL for a NaN, zero without its
      sign), an integer is bound only when it fits 64 bits, and
      [SELECT DISTINCT] yields each value at its first occurrence in rowid
      order.  A handler works on the rows of its own connection and the
      table changes at [conn.commit()]: an exception that leaves the handler
      before the commit leaves the table as it was.
    - Strings are sequences of ASCII characters. *)

From Stdlib Require Import ZArith List String Ascii Bool Lia SpecFloat.
From Stdlib Require Import Sorted OrderedTypeEx.
Import ListNotations.
Local Open Scope string_scope.
Local Open Scope Z_scope.

(** ** Exceptions and fallible computations *)

Inductive exn : Type :=
  | RequestException   (* requests.RequestException and its subclasses *)
  | ValueError
  | TypeError
  | AttributeError
  | OverflowError
  | OtherError (class : string).   (* any other exception class *)

Inductive result (A : Type) : Type :=
  | Ok (a : A)
  | Raise (e : exn).
Arguments Ok {A} a.
Arguments Raise {A} e.

Definition rbind {A B : Type} (m : result A) (k : A -> result B) : result B :=
  match m with
  | Ok a => k a
  | Raise e => Raise e
  end.

Notation "x <- m ;; k" := (rbind m (fun x => k))
  (at level 61, m at next level, right associativity).

(** ** Python strings *)

Module PyStr.

(** [str.isspace] on ASCII: TAB..CR, FS..US and the space. *)
Definition is_space (c : ascii) : bool :=
  let n := nat_of_ascii c in
  ((9 <=? n) && (n <=? 13) || (28 <=? n) && (n <=? 32))%nat.

Definition lower_char (c : ascii) : ascii :=
  let n := nat_of_ascii c in
  if ((65 <=? n) && (n <=? 90))%nat then ascii_of_nat (n + 32) else c.

Fixpoint lower (s : string) : string :=
  match s with
  | EmptyString => EmptyString
  | String c s' => String (lower_char c) (lower s')
  end.

Fixpoint lstrip (s : string) : string :=
  match s with
  | EmptyString => EmptyString
  | String c s' => if is_space c then lstrip s' else s
  end.

(** Drops the trailing white space: a character stays when it is not a
    space or when something stays after it. *)
Fixpoint rstrip (s : string) : string :=
  match s with
  | EmptyString => EmptyString
  | String c s' =>
      match rstrip s' with
      | EmptyString => if is_space c then EmptyString else String c EmptyString
      | t => String c t
      end
  end.

Definition strip (s : string) : string := rstrip (lstrip s).

(** Nothing but white space (the empty string included). *)
Fixpoint only_spaces (s : string) : bool :=
  match s with
  | EmptyString => true
  | String c s' => is_space c && only_spaces s'
  end.

Fixpoint has_char (c : ascii) (s : string) : bool :=
  match s with
  | EmptyString => false
  | String c' s' => Ascii.eqb c' c || has_char c s'
  end.

(** [s.split(sep)] for a separator of one character. *)
Fixpoint split (sep : ascii) (s : string) : list string :=
  match s with
  | EmptyString => [EmptyString]
  | String c s' =>
      if Ascii.eqb c sep then EmptyString :: split sep s'
      else
        match split sep s' with
        | x :: xs => String c x :: xs
        | [] => [String c EmptyString]
        end
  end.

(** [sep.join(xs)] *)
Fixpoint join (sep : string) (xs : list string) : string :=
  match xs with
  | [] => ""
  | [x] => x
  | x :: rest => x ++ sep ++ join sep rest
  end.

End PyStr.

(** ** Python floats *)

Module PyFloat.

Definition float : Type := spec_float.

Definition prec : Z := 53.
Definition emax : Z := 1024.

Definition zero : float := S754_zero false.
Definition one : float := binary_normalize prec emax 1 0 false.
Definition inf (neg : bool) : float := S754_infinity neg.
Definition nan : float := S754_nan.

(** [x < y] and [x == y] on floats. *)
Definition ltb (x y : float) : bool := SFltb x y.
Definition eqb (x y : float) : bool := SFeqb x y.

(** A non-negative real number: neither NaN, nor infinite, nor below zero. *)
Definition nonneg_real (x : float) : bool :=
  match x with
  | S754_zero _ => true
  | S754_finite false _ _ => true
  | _ => false
  end.

(** The binary64 nearest to [(-1)^neg * m * 10^e], ties to even; an
    infinity when it is out of range. *)
Definition of_decimal (neg : bool) (m : Z) (e : Z) : float :=
  if m =? 0 then S754_zero neg
  else
    let num := m * 10 ^ Z.max e 0 in
    let den := 10 ^ Z.max (- e) 0 in
    let '(q, e', l) := SFdiv_core_binary prec emax num 0 den 0 in
    binary_round_aux prec emax neg q e' l.

(** [float(n)] for a Python int [n]. *)
Definition of_int (n : Z) : result float :=
  match of_decimal (n <? 0) (Z.abs n) 0 with
  | S754_infinity _ => Raise OverflowError
  | f => Ok f
  end.

(** *** [float(s)] for a string

    <<
    floatvalue  ::= [sign] (floatnumber | "inf" | "infinity" | "nan")
    floatnumber ::= number [("e" | "E") [sign] digitpart]
    number      ::= [digitpart] "." digitpart | digitpart ["."]
    digitpart   ::= digit (["_"] digit)*
    >>
    surrounded by optional white space, letters in either case. *)

Definition is_digit (c : ascii) : bool :=
  let n := nat_of_ascii c in ((48 <=? n) && (n <=? 57))%nat.

Definition digit_val (c : ascii) : Z := Z.of_nat (nat_of_ascii c) - 48.

Fixpoint digits_more (cs : list ascii) : list ascii * list ascii :=
  match cs with
  | [] => ([], [])
  | c :: cs' =>
      if is_digit c then
        let (ds, r) := digits_more cs' in (c :: ds, r)
      else if Ascii.eqb c "_" then
        match cs' with
        | d :: cs'' =>
            if is_digit d then
              let (ds, r) := digits_more cs'' in (d :: ds, r)
            else ([], cs)
        | [] => ([], cs)
        end
      else ([], cs)
  end.

Definition digitpart (cs : list ascii) : option (list ascii * list ascii) :=
  match cs with
  | c :: cs' =>
      if is_digit c then
        let (ds, r) := digits_more cs' in Some (c :: ds, r)
      else None
  | [] => None
  end.

Definition digits_value (ds : list ascii) : Z :=
  fold_left (fun acc d => 10 * acc + digit_val d) ds 0.

(** [[sign]]: the sign read and the rest. *)
Definition sign (cs : list ascii) : bool * list ascii :=
  match cs with
  | c :: cs' =>
      if Ascii.eqb c "-" then (true, cs')
      else if Ascii.eqb c "+" then (false, cs')
      else (false, cs)
  | [] => (false, [])
  end.

(** [number]: integer digits, fraction digits and the rest. *)
Definition number (cs : list ascii)
  : option (list ascii * list ascii * list ascii) :=
  match digitpart cs with
  | Some (ip, r) =>
      match r with
      | c :: r' =>
          if Ascii.eqb c "." then
            match digitpart r' with
            | Some (fp, r'') => Some (ip, fp, r'')
            | None => Some (ip, [], r')
            end
          else Some (ip, [], r)
      | [] => Some (ip, [], [])
      end
  | None =>
      match cs with
      | c :: r =>
          if Ascii.eqb c "." then
            match digitpart r with
            | Some (fp, r') => Some ([], fp, r')
            | None => None
            end
          else None
      | [] => None
      end
  end.

(** The optional exponent, which must end the string. *)
Definition exponent (cs : list ascii) : option Z :=
  match cs with
  | [] => Some 0
  | c :: r =>
      if Ascii.eqb c "e" || Ascii.eqb c "E" then
        let (neg, r') := sign r in
        match digitpart r' with
        | Some (ds, []) =>
            Some (if neg then - digits_value ds else digits_value ds)
        | _ => None
        end
      else None
  end.

Definition floatnumber (neg : bool) (cs : list ascii) : option float :=
  match number cs with
  | Some (ip, fp, r) =>
      match exponent r with
      | Some ex =>
          Some (of_decimal neg (digits_value (ip ++ fp)%list)
                  (ex - Z.of_nat (List.length fp)))
      | None => None
      end
  | None => None
  end.

(** The white space [float] strips from an ASCII string: TAB..CR and the
    space (not FS..US, which [str.strip] drops). *)
Definition is_space (c : ascii) : bool :=
  let n := nat_of_ascii c in
  ((9 <=? n) && (n <=? 13) || (n =? 32))%nat.

Fixpoint lstrip (s : string) : string :=
  match s with
  | EmptyString => EmptyString
  | String c s' => if is_space c then lstrip s' else s
  end.

Fixpoint rstrip (s : string) : string :=
  match s with
  | EmptyString => EmptyString
  | String c s' =>
      match rstrip s' with
      | EmptyString => if is_space c then EmptyString else String c EmptyString
      | t => String c t
      end
  end.

Definition of_string (s : string) : result float :=
  let body := PyStr.lower (rstrip (lstrip s)) in
  let (neg, cs) := sign (list_ascii_of_string body) in
  let word := string_of_list_ascii cs in
  if (word =? "inf")%string || (word =? "infinity")%string then Ok (inf neg)
  else if (word =? "nan")%string then Ok nan
  else
    match floatnumber neg cs with
    | Some f => Ok f
    | None => Raise ValueError
    end.

End PyFloat.

(** ** Values decoded from JSON *)

#[local] Set Warnings "-register-all".

Inductive json : Type :=
  | JNull
  | JBool (b : bool)
  | JInt (n : Z)
  | JFloat (f : PyFloat.float)
  | JStr (s : string)
  | JList (l : list json)
  | JDict (d : list (string * json)).

(** Truth value of a Python object, as [or] and [if] test it. *)
Definition truthy (v : json) : bool :=
  match v with
  | JNull => false
  | JBool b => b
  | JInt n => negb (n =? 0)
  | JFloat (S754_zero _) => false
  | JFloat _ => true
  | JStr s => negb (s =? "")%string
  | JList l => match l with [] => false | _ => true end
  | JDict d => match d with [] => false | _ => true end
  end.

(** [a or b] *)
Definition py_or (a b : json) : json := if truthy a then a else b.

Fixpoint assoc {A : Type} (k : string) (d : list (string * A)) : option A :=
  match d with
  | [] => None
  | (k', v) :: d' => if (k' =? k)%string then Some v else assoc k d'
  end.

(** [v.get(k, default)]: only a dict has the method. *)
Definition py_get (v : json) (k : string) (default : json) : result json :=
  match v with
  | JDict d => Ok (match assoc k d with Some x => x | None => default end)
  | _ => Raise AttributeError
  end.

(** [float(v)] *)
Definition py_float (v : json) : result PyFloat.float :=
  match v with
  | JFloat f => Ok f
  | JInt n => PyFloat.of_int n
  | JBool b => Ok (if b then PyFloat.one else PyFloat.zero)
  | JStr s => PyFloat.of_string s
  | JNull | JList _ | JDict _ => Raise TypeError
  end.

(** ** The remote service, the clock and the trace *)

(** A value of the [params] dict. *)
Inductive pval : Type :=
  | PStr (s : string)
  | PInt (n : Z).

Definition params : Type := list (string * pval).

(** The arguments of [session.get]. *)
Record request : Type := {
  req_url : string;
  req_params : params;
  req_headers : list (string * string);
  req_timeout : Z
}.

(** What [session.get] hands back: the status and what [r.json()] does. *)
Record response : Type := {
  status_code : Z;
  json_body : result json
}.

(** A naive [datetime]: year 1..9999, month 1..12, day 1..31, hour 0..23,
    minute and second 0..59, microsecond 0..999999. *)
Record datetime : Type := {
  year : Z; month : Z; day : Z;
  hour : Z; minute : Z; second : Z; microsecond : Z
}.

Record env : Type := {
  session_get : request -> result response;
  utcnow : datetime
}.

Inductive event : Type :=
  | EvGet (rq : request)       (* session.get(url, params=..., ...) *)
  | EvWarn (url : string).     (* logging.warning("HTTP error for <url>: ...") *)

(** A computation that talks to the network: its outcome and its trace. *)
Definition io (A : Type) : Type := (result A * list event)%type.

Definition is_get (ev : event) : bool :=
  match ev with EvGet _ => true | EvWarn _ => false end.

(** The requests of a trace, in order. *)
Definition requests_of (t : list event) : list request :=
  flat_map (fun ev => match ev with EvGet rq => [rq] | EvWarn _ => [] end) t.

Module DateTime.

(** The [width] low decimal digits of [n], zero padded ([%0<width>d]). *)
Fixpoint zfill (width : nat) (n : Z) : string :=
  match width with
  | O => ""
  | S w => zfill w (n / 10) ++ String (ascii_of_nat (48 + Z.to_nat (n mod 10))) ""
  end.

(** [dt.isoformat()] *)
Definition isoformat (d : datetime) : string :=
  zfill 4 (year d) ++ "-" ++ zfill 2 (month d) ++ "-" ++ zfill 2 (day d)
  ++ "T" ++ zfill 2 (hour d) ++ ":" ++ zfill 2 (minute d) ++ ":"
  ++ zfill 2 (second d)
  ++ (if microsecond d =? 0 then "" else "." ++ zfill 6 (microsecond d)).

Definition fields (d : datetime) : list Z :=
  [year d; month d; day d; hour d; minute d; second d; microsecond d].

Fixpoint lex_leb (a b : list Z) : bool :=
  match a, b with
  | x :: a', y :: b' => (x <? y) || ((x =? y) && lex_leb a' b')
  | [], _ => true
  | _ :: _, [] => false
  end.

(** [d1 <= d2] on datetimes. *)
Definition leb (d1 d2 : datetime) : bool := lex_leb (fields d1) (fields d2).

(** The field ranges of a [datetime]; [utcnow()] reads no other. *)
Definition valid (d : datetime) : Prop :=
  1 <= year d <= 9999 /\ 1 <= month d <= 12 /\ 1 <= day d <= 31 /\
  0 <= hour d <= 23 /\ 0 <= minute d <= 59 /\ 0 <= second d <= 59 /\
  0 <= microsecond d <= 999999.

End DateTime.

(** ** Price gateway *)

Definition COINGECKO_BASE : string := "https://api.coingecko.com/api/v3".

Definition DEFAULT_HEADERS : list (string * string) :=
  [("User-Agent", "CryptoTracker/1.0 (+http://localhost)")].

(** [r.raise_for_status()]: an [HTTPError] for a 4xx or 5xx status. *)
Definition raise_for_status (r : response) : result unit :=
  if (400 <=? status_code r) && (status_code r <? 600)
  then Raise RequestException else Ok tt.

(** The body of the [try]. *)
Definition http_get_try (w : env) (rq : request) : result json :=
  r <- session_get w rq ;;
  _ <- raise_for_status r ;;
  json_body r.

(** [http_get(url, params=None)]; [None] is what it returns on a request
    error.  [params or {}] is the dict itself or an empty one. *)
Definition http_get (w : env) (url : string) (ps : option params) : io json :=
  let rq := {| req_url := url;
               req_params := match ps with Some p => p | None => [] end;
               req_headers := DEFAULT_HEADERS;
               req_timeout := 15 |} in
  match http_get_try w rq with
  | Raise RequestException => (Ok JNull, [EvGet rq; EvWarn url])
  | other => (other, [EvGet rq])
  end.

Definition get_top_coins (w : env) : io json :=
  let url := COINGECKO_BASE ++ "/coins/markets" in
  let ps := [("vs_currency", PStr "usd"); ("order", PStr "market_cap_desc");
             ("per_page", PInt 20); ("page", PInt 1);
             ("sparkline", PStr "false");
             ("price_change_percentage", PStr "24h")] in
  let (data, t) := http_get w url (Some ps) in
  (d <- data ;; Ok (py_or d (JList [])), t).

(** The argument of [get_simple_prices]: a list of ids or a ready string. *)
Inductive ids_arg : Type :=
  | IdsList (l : list string)
  | IdsStr (s : string).

Definition get_simple_prices (w : env) (ids : ids_arg) : io json :=
  let ids := match ids with
             | IdsList l => PyStr.join "," l
             | IdsStr s => s
             end in
  let url := COINGECKO_BASE ++ "/simple/price" in
  let ps := [("ids", PStr ids); ("vs_currencies", PStr "usd")] in
  let (data, t) := http_get w url (Some ps) in
  (d <- data ;; Ok (py_or d (JDict [])), t).

(** [[f(p) for p in ps]]: the first exception ends the comprehension. *)
Fixpoint comprehension {A B : Type} (f : A -> result B) (ps : list A)
  : result (list B) :=
  match ps with
  | [] => Ok []
  | p :: ps' => y <- f p ;; ys <- comprehension f ps' ;; Ok (y :: ys)
  end.

Section Chart.

(** The label of a point [p],
    [datetime.utcfromtimestamp(p[0] / 1000).strftime("%b %d")], and its
    value, [round(p[1], 2)]: the calendar and the decimal rounding are
    parameters of the model. *)
Variable point_label : json -> result string.
Variable point_value : json -> result json.

(** Iterating [prices]: a list gives its items, a dict its keys, a string
    its characters; nothing else is iterable. *)
Definition py_iter (v : json) : result (list json) :=
  match v with
  | JList l => Ok l
  | JDict d => Ok (map (fun kv => JStr (fst kv)) d)
  | JStr s => Ok (map (fun c => JStr (String c "")) (list_ascii_of_string s))
  | JNull | JBool _ | JInt _ | JFloat _ => Raise TypeError
  end.

Definition get_btc_chart_7d (w : env) : io (list string * list json) :=
  let url := COINGECKO_BASE ++ "/coins/bitcoin/market_chart" in
  let ps := [("vs_currency", PStr "usd"); ("days", PInt 7)] in
  let (r, t) := http_get w url (Some ps) in
  (d <- r ;;
   let data := py_or d (JDict []) in
   prices <- py_get data "prices" (JList []) ;;
   points <- py_iter prices ;;
   labels <- comprehension point_label points ;;
   values <- comprehension point_value points ;;
   Ok (labels, values), t).

End Chart.

(** ** Portfolio store *)

(** A row of the [portfolio] table.  [coin_id], [name] and [symbol] hold the
    [str] that [add_coin] binds; the two REAL columns and [last_updated] are
    nullable, as the schema has them. *)
Record holding : Type := {
  id : Z;
  coin_id : string;
  name : string;
  symbol : string;
  quantity : option PyFloat.float;
  current_price : option PyFloat.float;
  last_updated : option string
}.

(** The table: its rows in rowid order and the largest rowid ever given
    (the AUTOINCREMENT counter). *)
Record store : Type := {
  rows : list holding;
  seq : Z
}.

(** The table [init_db] creates when there is none yet. *)
Definition init_db : store := {| rows := []; seq := 0 |}.

(** [get_portfolio_rows]: [SELECT * FROM portfolio]. *)
Definition get_portfolio_rows (db : store) : list holding := rows db.

Module Sql.

(** Keeps the first occurrence of every value. *)
Fixpoint distinct (l : list string) : list string :=
  match l with
  | [] => []
  | x :: l' => x :: filter (fun y => negb (y =? x)%string) (distinct l')
  end.

(** [SELECT DISTINCT coin_id FROM portfolio] *)
Definition select_distinct_coin_id (rs : list holding) : list string :=
  distinct (map coin_id rs).

(** What a REAL column keeps of a bound float: SQLite stores NULL for a
    NaN, and a zero comes back without its sign. *)
Definition real (f : PyFloat.float) : option PyFloat.float :=
  match f with
  | S754_nan => None
  | S754_zero _ => Some (S754_zero false)
  | _ => Some f
  end.

(** The largest 64-bit signed integer, and the integers SQLite can bind. *)
Definition int64_max : Z := 9223372036854775807.

Definition int64 (n : Z) : bool := (- int64_max - 1 <=? n) && (n <=? int64_max).

(** [SET current_price=?, last_updated=?] on one row. *)
Definition set_price (p : PyFloat.float) (ts : string) (r : holding)
  : holding :=
  {| id := id r; coin_id := coin_id r; name := name r;
     symbol := symbol r; quantity := quantity r;
     current_price := real p; last_updated := Some ts |}.

(** [UPDATE portfolio SET current_price=?, last_updated=? WHERE coin_id=?] *)
Definition update_price (p : PyFloat.float) (ts : string) (cid : string)
    (rs : list holding) : list holding :=
  map (fun r => if (coin_id r =? cid)%string then set_price p ts r else r) rs.

Definition max_rowid (rs : list holding) : Z :=
  fold_right (fun r m => Z.max (id r) m) 0 rs.

(** The table with the new row, under the next rowid. *)
Definition inserted (cid nm sym : string) (q p : PyFloat.float) (ts : string)
    (db : store) : store :=
  let fresh := Z.max (seq db) (max_rowid (rows db)) + 1 in
  {| rows := rows db ++
             [{| id := fresh; coin_id := cid; name := nm; symbol := sym;
                 quantity := real q; current_price := real p;
                 last_updated := Some ts |}];
     seq := fresh |}.

(** [INSERT INTO portfolio (coin_id, name, symbol, quantity, current_price,
    last_updated) VALUES (?, ?, ?, ?, ?, ?)]: once the largest rowid has been
    given, AUTOINCREMENT refuses the row ([sqlite3.OperationalError]). *)
Definition insert (cid nm sym : string) (q p : PyFloat.float) (ts : string)
    (db : store) : result store :=
  if int64_max <=? Z.max (seq db) (max_rowid (rows db))
  then Raise (OtherError "sqlite3.OperationalError")
  else Ok (inserted cid nm sym q p ts db).

(** [DELETE FROM portfolio WHERE id=?] *)
Definition delete (item_id : Z) (db : store) : store :=
  {| rows := filter (fun r => negb (id r =? item_id)) (rows db);
     seq := seq db |}.

End Sql.

(** [prices.get(coin_id, {}).get("usd")] of the refresh. *)
Definition usd_of (prices : json) (cid : string) : result json :=
  entry <- py_get prices cid (JDict []) ;;
  py_get entry "usd" JNull.

(** The [for coin_id in ids] loop of [refresh_portfolio_prices], on the rows
    of the open connection. *)
Fixpoint refresh_loop (prices : json) (now_iso : string) (ids : list string)
    (tbl : list holding) : result (list holding) :=
  match ids with
  | [] => Ok tbl
  | cid :: rest =>
      usd_price <- usd_of prices cid ;;
      match usd_price with
      | JNull => refresh_loop prices now_iso rest tbl
      | _ =>
          p <- py_float usd_price ;;
          refresh_loop prices now_iso rest (Sql.update_price p now_iso cid tbl)
      end
  end.

(** The outcome of a handler: what it returns or raises, the table
    afterwards and the trace. *)
Definition handled (A : Type) : Type := (result A * store * list event)%type.

Definition outcome {A : Type} (h : handled A) : result A := fst (fst h).
Definition table_after {A : Type} (h : handled A) : store := snd (fst h).
Definition trace {A : Type} (h : handled A) : list event := snd h.

Definition refresh_portfolio_prices (w : env) (db : store) : handled unit :=
  let ids := Sql.select_distinct_coin_id (rows db) in
  match ids with
  | [] => (Ok tt, db, [])
  | _ :: _ =>
      let (r, t) := get_simple_prices w (IdsList ids) in
      match r with
      | Raise e => (Raise e, db, t)
      | Ok prices =>
          let now_iso := DateTime.isoformat (utcnow w) in
          match refresh_loop prices now_iso ids (rows db) with
          | Raise e => (Raise e, db, t)
          | Ok tbl => (Ok tt, {| rows := tbl; seq := seq db |}, t)
          end
      end
  end.

(** ** Handlers *)

Inductive reply : Type :=
  | redirect (location : string)
  | render_template (template : string).

Definition url_for (endpoint : string) : string := "/" ++ endpoint.

(** [request.form]: the submitted fields. *)
Definition form : Type := list (string * string).

(** [request.form.get(key, default)] *)
Definition form_get (f : form) (key default : string) : string :=
  match assoc key f with
  | Some v => v
  | None => default
  end.

(** [try: quantity = float(quantity_raw) / except ValueError: quantity = 0.0] *)
Definition parse_quantity (quantity_raw : string) : result PyFloat.float :=
  match PyFloat.of_string quantity_raw with
  | Raise ValueError => Ok PyFloat.zero
  | other => other
  end.

(** [prices.get(coin_id, {}).get("usd", 0.0)] then [float(usd_price)]. *)
Definition seed_price (prices : json) (cid : string) : result PyFloat.float :=
  entry <- py_get prices cid (JDict []) ;;
  usd_price <- py_get entry "usd" (JFloat PyFloat.zero) ;;
  py_float usd_price.

Definition add_coin (w : env) (method : string) (f : form) (db : store)
  : handled reply :=
  if (method =? "POST")%string then
    let coin_id := PyStr.lower (PyStr.strip (form_get f "coin_id" "")) in
    let name := PyStr.strip (form_get f "name" "") in
    let symbol := PyStr.lower (PyStr.strip (form_get f "symbol" "")) in
    let quantity_raw := PyStr.strip (form_get f "quantity" "0") in
    match parse_quantity quantity_raw with
    | Raise e => (Raise e, db, [])
    | Ok quantity =>
        let (r, t) := get_simple_prices w (IdsList [coin_id]) in
        match prices <- r ;; seed_price prices coin_id with
        | Raise e => (Raise e, db, t)
        | Ok price =>
            match Sql.insert coin_id name symbol quantity price
                    (DateTime.isoformat (utcnow w)) db with
            | Raise e => (Raise e, db, t)
            | Ok db' => (Ok (redirect (url_for "portfolio")), db', t)
            end
        end
    end
  else (Ok (render_template "add_coin.html"), db, []).

(** [item_id] is the integer of the route; binding one that does not fit 64
    bits raises [OverflowError] in [execute]. *)
Definition delete_coin (item_id : Z) (db : store) : handled reply :=
  if Sql.int64 item_id
  then (Ok (redirect (url_for "portfolio")), Sql.delete item_id db, [])
  else (Raise OverflowError, db, []).

(** ** The logo lookup *)

(** A value a dict accepts as a key: lists and dicts are not hashable. *)
Definition hashable (v : json) : bool :=
  match v with
  | JList _ | JDict _ => false
  | _ => true
  end.

(** A number as [m * 2^e], exactly: bools, ints and finite floats. *)
Definition dyadic (v : json) : option (Z * Z) :=
  match v with
  | JBool b => Some (if b then 1 else 0, 0)
  | JInt n => Some (n, 0)
  | JFloat (S754_zero _) => Some (0, 0)
  | JFloat (S754_finite s m e) => Some (if s then Zneg m else Zpos m, e)
  | _ => None
  end.

Definition dyadic_eqb (x y : Z * Z) : bool :=
  let e := Z.min (snd x) (snd y) in
  fst x * 2 ^ (snd x - e) =? fst y * 2 ^ (snd y - e).

(** Whether two hashable values are the same dict key: equal strings, or
    numbers of equal value whatever their type ([True], [1] and [1.0] are
    one key); the NaN of a decoded document is one object, hence one key. *)
Definition key_eqb (a b : json) : bool :=
  match a, b with
  | JStr x, JStr y => (x =? y)%string
  | JNull, JNull => true
  | JFloat (S754_infinity s), JFloat (S754_infinity t) => Bool.eqb s t
  | JFloat S754_nan, JFloat S754_nan => true
  | _, _ =>
      match dyadic a, dyadic b with
      | Some x, Some y => dyadic_eqb x y
      | _, _ => false
      end
  end.

(** A dict: its items in insertion order, no two under the same key. *)
Definition pydict : Type := list (json * json).

(** [d[k] = v]: a key already there keeps its place and takes the value. *)
Fixpoint dict_set (k v : json) (d : pydict) : pydict :=
  match d with
  | [] => [(k, v)]
  | (k', v') :: d' =>
      if key_eqb k' k then (k', v) :: d' else (k', v') :: dict_set k v d'
  end.

(** [d.get(k)] *)
Fixpoint dict_get (k : json) (d : pydict) : option json :=
  match d with
  | [] => None
  | (k', v') :: d' => if key_eqb k' k then Some v' else dict_get k d'
  end.

(** [{item.get("id"): item.get("image") for item in data if item.get("id")}]:
    the dict grown from [acc] by the items in order. *)
Fixpoint logo_items (items : list json) (acc : pydict) : result pydict :=
  match items with
  | [] => Ok acc
  | item :: rest =>
      i <- py_get item "id" JNull ;;
      if truthy i then
        image <- py_get item "image" JNull ;;
        if hashable i then logo_items rest (dict_set i image acc)
        else Raise TypeError
      else logo_items rest acc
  end.

(** [get_coin_logos_by_ids(ids)] for a list of ids. *)
Definition get_coin_logos_by_ids (w : env) (ids : list string)
  : io pydict :=
  match ids with
  | [] => (Ok [], [])
  | _ :: _ =>
      let url := COINGECKO_BASE ++ "/coins/markets" in
      let n := Z.of_nat (List.length ids) in
      let ps := [("vs_currency", PStr "usd");
                 ("ids", PStr (PyStr.join "," ids));
                 ("per_page", PInt (if n =? 0 then 1 else n));
                 ("page", PInt 1);
                 ("sparkline", PStr "false")] in
      let (r, t) := http_get w url (Some ps) in
      (d <- r ;;
       items <- py_iter (py_or d (JList [])) ;;
       logo_items items [], t)
  end.

(** What [logo_urls] holds for the coin id [cid]. *)
Definition logo_of (cid : string) (logos : pydict) : option json :=
  dict_get (JStr cid) logos.

(** ** Pages *)

(** A call of [render_template] with its context. *)
Inductive page : Type :=
  | index_html (coins total_value : json) (coins_tracked : Z)
      (change_24h : json) (labels : list string) (values : list json)
  | prices_html (coins : json)
  | portfolio_html (portfolio : list holding) (logo_urls : pydict)
  | contact_html.

(** *** [/prices] *)

(** [q in s] on strings. *)
Fixpoint contains (q s : string) : bool :=
  String.prefix q s ||
  match s with
  | EmptyString => false
  | String _ s' => contains q s'
  end.

(** [c.get(key, "").lower()]: only a [str] has the method. *)
Definition lowered (c : json) (key : string) : result string :=
  v <- py_get c key (JStr "") ;;
  match v with
  | JStr s => Ok (PyStr.lower s)
  | _ => Raise AttributeError
  end.

(** The condition of the search filter for the coin [c]. *)
Definition coin_matches (q : string) (c : json) : result bool :=
  nm <- lowered c "name" ;;
  if contains q nm then Ok true
  else
    sym <- lowered c "symbol" ;;
    if contains q sym then Ok true
    else
      i <- lowered c "id" ;;
      Ok (q =? i)%string.

(** [[c for c in coins if ...]] *)
Fixpoint filter_coins (q : string) (cs : list json) : result (list json) :=
  match cs with
  | [] => Ok []
  | c :: rest =>
      b <- coin_matches q c ;;
      kept <- filter_coins q rest ;;
      Ok (if b then c :: kept else kept)
  end.

(** The search term: [(request.args.get("search") or "").lower().strip()]. *)
Definition search_term (search : option string) : string :=
  PyStr.strip (PyStr.lower (match search with Some s => s | None => "" end)).

Definition prices (w : env) (search : option string) : io page :=
  let (r, t) := get_top_coins w in
  (coins <- r ;;
   let q := search_term search in
   coins' <- (if (q =? "")%string then Ok coins
              else cs <- py_iter coins ;;
                   kept <- filter_coins q cs ;; Ok (JList kept)) ;;
   Ok (prices_html coins'), t).

(** *** [/portfolio] *)

Fixpoint insert_sorted (x : string) (l : list string) : list string :=
  match l with
  | [] => [x]
  | y :: l' =>
      match String.compare x y with
      | Lt => x :: l
      | Eq => l
      | Gt => y :: insert_sorted x l'
      end
  end.

(** [sorted({...})]: the distinct strings in increasing order. *)
Definition sorted_set (l : list string) : list string :=
  fold_right insert_sorted [] l.

Definition portfolio (w : env) (db : store) : handled page :=
  match refresh_portfolio_prices w db with
  | (Raise e, db', t) => (Raise e, db', t)
  | (Ok _, db', t) =>
      let rows := get_portfolio_rows db' in
      let coin_ids := sorted_set (map coin_id rows) in
      let (r, t') := get_coin_logos_by_ids w coin_ids in
      (logo_urls <- r ;; Ok (portfolio_html rows logo_urls), db', (t ++ t')%list)
  end.

(** *** [/] *)

(** [coins[0]] *)
Definition py_first (coins : json) : result json :=
  match coins with
  | JList (x :: _) => Ok x
  | JList [] => Raise (OtherError "IndexError")
  | JStr (String c _) => Ok (JStr (String c EmptyString))
  | JStr EmptyString => Raise (OtherError "IndexError")
  | JDict _ => Raise (OtherError "KeyError")
  | JNull | JBool _ | JInt _ | JFloat _ => Raise TypeError
  end.

(** [next((x for x in xs if x.get("id") == "bitcoin"), default)] *)
Fixpoint next_bitcoin (xs : list json) (default : json) : result json :=
  match xs with
  | [] => Ok default
  | x :: rest =>
      i <- py_get x "id" JNull ;;
      match i with
      | JStr s => if (s =? "bitcoin")%string then Ok x
                  else next_bitcoin rest default
      | _ => next_bitcoin rest default
      end
  end.

(** The 24 hour change shown on the dashboard. *)
Definition change_24h_of (coins : json) : result json :=
  if truthy coins then
    xs <- py_iter coins ;;
    default <- py_first coins ;;
    btc <- next_bitcoin xs default ;;
    change <- py_get btc "price_change_percentage_24h" JNull ;;
    Ok (py_or change (JFloat PyFloat.zero))
  else Ok (JFloat PyFloat.zero).

(** [quantity * current_price] of a row, in SQL: NULL when the price is
    NULL or the product is not a number. *)
Definition sql_value (r : holding) : option PyFloat.float :=
  match quantity r, current_price r with
  | Some q, Some p =>
      match SFmul PyFloat.prec PyFloat.emax q p with
      | S754_nan => None
      | v => Some v
      end
  | _, _ => None
  end.

Fixpoint non_null {A : Type} (l : list (option A)) : list A :=
  match l with
  | [] => []
  | Some a :: l' => a :: non_null l'
  | None :: l' => non_null l'
  end.

Section Dashboard.

(** The chart's calendar and rounding, as in [get_btc_chart_7d], and the
    value [SUM] gives for a non-empty list of reals (its summation is the
    engine's): parameters of the model. *)
Variable point_label : json -> result string.
Variable point_value : json -> result json.
Variable sql_sum : list PyFloat.float -> json.

(** [SELECT SUM(quantity * current_price), COUNT( * ) FROM portfolio] *)
Definition select_totals (db : store) : json * Z :=
  (match non_null (map sql_value (rows db)) with
   | [] => JNull
   | vs => sql_sum vs
   end,
   Z.of_nat (List.length (rows db))).

Definition index (w : env) (db : store) : handled page :=
  match refresh_portfolio_prices w db with
  | (Raise e, db', t) => (Raise e, db', t)
  | (Ok _, db', t) =>
      let (rc, t1) := get_top_coins w in
      match rc with
      | Raise e => (Raise e, db', (t ++ t1)%list)
      | Ok coins =>
          let (rl, t2) := get_btc_chart_7d point_label point_value w in
          (lv <- rl ;;
           let (total_value, coins_tracked) := select_totals db' in
           let total_value := py_or total_value (JFloat PyFloat.zero) in
           let coins_tracked :=
             if coins_tracked =? 0 then 0 else coins_tracked in
           change_24h <- change_24h_of coins ;;
           Ok (index_html coins total_value coins_tracked change_24h
                 (fst lv) (snd lv)),
           db', (t ++ t1 ++ t2)%list)
      end
  end.

End Dashboard.

(** *** [/contact] *)

Definition contact : page := contact_html.

(** * Vocabulary of the statements *)

(** ** What a refresh sends and writes *)

(** The request [get_simple_prices] sends for the parameter [ids]. *)
Definition simple_price_request (ids : string) : request :=
  {| req_url := COINGECKO_BASE ++ "/simple/price";
     req_params := [("ids", PStr ids); ("vs_currencies", PStr "usd")];
     req_headers := DEFAULT_HEADERS;
     req_timeout := 15 |}.

(** The price the loop writes for [cid]: the [usd] entry when there is one
    and [float] accepts it. *)
Definition new_price (prices : json) (cid : string) : option PyFloat.float :=
  match usd_of prices cid with
  | Ok JNull => None
  | Ok v => match py_float v with Ok p => Some p | Raise _ => None end
  | Raise _ => None
  end.

(** The row [r] after a refresh that completed with the result [prices] at
    the time stamp [ts]. *)
Definition refreshed (prices : json) (ts : string) (r : holding) : holding :=
  match new_price prices (coin_id r) with
  | Some p => Sql.set_price p ts r
  | None => r
  end.

Definition mem (x : string) (l : list string) : bool :=
  existsb (fun y => (x =? y)%string) l.

(** The answer of the batched lookup of a refresh. *)
Definition batch (w : env) (db : store) : io json :=
  get_simple_prices w (IdsList (Sql.select_distinct_coin_id (rows db))).

(** The four ways a refresh can go: nothing held, the lookup raises, the
    loop raises, or the loop ends and the rows are committed. *)
Inductive refresh_run (w : env) (db : store) : handled unit -> Prop :=
  | run_empty :
      rows db = [] ->
      refresh_run w db (Ok tt, db, [])
  | run_lookup_raises (e : exn) (t : list event) :
      rows db <> [] ->
      batch w db = (Raise e, t) ->
      refresh_run w db (Raise e, db, t)
  | run_loop_raises (prices : json) (e : exn) (t : list event) :
      rows db <> [] ->
      batch w db = (Ok prices, t) ->
      (forall ts tbl,
         refresh_loop prices ts (Sql.select_distinct_coin_id (rows db)) tbl
         = Raise e) ->
      refresh_run w db (Raise e, db, t)
  | run_commit (prices : json) (t : list event) :
      rows db <> [] ->
      batch w db = (Ok prices, t) ->
      (forall r, In r (rows db) ->
         exists v, usd_of prices (coin_id r) = Ok v /\
           (v = JNull \/ exists p, py_float v = Ok p)) ->
      refresh_run w db
        (Ok tt,
         {| rows := map (refreshed prices (DateTime.isoformat (utcnow w)))
                      (rows db);
            seq := seq db |},
         t).

(** ** Sample worlds and tables *)

Module Sample.

Definition morning : datetime :=
  {| year := 2024; month := 3; day := 9; hour := 7; minute := 5;
     second := 0; microsecond := 1500 |}.

Definition evening : datetime :=
  {| year := 2024; month := 3; day := 9; hour := 19; minute := 30;
     second := 12; microsecond := 0 |}.

(** A service that answers every request with status 200 and [body]. *)
Definition answering (body : json) (now : datetime) : env :=
  {| session_get := fun _ => Ok {| status_code := 200; json_body := Ok body |};
     utcnow := now |}.

(** [{"bitcoin": {"usd": 50000}, "ethereum": {"usd": "2500.5"}, "dogecoin": {}}] *)
Definition quotes : json :=
  JDict [("bitcoin", JDict [("usd", JInt 50000)]);
         ("ethereum", JDict [("usd", JStr "2500.5")]);
         ("dogecoin", JDict [])].

(** The service of the examples: it quotes bitcoin and ethereum. *)
Definition market : env := answering quotes morning.

(** A service that cannot be reached. *)
Definition down (now : datetime) : env :=
  {| session_get := fun _ => Raise RequestException; utcnow := now |}.

Definition held (i : Z) (cid : string) (q : Z) (p : Z) : holding :=
  {| id := i; coin_id := cid; name := cid; symbol := cid;
     quantity := Some (PyFloat.of_decimal false q 0);
     current_price := Some (PyFloat.of_decimal false p 0);
     last_updated := Some "2024-03-01T00:00:00" |}.

(** Two bitcoin rows, one ethereum row. *)
Definition three : store :=
  {| rows := [held 1 "bitcoin" 2 100; held 2 "bitcoin" 5 200;
              held 3 "ethereum" 1 300];
     seq := 3 |}.

(** A bitcoin row and a coin the service does not know. *)
Definition mixed : store :=
  {| rows := [held 1 "bitcoin" 2 100; held 4 "bogus-coin-xyz" 3 0];
     seq := 4 |}.

(** Two coins of [/coins/markets], bitcoin the second. *)
Definition coin_list : json :=
  JList [JDict [("id", JStr "ethereum"); ("symbol", JStr "eth");
                ("name", JStr "Ethereum");
                ("price_change_percentage_24h", JInt 3)];
         JDict [("id", JStr "bitcoin"); ("symbol", JStr "btc");
                ("name", JStr "Bitcoin");
                ("price_change_percentage_24h", JInt 2)]].

(** Two points of [/coins/bitcoin/market_chart], at midnight of 9 and of
    10 March 2024. *)
Definition chart : json :=
  JDict [("prices",
          JList [JList [JInt 1709942400000; JInt 68000];
                 JList [JInt 1710028800000; JInt 69000]])].

(** A service that answers each endpoint with its own body. *)
Definition exchange : env :=
  {| session_get := fun rq =>
       Ok {| status_code := 200;
             json_body :=
               Ok (if (req_url rq =? COINGECKO_BASE ++ "/simple/price")%string
                   then quotes
                   else if (req_url rq
                            =? COINGECKO_BASE ++ "/coins/markets")%string
                        then coin_list
                        else chart) |};
     utcnow := evening |}.

(** The chart's calendar on the two days of [chart], and [round(v, 2)] on
    an [int], which it returns as it is. *)
Definition label (p : json) : result string :=
  match p with
  | JList (JInt ms :: _) =>
      if ms =? 1709942400000 then Ok "Mar 09"
      else if ms =? 1710028800000 then Ok "Mar 10"
      else Raise ValueError
  | _ => Raise TypeError
  end.

Definition rounded (p : json) : result json :=
  match p with
  | JList (_ :: JInt v :: _) => Ok (JInt v)
  | _ => Raise TypeError
  end.

(** A sum that adds the values from the left. *)
Definition total (vs : list PyFloat.float) : json :=
  JFloat (fold_left (SFadd PyFloat.prec PyFloat.emax) vs PyFloat.zero).

End Sample.

(** ** Predicates of the claims *)

(** The lookup result has no price for [cid]: no entry for it, or an entry
    without a [usd] value. *)
Inductive no_usd_price : json -> string -> Prop :=
  | no_entry (d : list (string * json)) (cid : string) :
      assoc cid d = None ->
      no_usd_price (JDict d) cid
  | no_usd_key (d e : list (string * json)) (cid : string) :
      assoc cid d = Some (JDict e) ->
      assoc "usd" e = None ->
      no_usd_price (JDict d) cid
  | null_usd (d e : list (string * json)) (cid : string) :
      assoc cid d = Some (JDict e) ->
      assoc "usd" e = Some JNull ->
      no_usd_price (JDict d) cid.

(** [b] is the time stamp [a] or a later one.  The column holds the text
    [isoformat] wrote, and texts of that format stand in the order of the
    instants they name, so the stamps are compared as strings; a NULL
    matches a NULL only. *)
Definition not_earlier (a b : option string) : Prop :=
  match a, b with
  | Some x, Some y => String.leb x y = true
  | None, None => True
  | _, _ => False
  end.

(** The same row up to its time stamp, which has not gone back. *)
Definition same_price_not_earlier (r1 r2 : holding) : Prop :=
  id r2 = id r1 /\ coin_id r2 = coin_id r1 /\ name r2 = name r1 /\
  symbol r2 = symbol r1 /\ quantity r2 = quantity r1 /\
  current_price r2 = current_price r1 /\
  not_earlier (last_updated r1) (last_updated r2).

(** The nullable columns of the row hold a value. *)
Definition filled (r : holding) : Prop :=
  current_price r <> None /\ last_updated r <> None.

(** Every row has a price and a time stamp. *)
Definition all_filled (db : store) : Prop := Forall filled (rows db).

(** Every row has a time stamp. *)
Definition all_stamped (db : store) : Prop :=
  Forall (fun r => last_updated r <> None) (rows db).

(** No usd value of the lookup result is one that [float] turns into a NaN. *)
Definition quotes_no_nan (lookup : result json) : Prop :=
  forall prices cid v,
    lookup = Ok prices -> usd_of prices cid = Ok v ->
    py_float v <> Ok S754_nan.

(** The submission has no [coin_id] field, or a blank one. *)
Definition no_coin_id (f : form) : Prop :=
  match assoc "coin_id" f with
  | None => True
  | Some s => PyStr.only_spaces s = true
  end.

(** What happens to the table after a row was added. *)
Inductive action : Type :=
  | Refresh (w : env)
  | Add (w : env) (method : string) (f : form)
  | Delete (item_id : Z).

(** The table after the action. *)
Definition perform (a : action) (db : store) : store :=
  match a with
  | Refresh w => table_after (refresh_portfolio_prices w db)
  | Add w method f => table_after (add_coin w method f db)
  | Delete item_id => table_after (delete_coin item_id db)
  end.

(** The refreshes among [acts], run in order from [db]: for each one the
    distinct ids it read and the trace it left. *)
Fixpoint batches (acts : list action) (db : store)
  : list (list string * list event) :=
  match acts with
  | [] => []
  | a :: rest =>
      match a with
      | Refresh w =>
          [(Sql.select_distinct_coin_id (rows db),
            trace (refresh_portfolio_prices w db))]
      | _ => []
      end ++ batches rest (perform a db)
  end.

(** The batch is for ids that include the empty one. *)
Definition looks_up_empty_id (b : list string * list event) : Prop :=
  In "" (fst b) /\
  requests_of (snd b) = [simple_price_request (PyStr.join "," (fst b))].

(** The table has a row of rowid [i] whose coin id is empty. *)
Definition holds_blank (i : Z) (db : store) : Prop :=
  exists r, In r (rows db) /\ coin_id r = "" /\ id r = i.

(** The quantity [add_coin] keeps for the text [raw]. *)
Definition quantity_of (raw : string) : PyFloat.float :=
  match PyFloat.of_string raw with
  | Ok v => v
  | Raise _ => PyFloat.zero
  end.

(** The request [rq] fails: [session.get] raises a request error (no
    connection, a timeout, the retries used up), or the answer has a 4xx or
    5xx status, or its body does not decode. *)
Inductive request_fails (w : env) (rq : request) : Prop :=
  | fails_to_connect :
      session_get w rq = Raise RequestException ->
      request_fails w rq
  | fails_with_status (r : response) :
      session_get w rq = Ok r ->
      400 <= status_code r < 600 ->
      request_fails w rq
  | fails_to_decode (r : response) :
      session_get w rq = Ok r ->
      json_body r = Raise RequestException ->
      request_fails w rq.

(** ** Further vocabulary *)

(** The request [http_get] sends for [url] and [ps]. *)
Definition request_for (url : string) (ps : option params) : request :=
  {| req_url := url;
     req_params := match ps with Some p => p | None => [] end;
     req_headers := DEFAULT_HEADERS;
     req_timeout := 15 |}.

(** The request [get_coin_logos_by_ids] sends for the ids. *)
Definition logo_request (ids : list string) : request :=
  request_for (COINGECKO_BASE ++ "/coins/markets")
    (Some [("vs_currency", PStr "usd");
           ("ids", PStr (PyStr.join "," ids));
           ("per_page", PInt (Z.of_nat (List.length ids)));
           ("page", PInt 1);
           ("sparkline", PStr "false")]).

(** The image of the last item of the list whose id is the string [cid]:
    what [item.get("image")] gives for it. *)
Fixpoint last_image (cid : string) (items : list json) : option json :=
  match items with
  | [] => None
  | item :: rest =>
      match last_image cid rest with
      | Some v => Some v
      | None =>
          match py_get item "id" JNull, py_get item "image" JNull with
          | Ok (JStr s), Ok v => if (s =? cid)%string then Some v else None
          | _, _ => None
          end
      end
  end.

(** The answer has a status that [raise_for_status] lets through. *)
Definition status_ok (r : response) : Prop :=
  status_code r < 400 \/ 600 <= status_code r.

(** Rows stand in increasing rowid order and no rowid exceeds the
    AUTOINCREMENT counter. *)
Definition rowids_ok (db : store) : Prop :=
  StronglySorted Z.lt (map id (rows db)) /\
  Forall (fun r => id r <= seq db) (rows db).

(** Every rowid is one AUTOINCREMENT gives, from 1 to the largest 64-bit
    integer, and the counter has not passed that integer. *)
Definition rowids_in_range (db : store) : Prop :=
  Forall (fun r => 1 <= id r <= Sql.int64_max) (rows db) /\
  0 <= seq db <= Sql.int64_max.

(** AUTOINCREMENT still has a rowid to give: neither the counter nor the
    largest rowid of the table stands at the largest 64-bit integer. *)
Definition rowid_left (db : store) : Prop :=
  Z.max (seq db) (Sql.max_rowid (rows db)) < Sql.int64_max.

(** The two rows differ at most in price and time stamp. *)
Definition same_holding (old new : holding) : Prop :=
  id new = id old /\ coin_id new = coin_id old /\ name new = name old /\
  symbol new = symbol old /\ quantity new = quantity old.

(** The lookup result quotes no price for [cid] in a way [add_coin]
    tolerates: no entry, or an entry without a [usd] key. *)
Definition unquoted (prices : json) (cid : string) : Prop :=
  exists d, prices = JDict d /\
    (assoc cid d = None \/
     exists e, assoc cid d = Some (JDict e) /\ assoc "usd" e = None).

(** The coin is a dict whose name, symbol and id, when present, are strings. *)
Definition plain_coin (c : json) : Prop :=
  exists d, c = JDict d /\
    forall key, key = "name" \/ key = "symbol" \/ key = "id" ->
      match assoc key d with
      | Some (JStr _) | None => True
      | Some _ => False
      end.

(** [a < b] on strings. *)
Definition str_lt (a b : string) : Prop := String.compare a b = Lt.

(** A dict whose id is not bitcoin. *)
Definition not_bitcoin (c : json) : Prop :=
  exists d, c = JDict d /\ assoc "id" d <> Some (JStr "bitcoin").

(** The 24 hour change the dashboard shows for the coin [d]: its
    [price_change_percentage_24h], or 0.0 when that is missing, null or zero. *)
Definition change_of (d : list (string * json)) : json :=
  py_or (match assoc "price_change_percentage_24h" d with
         | Some x => x
         | None => JNull
         end) (JFloat PyFloat.zero).

(** One list is the other with some elements left out. *)
Inductive sublist {A : Type} : list A -> list A -> Prop :=
  | sublist_nil : sublist [] []
  | sublist_keep (x : A) (k l : list A) : sublist k l -> sublist (x :: k) (x :: l)
  | sublist_skip (x : A) (k l : list A) : sublist k l -> sublist k (x :: l).

(** * Properties *)

(** ** The model on examples *)

Example float_of_string_3 :
  PyFloat.of_string "3" = Ok (S754_finite false 6755399441055744 (-51)).
Proof. reflexivity. Qed.

Example float_of_string_tenth :
  PyFloat.of_string " +1_0.0e-2 " = Ok (S754_finite false 7205759403792794 (-56)).
Proof. vm_compute. reflexivity. Qed.

Example float_of_string_abc : PyFloat.of_string "abc" = Raise ValueError.
Proof. reflexivity. Qed.

Example float_of_string_huge : PyFloat.of_string "1e400" = Ok (S754_infinity false).
Proof. vm_compute. reflexivity. Qed.

Example isoformat_sample :
  DateTime.isoformat
    {| year := 2024; month := 3; day := 9; hour := 7; minute := 5;
       second := 0; microsecond := 1500 |} = "2024-03-09T07:05:00.001500".
Proof. reflexivity. Qed.

Example add_unknown_coin :
  add_coin (Sample.answering (JDict []) Sample.morning) "POST"
    [("coin_id", "bogus-coin-xyz"); ("name", "X"); ("symbol", "x");
     ("quantity", "3")] init_db
  = (Ok (redirect "/portfolio"),
     {| rows := [{| id := 1; coin_id := "bogus-coin-xyz"; name := "X";
                    symbol := "x";
                    quantity := Some (S754_finite false 6755399441055744 (-51));
                    current_price := Some PyFloat.zero;
                    last_updated := Some "2024-03-09T07:05:00.001500" |}];
        seq := 1 |},
     [EvGet (simple_price_request "bogus-coin-xyz")]).
Proof. vm_compute. reflexivity. Qed.

Example add_malformed_quantity :
  map quantity
    (rows (table_after
             (add_coin Sample.market "POST"
                [("coin_id", "Bitcoin "); ("quantity", "abc")] init_db)))
  = [Some PyFloat.zero].
Proof. vm_compute. reflexivity. Qed.

Example refresh_mixed :
  refresh_portfolio_prices Sample.market Sample.mixed
  = (Ok tt,
     {| rows := [{| id := 1; coin_id := "bitcoin"; name := "bitcoin";
                    symbol := "bitcoin";
                    quantity := Some (PyFloat.of_decimal false 2 0);
                    current_price := Some (PyFloat.of_decimal false 50000 0);
                    last_updated := Some "2024-03-09T07:05:00.001500" |};
                 Sample.held 4 "bogus-coin-xyz" 3 0];
        seq := 4 |},
     [EvGet (simple_price_request "bitcoin,bogus-coin-xyz")]).
Proof. vm_compute. reflexivity. Qed.

Example refresh_service_down :
  refresh_portfolio_prices (Sample.down Sample.evening) Sample.mixed
  = (Ok tt, Sample.mixed,
     [EvGet (simple_price_request "bitcoin,bogus-coin-xyz");
      EvWarn (COINGECKO_BASE ++ "/simple/price")]).
Proof. vm_compute. reflexivity. Qed.

Example refresh_unexpected_body :
  refresh_portfolio_prices
    (Sample.answering (JList [JInt 1]) Sample.evening) Sample.mixed
  = (Raise AttributeError, Sample.mixed,
     [EvGet (simple_price_request "bitcoin,bogus-coin-xyz")]).
Proof. vm_compute. reflexivity. Qed.

Example refresh_nothing_held :
  refresh_portfolio_prices Sample.market init_db = (Ok tt, init_db, []).
Proof. reflexivity. Qed.

(** ** Lists of distinct ids *)

Lemma distinct_In (l : list string) (x : string) :
  In x (Sql.distinct l) <-> In x l.
Proof.
  induction l as [|a l IH]; simpl; [tauto|].
  rewrite filter_In, IH, negb_true_iff, String.eqb_neq.
  destruct (string_dec a x) as [->|Hne]; [tauto|].
  split; [tauto|]. intros [H|H]; [tauto|]. right. split; congruence.
Qed.

Lemma distinct_NoDup (l : list string) : NoDup (Sql.distinct l).
Proof.
  induction l as [|a l IH]; simpl; constructor.
  - rewrite filter_In, String.eqb_refl. simpl. intros [_ H]. discriminate.
  - now apply NoDup_filter.
Qed.

Lemma distinct_nil (l : list string) : Sql.distinct l = [] -> l = [].
Proof. destruct l; simpl; [reflexivity|discriminate]. Qed.

Lemma select_distinct_In (rs : list holding) (r : holding) :
  In r rs -> In (coin_id r) (Sql.select_distinct_coin_id rs).
Proof.
  intros H. unfold Sql.select_distinct_coin_id.
  apply distinct_In, in_map, H.
Qed.

(** ** The gateway's single request *)

Lemma http_get_requests (w : env) (url : string) (ps : option params) :
  requests_of (snd (http_get w url ps)) =
  [{| req_url := url;
      req_params := match ps with Some p => p | None => [] end;
      req_headers := DEFAULT_HEADERS;
      req_timeout := 15 |}].
Proof.
  unfold http_get.
  destruct (http_get_try w _) as [v|[]]; reflexivity.
Qed.

Lemma get_simple_prices_requests (w : env) (l : list string) :
  requests_of (snd (get_simple_prices w (IdsList l))) =
  [simple_price_request (PyStr.join "," l)].
Proof.
  unfold get_simple_prices.
  pose proof (http_get_requests w (COINGECKO_BASE ++ "/simple/price")
    (Some [("ids", PStr (PyStr.join "," l)); ("vs_currencies", PStr "usd")])) as H.
  destruct (http_get w _ _) as [d t]. exact H.
Qed.

(** The answer of [get_simple_prices] depends on the service only. *)
Lemma get_simple_prices_ext (w1 w2 : env) (ids : ids_arg) :
  (forall rq, session_get w2 rq = session_get w1 rq) ->
  get_simple_prices w2 ids = get_simple_prices w1 ids.
Proof.
  intros H. unfold get_simple_prices, http_get, http_get_try.
  now rewrite H.
Qed.

(** ** What a refresh does to a row *)

Lemma mem_In (x : string) (l : list string) : mem x l = true <-> In x l.
Proof.
  unfold mem. rewrite existsb_exists. split.
  - intros [y [Hy E]]. apply String.eqb_eq in E. now subst.
  - intros H. exists x. now rewrite String.eqb_refl.
Qed.

Lemma refreshed_coin_id (prices : json) (ts : string) (r : holding) :
  coin_id (refreshed prices ts r) = coin_id r.
Proof. unfold refreshed. now destruct (new_price prices (coin_id r)). Qed.

Lemma refreshed_set_price (prices : json) (ts : string) (p : PyFloat.float)
    (r : holding) :
  new_price prices (coin_id r) = Some p ->
  refreshed prices ts (Sql.set_price p ts r) = Sql.set_price p ts r.
Proof. intros H. unfold refreshed. simpl. now rewrite H. Qed.

(** A loop that ends normally has rewritten exactly the rows of the listed
    ids, each to its [refreshed] form. *)
Lemma refresh_loop_ok (prices : json) (ts : string) (ids : list string) :
  forall tbl tbl',
    refresh_loop prices ts ids tbl = Ok tbl' ->
    tbl' = map (fun r => if mem (coin_id r) ids
                         then refreshed prices ts r else r) tbl.
Proof.
  induction ids as [|cid rest IH]; intros tbl tbl' H; simpl in H.
  - injection H as <-. simpl. now rewrite map_id.
  - destruct (usd_of prices cid) as [v|e] eqn:Hu; simpl in H; [|discriminate].
    assert (Hloop :
      (v = JNull /\ refresh_loop prices ts rest tbl = Ok tbl') \/
      (v <> JNull /\ exists p, py_float v = Ok p /\
         refresh_loop prices ts rest (Sql.update_price p ts cid tbl) = Ok tbl')).
    { destruct v; [left; now split | right ..];
        (split; [discriminate|]);
        match type of H with
        | rbind ?m _ = _ => destruct m as [p|e] eqn:Hp; simpl in H;
                            [exists p; now split | discriminate]
        end. }
    clear H. destruct Hloop as [[-> H] | [Hv [p [Hp H]]]].
    + rewrite (IH _ _ H). apply map_ext. intros r. simpl.
      destruct (String.eqb_spec (coin_id r) cid) as [E|E]; simpl; [|reflexivity].
      assert (refreshed prices ts r = r) as ->.
      { unfold refreshed, new_price. now rewrite E, Hu. }
      now destruct (mem (coin_id r) rest).
    + rewrite (IH _ _ H). unfold Sql.update_price. rewrite map_map.
      apply map_ext. intros r. simpl.
      assert (Hnp : coin_id r = cid -> new_price prices (coin_id r) = Some p).
      { intros ->. unfold new_price. rewrite Hu, Hp. now destruct v. }
      destruct (String.eqb_spec (coin_id r) cid) as [E|E]; simpl; [|reflexivity].
      rewrite (refreshed_set_price _ _ _ _ (Hnp E)).
      unfold refreshed at 1. rewrite (Hnp E).
      now destruct (mem (coin_id r) rest).
Qed.

(** Whether the loop ends normally is decided by the prices and the ids. *)
Lemma refresh_loop_outcome (prices : json) (ids : list string) :
  forall ts1 ts2 tbl1 tbl2,
    match refresh_loop prices ts1 ids tbl1, refresh_loop prices ts2 ids tbl2 with
    | Ok _, Ok _ => True
    | Raise e1, Raise e2 => e1 = e2
    | _, _ => False
    end.
Proof.
  induction ids as [|cid rest IH]; intros ts1 ts2 tbl1 tbl2; simpl; [exact I|].
  destruct (usd_of prices cid) as [v|e]; simpl; [|reflexivity].
  destruct v; try apply IH;
    match goal with
    | |- context [rbind ?m _] => destruct m as [p|e]; simpl; [apply IH|reflexivity]
    end.
Qed.

(** A loop that ends normally met, for every id, no price or one that
    [float] accepts. *)
Lemma refresh_loop_priced (prices : json) (ts : string) (ids : list string) :
  forall tbl tbl',
    refresh_loop prices ts ids tbl = Ok tbl' ->
    forall cid, In cid ids ->
      exists v, usd_of prices cid = Ok v /\
        (v = JNull \/ exists p, py_float v = Ok p).
Proof.
  induction ids as [|c rest IH]; intros tbl tbl' H cid Hin; [destruct Hin|].
  simpl in H.
  destruct (usd_of prices c) as [v|e] eqn:Hu; simpl in H; [|discriminate].
  destruct Hin as [<-|Hin].
  - exists v. split; [exact Hu|]. clear Hu.
    destruct v; [now left | right ..];
      match type of H with
      | rbind ?m _ = _ => destruct m as [p|e]; [now exists p | discriminate]
      end.
  - destruct v; [now apply (IH _ _ H) | ..];
      match type of H with
      | rbind ?m _ = _ => destruct m as [p|e]; simpl in H;
                          [now apply (IH _ _ H) | discriminate]
      end.
Qed.

(** ** The four ways a refresh can go *)

Lemma refresh_run_complete (w : env) (db : store) :
  refresh_run w db (refresh_portfolio_prices w db).
Proof.
  unfold refresh_portfolio_prices.
  destruct (Sql.select_distinct_coin_id (rows db)) as [|c ids] eqn:Hids.
  - apply run_empty.
    apply distinct_nil in Hids. now apply map_eq_nil in Hids.
  - assert (Hne : rows db <> []).
    { intros E. rewrite E in Hids. discriminate. }
    destruct (get_simple_prices w (IdsList (c :: ids))) as [[prices|e] t] eqn:Hb.
    + destruct (refresh_loop prices (DateTime.isoformat (utcnow w)) (c :: ids)
                  (rows db)) as [tbl|e] eqn:Hl.
      * rewrite (refresh_loop_ok _ _ _ _ _ Hl).
        erewrite map_ext_in.
        -- apply run_commit;
             [exact Hne | unfold batch; rewrite Hids; exact Hb |].
           intros r Hr.
           apply (refresh_loop_priced _ _ _ _ _ Hl).
           rewrite <- Hids. now apply select_distinct_In.
        -- intros r Hr. simpl.
           assert (mem (coin_id r) (c :: ids) = true) as E.
           { apply mem_In. rewrite <- Hids. now apply select_distinct_In. }
           simpl in E. now rewrite E.
      * apply run_loop_raises with (prices := prices);
          [exact Hne | unfold batch; now rewrite Hids |].
        intros ts tbl. rewrite Hids.
        pose proof (refresh_loop_outcome prices (c :: ids)
                      (DateTime.isoformat (utcnow w)) ts (rows db) tbl) as Ho.
        rewrite Hl in Ho.
        destruct (refresh_loop prices ts (c :: ids) tbl); [destruct Ho|now subst].
    + apply run_lookup_raises; [exact Hne | unfold batch; now rewrite Hids].
Qed.

(** ** Rows without a price keep their price and time stamp *)

Lemma no_usd_price_usd_of (prices : json) (cid : string) :
  no_usd_price prices cid -> usd_of prices cid = Ok JNull.
Proof.
  intros H. destruct H as [d c H | d e c H H' | d e c H H'];
    unfold usd_of; simpl; rewrite H; simpl; try rewrite H'; reflexivity.
Qed.

Lemma refreshed_changed (prices : json) (ts : string) (r : holding) :
  refreshed prices ts r <> r ->
  exists v, usd_of prices (coin_id r) = Ok v /\ v <> JNull.
Proof.
  unfold refreshed, new_price. intros H.
  destruct (usd_of prices (coin_id r)) as [v|e]; [|now elim H].
  exists v. split; [reflexivity|]. intros ->. now elim H.
Qed.

Lemma Forall2_map_r {A B : Type} (R : A -> B -> Prop) (f : A -> B) (l : list A) :
  (forall a, In a l -> R a (f a)) -> Forall2 R l (map f l).
Proof.
  induction l as [|a l IH]; intros H; simpl; constructor.
  - apply H. now left.
  - apply IH. intros b Hb. apply H. now right.
Qed.

Lemma Forall2_same {A : Type} (R : A -> A -> Prop) (l : list A) :
  (forall a, In a l -> R a a) -> Forall2 R l l.
Proof.
  intros H. rewrite <- (map_id l) at 2. now apply Forall2_map_r.
Qed.

(** C1.  A refresh leaves every row whose [coin_id] has no price in the
    batched lookup result (no entry, or an entry without a usd value) exactly
    as it was, [current_price] and [last_updated] included; a row that
    differs after the refresh is one whose [coin_id] has a usd price in that
    result.  Rows are compared position by position in table order. *)
Theorem refresh_keeps_unpriced_rows
    (w : env) (db db' : store) (out : result unit) (t : list event) :
  refresh_portfolio_prices w db = (out, db', t) ->
  Forall2
    (fun old new =>
       (forall prices,
          fst (batch w db) = Ok prices ->
          no_usd_price prices (coin_id old) ->
          new = old /\
          current_price new = current_price old /\
          last_updated new = last_updated old)
       /\
       (new <> old ->
          exists prices v,
            fst (batch w db) = Ok prices /\
            usd_of prices (coin_id old) = Ok v /\ v <> JNull))
    (rows db) (rows db').
Proof.
  intros Hrun.
  pose proof (refresh_run_complete w db) as R. rewrite Hrun in R.
  inversion R as [Hnil | e t0 Hne Hb | prices e t0 Hne Hb Hl
                  | prices t0 Hne Hb Hok]; subst.
  1-3: apply Forall2_same; intros r _; split;
       [intros; now repeat split | intros H; now elim H].
  simpl. apply Forall2_map_r. intros r Hr.
  rewrite Hb. simpl. split.
  - intros prices' [= <-] Hno.
    assert (refreshed prices (DateTime.isoformat (utcnow w)) r = r) as ->.
    { unfold refreshed, new_price.
      now rewrite (no_usd_price_usd_of _ _ Hno). }
    now repeat split.
  - intros Hch. exists prices.
    destruct (refreshed_changed _ _ _ Hch) as [v [Hv Hn]].
    exists v. now repeat split.
Qed.

Lemma refresh_keeps_unpriced_rows_witness :
  Forall2
    (fun old new =>
       (forall prices,
          fst (batch Sample.market Sample.mixed) = Ok prices ->
          no_usd_price prices (coin_id old) ->
          new = old /\
          current_price new = current_price old /\
          last_updated new = last_updated old)
       /\
       (new <> old ->
          exists prices v,
            fst (batch Sample.market Sample.mixed) = Ok prices /\
            usd_of prices (coin_id old) = Ok v /\ v <> JNull))
    (rows Sample.mixed)
    (rows (table_after (refresh_portfolio_prices Sample.market Sample.mixed))).
Proof.
  apply (refresh_keeps_unpriced_rows Sample.market Sample.mixed
           (table_after (refresh_portfolio_prices Sample.market Sample.mixed))
           (outcome (refresh_portfolio_prices Sample.market Sample.mixed))
           (trace (refresh_portfolio_prices Sample.market Sample.mixed))).
  vm_compute. reflexivity.
Defined.

(** ** One time stamp per refresh *)

Lemma refreshed_stamp (prices : json) (ts : string) (r : holding) :
  refreshed prices ts r = r \/
  exists p, new_price prices (coin_id r) = Some p /\
            refreshed prices ts r = Sql.set_price p ts r.
Proof.
  unfold refreshed.
  destruct (new_price prices (coin_id r)) as [p|]; [right|now left].
  now exists p.
Qed.

Lemma new_price_present (prices : json) (cid : string) (v : json) :
  usd_of prices cid = Ok v -> v <> JNull ->
  (v = JNull \/ exists p, py_float v = Ok p) ->
  exists p, py_float v = Ok p /\ new_price prices cid = Some p.
Proof.
  intros Hu Hn [->|[p Hp]]; [now elim Hn|].
  exists p. split; [exact Hp|].
  unfold new_price. rewrite Hu, Hp. now destruct v.
Qed.

(** C5.  Every row a refresh updates carries the same [last_updated] value
    afterwards, the ISO text of the one clock reading of that refresh: this
    holds for every row the refresh changed and, when the refresh completes,
    for every row whose [coin_id] has a usd price in the lookup result. *)
Theorem refresh_shares_one_timestamp
    (w : env) (db db' : store) (out : result unit) (t : list event) :
  refresh_portfolio_prices w db = (out, db', t) ->
  exists ts : string,
    ts = DateTime.isoformat (utcnow w) /\
    Forall2
      (fun old new =>
         (new <> old -> last_updated new = Some ts) /\
         (forall prices v,
            out = Ok tt ->
            fst (batch w db) = Ok prices ->
            usd_of prices (coin_id old) = Ok v -> v <> JNull ->
            last_updated new = Some ts))
      (rows db) (rows db').
Proof.
  intros Hrun. exists (DateTime.isoformat (utcnow w)). split; [reflexivity|].
  pose proof (refresh_run_complete w db) as R. rewrite Hrun in R.
  inversion R as [Hnil | e t0 Hne Hb | prices e t0 Hne Hb Hl
                  | prices t0 Hne Hb Hok]; subst.
  - rewrite Hnil. constructor.
  - apply Forall2_same; intros r _; split;
      [intros H; now elim H | intros; discriminate].
  - apply Forall2_same; intros r _; split;
      [intros H; now elim H | intros; discriminate].
  - simpl. apply Forall2_map_r. intros r Hr. split.
    + intros Hch.
      destruct (refreshed_stamp prices (DateTime.isoformat (utcnow w)) r)
        as [E | [p [_ E]]]; [now elim Hch | now rewrite E].
    + intros prices' v _ Hp Hu Hn. rewrite Hb in Hp. injection Hp as <-.
      destruct (Hok r Hr) as [v' [Hu' Hv']].
      rewrite Hu in Hu'. injection Hu' as <-.
      destruct (new_price_present _ _ _ Hu Hn Hv') as [p [_ Hp]].
      unfold refreshed. now rewrite Hp.
Qed.

Lemma refresh_shares_one_timestamp_witness :
  exists ts : string,
    ts = DateTime.isoformat (utcnow Sample.market) /\
    Forall2
      (fun old new =>
         (new <> old -> last_updated new = Some ts) /\
         (forall prices v,
            outcome (refresh_portfolio_prices Sample.market Sample.three)
            = Ok tt ->
            fst (batch Sample.market Sample.three) = Ok prices ->
            usd_of prices (coin_id old) = Ok v -> v <> JNull ->
            last_updated new = Some ts))
      (rows Sample.three)
      (rows (table_after (refresh_portfolio_prices Sample.market Sample.three))).
Proof.
  apply (refresh_shares_one_timestamp Sample.market Sample.three
           (table_after (refresh_portfolio_prices Sample.market Sample.three))
           (outcome (refresh_portfolio_prices Sample.market Sample.three))
           (trace (refresh_portfolio_prices Sample.market Sample.three))).
  vm_compute. reflexivity.
Defined.

(** ** One batched lookup per refresh *)

Lemma select_distinct_spec (rs : list holding) (c : string) :
  In c (Sql.select_distinct_coin_id rs) <-> exists r, In r rs /\ coin_id r = c.
Proof.
  unfold Sql.select_distinct_coin_id. rewrite distinct_In, in_map_iff.
  split; intros [r [H1 H2]]; exists r; tauto.
Qed.

Lemma refresh_requests (w : env) (db : store) :
  rows db <> [] ->
  requests_of (trace (refresh_portfolio_prices w db)) =
  [simple_price_request
     (PyStr.join "," (Sql.select_distinct_coin_id (rows db)))].
Proof.
  intros Hne.
  pose proof (get_simple_prices_requests w
                (Sql.select_distinct_coin_id (rows db))) as Hrq.
  fold (batch w db) in Hrq.
  destruct (refresh_run_complete w db)
    as [Hnil | e t0 _ Hb | prices e t0 _ Hb Hl | prices t0 _ Hb Hok];
    [contradiction | ..]; rewrite Hb in Hrq; exact Hrq.
Qed.

(** C2.  A refresh reads the distinct [coin_id] values of the table (each
    value once, exactly the values the rows carry).  When there is none it
    does no I/O and leaves the table alone; otherwise its trace holds exactly
    one request, the [simple/price] lookup for all of them joined by commas.
    For a table of three rows with the ids bitcoin, bitcoin and ethereum the
    lookup is for the two ids bitcoin and ethereum, and the two bitcoin rows
    end with one and the same price when either of them was updated: what
    the column keeps of [float] of bitcoin's usd value. *)
Theorem refresh_issues_one_batched_lookup
    (w : env) (db db' : store) (out : result unit) (t : list event) :
  refresh_portfolio_prices w db = (out, db', t) ->
  let ids := Sql.select_distinct_coin_id (rows db) in
  (NoDup ids /\ forall c, In c ids <-> exists r, In r (rows db) /\ coin_id r = c)
  /\ (ids = [] -> t = [] /\ db' = db /\ out = Ok tt)
  /\ (ids <> [] -> requests_of t = [simple_price_request (PyStr.join "," ids)])
  /\ (forall a b c,
        rows db = [a; b; c] ->
        coin_id a = "bitcoin" -> coin_id b = "bitcoin" ->
        coin_id c = "ethereum" ->
        ids = ["bitcoin"; "ethereum"] /\
        List.length ids = 2%nat /\
        requests_of t = [simple_price_request "bitcoin,ethereum"] /\
        exists a' b' c',
          rows db' = [a'; b'; c'] /\
          ((a' = a /\ b' = b) \/
           exists p, current_price a' = Sql.real p /\
                     current_price b' = Sql.real p) /\
          (forall prices v,
             out = Ok tt ->
             fst (batch w db) = Ok prices ->
             usd_of prices "bitcoin" = Ok v -> v <> JNull ->
             exists p, py_float v = Ok p /\
                       current_price a' = Sql.real p /\
                       current_price b' = Sql.real p)).
Proof.
  intros Hrun ids.
  assert (Hreq : rows db <> [] ->
                 requests_of t = [simple_price_request (PyStr.join "," ids)]).
  { intros Hne. pose proof (refresh_requests w db Hne) as H.
    now rewrite Hrun in H. }
  split; [|split; [|split]].
  - split; [apply distinct_NoDup | apply select_distinct_spec].
  - intros Hids. unfold refresh_portfolio_prices in Hrun.
    fold ids in Hrun. rewrite Hids in Hrun. now injection Hrun as <- <- <-.
  - intros Hids. apply Hreq. intros E. apply Hids.
    subst ids. now rewrite E.
  - intros a b c Hrows Ha Hb Hc.
    assert (Hids : ids = ["bitcoin"; "ethereum"]).
    { subst ids. unfold Sql.select_distinct_coin_id.
      rewrite Hrows. simpl. now rewrite Ha, Hb, Hc. }
    split; [exact Hids|]. split; [now rewrite Hids|].
    split; [rewrite Hreq; [now rewrite Hids | now rewrite Hrows]|].
    pose proof (refresh_run_complete w db) as R. rewrite Hrun in R.
    inversion R as [Hnil | e t0 Hne Hbt | prices e t0 Hne Hbt Hl
                    | prices t0 Hne Hbt Hok]; subst.
    1-3: exists a, b, c; split; [exact Hrows|];
         split; [now left | intros ? ? Hout; try discriminate Hout].
    { exfalso. rewrite Hnil in Hrows. discriminate. }
    simpl. rewrite Hrows. simpl. do 3 eexists. split; [reflexivity|].
    unfold refreshed. rewrite Ha, Hb. split.
    + destruct (new_price prices "bitcoin") as [p|]; [right | now left].
      now exists p.
    + intros prices' v _ Hp Hu Hn. rewrite Hbt in Hp. injection Hp as <-.
      destruct (Hok a) as [v' [Hu' Hv']]; [rewrite Hrows; now left|].
      rewrite Ha, Hu in Hu'. injection Hu' as <-.
      destruct (new_price_present _ _ _ Hu Hn Hv') as [p [Hp ->]].
      now exists p.
Qed.

Lemma refresh_issues_one_batched_lookup_witness :
  let ids := Sql.select_distinct_coin_id (rows Sample.three) in
  let h := refresh_portfolio_prices Sample.market Sample.three in
  (NoDup ids /\
   forall c, In c ids <-> exists r, In r (rows Sample.three) /\ coin_id r = c)
  /\ (ids = [] -> trace h = [] /\ table_after h = Sample.three /\ outcome h = Ok tt)
  /\ (ids <> [] ->
      requests_of (trace h) = [simple_price_request (PyStr.join "," ids)])
  /\ (forall a b c,
        rows Sample.three = [a; b; c] ->
        coin_id a = "bitcoin" -> coin_id b = "bitcoin" ->
        coin_id c = "ethereum" ->
        ids = ["bitcoin"; "ethereum"] /\
        List.length ids = 2%nat /\
        requests_of (trace h) = [simple_price_request "bitcoin,ethereum"] /\
        exists a' b' c',
          rows (table_after h) = [a'; b'; c'] /\
          ((a' = a /\ b' = b) \/
           exists p, current_price a' = Sql.real p /\
                     current_price b' = Sql.real p) /\
          (forall prices v,
             outcome h = Ok tt ->
             fst (batch Sample.market Sample.three) = Ok prices ->
             usd_of prices "bitcoin" = Ok v -> v <> JNull ->
             exists p, py_float v = Ok p /\
                       current_price a' = Sql.real p /\
                       current_price b' = Sql.real p)).
Proof.
  apply (refresh_issues_one_batched_lookup Sample.market Sample.three
           (table_after (refresh_portfolio_prices Sample.market Sample.three))
           (outcome (refresh_portfolio_prices Sample.market Sample.three))
           (trace (refresh_portfolio_prices Sample.market Sample.three))).
  vm_compute. reflexivity.
Defined.

(** ** Refreshing twice *)

Lemma refresh_loop_total (prices : json) (ids : list string) :
  (forall cid, In cid ids ->
     exists v, usd_of prices cid = Ok v /\
       (v = JNull \/ exists p, py_float v = Ok p)) ->
  forall ts tbl, exists tbl', refresh_loop prices ts ids tbl = Ok tbl'.
Proof.
  induction ids as [|c rest IH]; intros H ts tbl; simpl.
  - now exists tbl.
  - destruct (H c (or_introl eq_refl)) as [v [Hu Hv]].
    assert (IH' := IH (fun cid Hin => H cid (or_intror Hin))).
    rewrite Hu. simpl. destruct Hv as [->|[p Hp]]; [apply IH'|].
    rewrite Hp. simpl. destruct v; apply IH'.
Qed.

Lemma refreshed_rows_ids (prices : json) (ts : string) (rs : list holding) :
  map coin_id (map (refreshed prices ts) rs) = map coin_id rs.
Proof.
  rewrite map_map. apply map_ext. intros r. apply refreshed_coin_id.
Qed.

Lemma refreshed_twice (prices : json) (ts1 ts2 : string) (r : holding) :
  refreshed prices ts2 (refreshed prices ts1 r) = refreshed prices ts2 r.
Proof.
  unfold refreshed.
  destruct (new_price prices (coin_id r)) as [p|] eqn:E; simpl;
    now rewrite E.
Qed.

(** *** The order of ISO texts *)

Lemma string_length_app (s t : string) :
  String.length (s ++ t) = (String.length s + String.length t)%nat.
Proof. induction s as [|c s IH]; simpl; [reflexivity | now rewrite IH]. Qed.

Lemma zfill_length (w : nat) (n : Z) : String.length (DateTime.zfill w n) = w.
Proof.
  revert n. induction w as [|w IH]; intros n; simpl; [reflexivity|].
  rewrite string_length_app, IH. simpl. lia.
Qed.

(** Texts that begin with parts of one length compare by these parts, and
    by what follows when the parts are equal. *)
Lemma compare_app (x y s t : string) :
  String.length x = String.length y ->
  String.compare (x ++ s) (y ++ t) =
  match String.compare x y with Eq => String.compare s t | c => c end.
Proof.
  revert y. induction x as [|a x IH]; intros [|b y]; simpl; try discriminate;
    [reflexivity|].
  intros [= H]. destruct (Ascii.compare a b); [now apply IH | reflexivity ..].
Qed.

Lemma ascii_compare_refl (c : ascii) : Ascii.compare c c = Eq.
Proof. unfold Ascii.compare. apply N.compare_refl. Qed.

Lemma string_compare_refl (s : string) : String.compare s s = Eq.
Proof.
  induction s as [|c s IH]; simpl; [reflexivity|].
  now rewrite ascii_compare_refl.
Qed.

Lemma string_leb_refl (s : string) : String.leb s s = true.
Proof. unfold String.leb. now rewrite string_compare_refl. Qed.

Lemma compare_same_prefix (p s t : string) :
  String.compare (p ++ s) (p ++ t) = String.compare s t.
Proof.
  rewrite compare_app by reflexivity. now rewrite string_compare_refl.
Qed.

Lemma digit_compare (a b : Z) :
  0 <= a < 10 -> 0 <= b < 10 ->
  Ascii.compare (ascii_of_nat (48 + Z.to_nat a))
                (ascii_of_nat (48 + Z.to_nat b))
  = Z.compare a b.
Proof.
  intros Ha Hb.
  assert (a = 0 \/ a = 1 \/ a = 2 \/ a = 3 \/ a = 4 \/ a = 5 \/ a = 6 \/
          a = 7 \/ a = 8 \/ a = 9) as Ea by lia.
  assert (b = 0 \/ b = 1 \/ b = 2 \/ b = 3 \/ b = 4 \/ b = 5 \/ b = 6 \/
          b = 7 \/ b = 8 \/ b = 9) as Eb by lia.
  repeat (destruct Ea as [->|Ea]); try subst a;
    repeat (destruct Eb as [->|Eb]); try subst b; reflexivity.
Qed.

(** Zero-padded numbers of one width compare as the numbers do. *)
Lemma zfill_compare (w : nat) (a b : Z) :
  0 <= a < 10 ^ Z.of_nat w -> 0 <= b < 10 ^ Z.of_nat w ->
  String.compare (DateTime.zfill w a) (DateTime.zfill w b) = Z.compare a b.
Proof.
  revert a b. induction w as [|w IH]; intros a b Ha Hb.
  - simpl in *. assert (a = 0) as -> by lia. assert (b = 0) as -> by lia.
    reflexivity.
  - rewrite Nat2Z.inj_succ, Z.pow_succ_r in Ha, Hb by lia.
    pose proof (Z.div_mod a 10 ltac:(lia)) as Da.
    pose proof (Z.div_mod b 10 ltac:(lia)) as Db.
    pose proof (Z.mod_pos_bound a 10 ltac:(lia)) as Ma.
    pose proof (Z.mod_pos_bound b 10 ltac:(lia)) as Mb.
    cbn [DateTime.zfill].
    rewrite compare_app by now rewrite !zfill_length.
    rewrite IH
      by (split; [apply Z.div_pos; lia | apply Z.div_lt_upper_bound; lia]).
    cbn [String.compare]. rewrite digit_compare by assumption.
    destruct (Z.compare_spec (a / 10) (b / 10)) as [E|E|E].
    + destruct (Z.compare_spec (a mod 10) (b mod 10)) as [F|F|F]; symmetry.
      * apply Z.compare_eq_iff. lia.
      * apply Z.compare_lt_iff. lia.
      * apply Z.compare_gt_iff. lia.
    + symmetry. apply Z.compare_lt_iff. lia.
    + symmetry. apply Z.compare_gt_iff. lia.
Qed.

(** The fraction [isoformat] leaves out at microsecond 0 sorts first. *)
Lemma fraction_compare (a b : Z) :
  0 <= a <= 999999 -> 0 <= b <= 999999 ->
  String.compare (if a =? 0 then "" else "." ++ DateTime.zfill 6 a)
                 (if b =? 0 then "" else "." ++ DateTime.zfill 6 b)
  = Z.compare a b.
Proof.
  intros Ha Hb.
  destruct (Z.eqb_spec a 0) as [->|Na], (Z.eqb_spec b 0) as [->|Nb].
  - reflexivity.
  - change ("." ++ DateTime.zfill 6 b) with (String "." (DateTime.zfill 6 b)).
    cbn [String.compare]. symmetry. apply Z.compare_lt_iff. lia.
  - change ("." ++ DateTime.zfill 6 a) with (String "." (DateTime.zfill 6 a)).
    cbn [String.compare]. symmetry. apply Z.compare_gt_iff. lia.
  - rewrite compare_same_prefix. apply zfill_compare; simpl; lia.
Qed.

(** The texts [isoformat] writes stand in the order of the instants: the
    string order of two stamps is the order of the clock readings. *)
Lemma isoformat_leb (d1 d2 : datetime) :
  DateTime.valid d1 -> DateTime.valid d2 ->
  String.leb (DateTime.isoformat d1) (DateTime.isoformat d2)
  = DateTime.leb d1 d2.
Proof.
  destruct d1 as [y1 m1 a1 h1 i1 s1 u1], d2 as [y2 m2 a2 h2 i2 s2 u2].
  unfold DateTime.valid. cbn [year month day hour minute second microsecond].
  intros (Hy1 & Hm1 & Hd1 & Hh1 & Hi1 & Hs1 & Hu1)
         (Hy2 & Hm2 & Hd2 & Hh2 & Hi2 & Hs2 & Hu2).
  unfold String.leb, DateTime.isoformat, DateTime.leb, DateTime.fields.
  cbn [year month day hour minute second microsecond].
  repeat (rewrite compare_app by now rewrite !zfill_length);
  repeat (rewrite compare_same_prefix;
          rewrite compare_app by now rewrite !zfill_length).
  rewrite fraction_compare by assumption.
  rewrite !zfill_compare by (simpl; lia).
  cbn [DateTime.lex_leb].
  repeat match goal with
  | |- context [Z.compare ?a ?b] =>
      destruct (Z.compare_spec a b);
      [ subst; rewrite ?Z.ltb_irrefl, ?Z.eqb_refl; cbn [orb andb]
      | assert ((a <? b) = true) as -> by (apply Z.ltb_lt; lia);
        cbn [orb andb]; try reflexivity
      | assert ((a <? b) = false) as -> by (apply Z.ltb_ge; lia);
        assert ((a =? b) = false) as -> by (apply Z.eqb_neq; lia);
        cbn [orb andb]; try reflexivity ]
  end.
  all: try reflexivity.
Qed.

Lemma same_price_refl (r : holding) : same_price_not_earlier r r.
Proof.
  unfold same_price_not_earlier, not_earlier.
  do 6 (split; [reflexivity|]).
  destruct (last_updated r); [apply string_leb_refl | exact I].
Qed.

(** C6.  Two refreshes in a row against a service that answers the second
    as it answered the first, the clock not going back in between: after the
    second every row has the [current_price] it had after the first, and a
    [last_updated] that is the same text or a later one, in the order of
    strings, which for the texts [isoformat] writes is the order of the
    clock readings; the second refresh also ends as the first did. *)
Theorem refresh_twice_same_prices
    (w1 w2 : env) (db db1 db2 : store) (out1 out2 : result unit)
    (t1 t2 : list event) :
  (forall rq, session_get w2 rq = session_get w1 rq) ->
  DateTime.valid (utcnow w1) -> DateTime.valid (utcnow w2) ->
  DateTime.leb (utcnow w1) (utcnow w2) = true ->
  refresh_portfolio_prices w1 db = (out1, db1, t1) ->
  refresh_portfolio_prices w2 db1 = (out2, db2, t2) ->
  out2 = out1 /\
  Forall2 same_price_not_earlier (rows db1) (rows db2).
Proof.
  intros Hsame Hv1 Hv2 Hclock Hrun1 Hrun2.
  assert (Hbatch : forall d d',
            map coin_id (rows d') = map coin_id (rows d) ->
            batch w2 d' = batch w1 d).
  { intros d d' E. unfold batch, Sql.select_distinct_coin_id. rewrite E.
    now apply get_simple_prices_ext. }
  pose proof (refresh_run_complete w1 db) as R1. rewrite Hrun1 in R1.
  pose proof (refresh_run_complete w2 db1) as R2. rewrite Hrun2 in R2.
  inversion R1 as [Hnil | e t0 Hne Hb | prices e t0 Hne Hb Hl
                   | prices t0 Hne Hb Hok]; subst.
  - (* nothing held *)
    inversion R2 as [Hnil' | e' t' Hne' _ | prices' e' t' Hne' _ _
                     | prices' t' Hne' _ _]; subst;
      try contradiction.
    split; [reflexivity|]. rewrite Hnil. constructor.
  - (* the lookup raised *)
    pose proof (Hbatch db1 db1 eq_refl) as Hb2. rewrite Hb in Hb2.
    inversion R2 as [Hnil' | e' t' Hne' Hb' | prices' e' t' Hne' Hb' _
                     | prices' t' Hne' Hb' _]; subst;
      try contradiction; rewrite Hb2 in Hb'; try discriminate.
    injection Hb' as -> ->.
    split; [reflexivity|]. apply Forall2_same. intros; apply same_price_refl.
  - (* the loop raised *)
    pose proof (Hbatch db1 db1 eq_refl) as Hb2. rewrite Hb in Hb2.
    inversion R2 as [Hnil' | e' t' Hne' Hb' | prices' e' t' Hne' Hb' Hl'
                     | prices' t' Hne' Hb' Hok']; subst;
      try contradiction; rewrite Hb2 in Hb'; try discriminate;
      injection Hb' as <- <-.
    + pose proof (Hl "" []) as E1. rewrite (Hl' "" []) in E1.
      injection E1 as ->.
      split; [reflexivity|]. apply Forall2_same. intros; apply same_price_refl.
    + exfalso.
      destruct (refresh_loop_total prices
                  (Sql.select_distinct_coin_id (rows db1))) with
        (ts := "") (tbl := @nil holding) as [tbl' E].
      * intros cid Hin. apply select_distinct_spec in Hin.
        destruct Hin as [r [Hr <-]]. now apply Hok'.
      * rewrite Hl in E. discriminate.
  - (* the first refresh committed *)
    set (ts1 := DateTime.isoformat (utcnow w1)) in *.
    set (db1 := {| rows := map (refreshed prices ts1) (rows db);
                   seq := seq db |}) in *.
    assert (Hb2 : batch w2 db1 = (Ok prices, t1)).
    { rewrite <- Hb. apply Hbatch. apply refreshed_rows_ids. }
    assert (Hne1 : rows db1 <> []).
    { simpl. intros E. apply map_eq_nil in E. contradiction. }
    inversion R2 as [Hnil' | e' t' Hne' Hb' | prices' e' t' Hne' Hb' Hl'
                     | prices' t' Hne' Hb' Hok']; subst out2 db2 t2;
      try contradiction; rewrite Hb2 in Hb'; try discriminate;
      injection Hb' as <- <-.
    + exfalso.
      destruct (refresh_loop_total prices
                  (Sql.select_distinct_coin_id (rows db1))) with
        (ts := "") (tbl := @nil holding) as [tbl' E].
      * intros cid Hin. apply select_distinct_spec in Hin.
        destruct Hin as [r [Hr <-]]. simpl in Hr. apply in_map_iff in Hr.
        destruct Hr as [r0 [<- Hr0]]. rewrite refreshed_coin_id.
        now apply Hok.
      * rewrite Hl' in E. discriminate.
    + split; [reflexivity|].
      cbn [rows]. apply Forall2_map_r. intros r1 Hr1.
      simpl in Hr1. apply in_map_iff in Hr1. destruct Hr1 as [r [<- Hr]].
      rewrite refreshed_twice. unfold refreshed.
      destruct (new_price prices (coin_id r)) as [p|];
        [|apply same_price_refl].
      unfold same_price_not_earlier, not_earlier. simpl.
      do 6 (split; [reflexivity|]).
      unfold ts1. rewrite (isoformat_leb _ _ Hv1 Hv2). exact Hclock.
Qed.

Lemma refresh_twice_same_prices_witness :
  outcome (refresh_portfolio_prices
             (Sample.answering Sample.quotes Sample.evening)
             (table_after (refresh_portfolio_prices Sample.market Sample.three)))
  = outcome (refresh_portfolio_prices Sample.market Sample.three) /\
  Forall2 same_price_not_earlier
    (rows (table_after (refresh_portfolio_prices Sample.market Sample.three)))
    (rows (table_after
             (refresh_portfolio_prices
                (Sample.answering Sample.quotes Sample.evening)
                (table_after
                   (refresh_portfolio_prices Sample.market Sample.three))))).
Proof.
  apply (refresh_twice_same_prices
           Sample.market (Sample.answering Sample.quotes Sample.evening)
           Sample.three
           (table_after (refresh_portfolio_prices Sample.market Sample.three))
           (table_after
              (refresh_portfolio_prices
                 (Sample.answering Sample.quotes Sample.evening)
                 (table_after
                    (refresh_portfolio_prices Sample.market Sample.three))))
           (outcome (refresh_portfolio_prices Sample.market Sample.three))
           (outcome
              (refresh_portfolio_prices
                 (Sample.answering Sample.quotes Sample.evening)
                 (table_after
                    (refresh_portfolio_prices Sample.market Sample.three))))
           (trace (refresh_portfolio_prices Sample.market Sample.three))
           (trace
              (refresh_portfolio_prices
                 (Sample.answering Sample.quotes Sample.evening)
                 (table_after
                    (refresh_portfolio_prices Sample.market Sample.three))))).
  - intros rq. reflexivity.
  - unfold DateTime.valid. simpl. lia.
  - unfold DateTime.valid. simpl. lia.
  - vm_compute. reflexivity.
  - vm_compute. reflexivity.
  - vm_compute. reflexivity.
Defined.

(** With the clock set back between the two refreshes the second stamp is
    the earlier one. *)
Example refresh_after_clock_set_back :
  map last_updated
    (rows (table_after
             (refresh_portfolio_prices
                (Sample.answering Sample.quotes Sample.evening) Sample.three)))
  = [Some "2024-03-09T19:30:12"; Some "2024-03-09T19:30:12";
     Some "2024-03-09T19:30:12"]
  /\ map last_updated
       (rows (table_after
                (refresh_portfolio_prices Sample.market
                   (table_after
                      (refresh_portfolio_prices
                         (Sample.answering Sample.quotes Sample.evening)
                         Sample.three)))))
     = [Some "2024-03-09T07:05:00.001500"; Some "2024-03-09T07:05:00.001500";
        Some "2024-03-09T07:05:00.001500"]
  /\ ~ not_earlier (Some "2024-03-09T19:30:12")
         (Some "2024-03-09T07:05:00.001500").
Proof.
  split; [vm_compute; reflexivity|]. split; [vm_compute; reflexivity|].
  unfold not_earlier. vm_compute. discriminate.
Qed.

(** ** Prices and time stamps that are NULL *)

Lemma real_not_null (p : PyFloat.float) : p <> S754_nan -> Sql.real p <> None.
Proof. destruct p; simpl; intros H; [discriminate .. | now elim H | discriminate]. Qed.

Lemma refreshed_stamped (prices : json) (ts : string) (r : holding) :
  last_updated r <> None -> last_updated (refreshed prices ts r) <> None.
Proof.
  intros H. unfold refreshed.
  destruct (new_price prices (coin_id r)); [discriminate | exact H].
Qed.

Lemma refreshed_filled (prices : json) (ts : string) (r : holding) :
  (forall v, usd_of prices (coin_id r) = Ok v -> py_float v <> Ok S754_nan) ->
  filled r -> filled (refreshed prices ts r).
Proof.
  intros Hq H. unfold refreshed, new_price.
  destruct (usd_of prices (coin_id r)) as [v|e]; [|exact H].
  specialize (Hq v eq_refl).
  destruct v; try exact H;
    (destruct (py_float _) as [p|e] eqn:Hp; [|exact H]);
    (split; simpl; [|discriminate]);
    apply real_not_null; intros ->; now elim Hq.
Qed.

Lemma seed_price_source (prices : json) (cid : string) (p : PyFloat.float) :
  seed_price prices cid = Ok p ->
  p = PyFloat.zero \/ exists v, usd_of prices cid = Ok v /\ py_float v = Ok p.
Proof.
  unfold seed_price, usd_of.
  destruct (py_get prices cid (JDict [])) as [entry|e]; simpl; [|discriminate].
  destruct entry; simpl; try discriminate.
  destruct (assoc "usd" d) as [v|]; simpl.
  - intros H. right. now exists v.
  - intros [= <-]. now left.
Qed.

(** What [add_coin] does on a POST, case by case. *)
Lemma add_coin_post (w : env) (f : form) (db : store) :
  let cid := PyStr.lower (PyStr.strip (form_get f "coin_id" "")) in
  let h := add_coin w "POST" f db in
  (exists e, outcome h = Raise e /\ table_after h = db) \/
  (exists q p,
     parse_quantity (PyStr.strip (form_get f "quantity" "0")) = Ok q /\
     (prices <- fst (get_simple_prices w (IdsList [cid])) ;;
      seed_price prices cid) = Ok p /\
     outcome h = Ok (redirect "/portfolio") /\
     table_after h =
       Sql.inserted cid (PyStr.strip (form_get f "name" ""))
         (PyStr.lower (PyStr.strip (form_get f "symbol" ""))) q p
         (DateTime.isoformat (utcnow w)) db).
Proof.
  intros cid h. subst h. unfold add_coin. simpl String.eqb. cbv iota.
  fold cid.
  destruct (parse_quantity _) as [q|e] eqn:Hq; [|left; now exists e].
  destruct (get_simple_prices w (IdsList [cid])) as [r t]. simpl fst.
  destruct (prices <- r ;; seed_price prices cid) as [p|e] eqn:Hp;
    [|left; now exists e].
  unfold Sql.insert.
  destruct (Sql.int64_max <=? _); [left; now eexists | right; now exists q, p].
Qed.

(** A completed [add_coin] found the rowid counter below its end. *)
Lemma add_coin_completed (w : env) (f : form) (db : store) (rep : reply) :
  outcome (add_coin w "POST" f db) = Ok rep ->
  Z.max (seq db) (Sql.max_rowid (rows db)) < Sql.int64_max.
Proof.
  unfold add_coin. simpl String.eqb. cbv iota.
  destruct (parse_quantity _) as [q|e]; [|discriminate].
  destruct (get_simple_prices w _) as [r t].
  destruct (prices <- r ;; seed_price prices _) as [p|e]; [|discriminate].
  unfold Sql.insert.
  destruct (Sql.int64_max <=? Z.max (seq db) (Sql.max_rowid (rows db))) eqn:E;
    [discriminate|].
  intros _. apply Z.leb_gt in E. exact E.
Qed.

Lemma add_coin_not_post (w : env) (method : string) (f : form) (db : store) :
  method <> "POST" -> table_after (add_coin w method f db) = db.
Proof.
  intros Hm. unfold add_coin.
  destruct (String.eqb_spec method "POST"); [contradiction | reflexivity].
Qed.

Lemma delete_coin_rows (item_id : Z) (db : store) (r : holding) :
  In r (rows (table_after (delete_coin item_id db))) -> In r (rows db).
Proof.
  unfold delete_coin. destruct (Sql.int64 item_id); unfold table_after; simpl.
  - intros H. apply filter_In in H. tauto.
  - tauto.
Qed.

(** C9, as the code has it.  Every row keeps a time stamp through
    [add_coin], [refresh_portfolio_prices] and [delete_coin], whatever the
    service answers and whatever is submitted.  Every row keeps a price as
    well as long as no usd value the lookup returns is one that [float]
    turns into a NaN: a row is inserted with [float] of the usd value (0.0
    when there is none) and a refresh overwrites the price with [float] of
    the usd value, and the column keeps NULL for a NaN. *)
Theorem stamp_never_null_price_unless_nan (db : store) :
  (all_stamped db ->
     (forall w method f, all_stamped (table_after (add_coin w method f db)))
     /\ (forall w, all_stamped (table_after (refresh_portfolio_prices w db)))
     /\ (forall item_id, all_stamped (table_after (delete_coin item_id db))))
  /\ (all_filled db ->
        (forall w method f,
           quotes_no_nan
             (fst (get_simple_prices w
                     (IdsList [PyStr.lower
                                 (PyStr.strip (form_get f "coin_id" ""))]))) ->
           all_filled (table_after (add_coin w method f db)))
        /\ (forall w,
              quotes_no_nan (fst (batch w db)) ->
              all_filled (table_after (refresh_portfolio_prices w db)))
        /\ (forall item_id,
              all_filled (table_after (delete_coin item_id db))))
  /\ all_filled init_db
  /\ (forall cid, seed_price (JDict []) cid = Ok PyFloat.zero).
Proof.
  split; [|split; [|split]].
  - intros Hinv. split; [|split].
    + intros w method f.
      destruct (String.eqb_spec method "POST") as [->|Hm];
        [|now rewrite add_coin_not_post].
      destruct (add_coin_post w f db) as [[e [_ ->]] | [q [p [_ [_ [_ ->]]]]]];
        [exact Hinv|].
      unfold all_stamped, Sql.inserted. simpl.
      apply Forall_app. split; [exact Hinv|].
      constructor; [discriminate | constructor].
    + intros w.
      destruct (refresh_run_complete w db)
        as [Hnil | e t0 _ Hb | prices e t0 _ Hb Hl | prices t0 _ Hb Hok];
        try exact Hinv.
      unfold all_stamped, table_after. simpl.
      apply Forall_map. revert Hinv. apply Forall_impl.
      intros r. apply refreshed_stamped.
    + intros item_id. unfold all_stamped in *.
      rewrite Forall_forall in *. intros r Hr.
      apply Hinv. now apply (delete_coin_rows item_id).
  - intros Hinv. split; [|split].
    + intros w method f Hq.
      destruct (String.eqb_spec method "POST") as [->|Hm];
        [|now rewrite add_coin_not_post].
      destruct (add_coin_post w f db)
        as [[e [_ ->]] | [q [p [_ [Hseed [_ ->]]]]]]; [exact Hinv|].
      unfold all_filled, Sql.inserted. simpl.
      apply Forall_app. split; [exact Hinv|].
      constructor; [|constructor]. split; simpl; [|discriminate].
      apply real_not_null.
      destruct (fst (get_simple_prices w _)) as [prices|e] eqn:Hl;
        simpl in Hseed; [|discriminate].
      destruct (seed_price_source _ _ _ Hseed) as [-> | [v [Hu Hf]]];
        [discriminate|].
      intros ->. exact (Hq prices _ v eq_refl Hu Hf).
    + intros w Hq.
      destruct (refresh_run_complete w db)
        as [Hnil | e t0 _ Hb | prices e t0 _ Hb Hl | prices t0 _ Hb Hok];
        try exact Hinv.
      unfold all_filled, table_after. simpl.
      apply Forall_map. revert Hinv. apply Forall_impl.
      intros r. apply refreshed_filled.
      intros v Hu. apply (Hq prices (coin_id r) v); [now rewrite Hb | exact Hu].
    + intros item_id. unfold all_filled in *.
      rewrite Forall_forall in *. intros r Hr.
      apply Hinv. now apply (delete_coin_rows item_id).
  - constructor.
  - reflexivity.
Qed.

(** C9, against the claim as stated: a usd value of ["nan"] passes the
    [is None] test of the refresh, [float] makes it a NaN and the column
    keeps NULL: a table whose rows all had a price has rows without one
    after a refresh that completed. *)
Lemma refresh_stores_null_price_for_nan :
  all_filled Sample.three /\
  outcome (refresh_portfolio_prices
             (Sample.answering (JDict [("bitcoin", JDict [("usd", JStr "nan")])])
                Sample.morning) Sample.three) = Ok tt /\
  map current_price
    (rows (table_after
             (refresh_portfolio_prices
                (Sample.answering
                   (JDict [("bitcoin", JDict [("usd", JStr "nan")])])
                   Sample.morning) Sample.three)))
  = [None; None; Some (PyFloat.of_decimal false 300 0)].
Proof.
  split; [repeat constructor; discriminate|].
  split; vm_compute; reflexivity.
Qed.

(** ** A blank coin id is stored and looked up *)

Lemma strip_only_spaces (s : string) :
  PyStr.only_spaces s = true -> PyStr.strip s = "".
Proof.
  unfold PyStr.strip. induction s as [|c s IH]; simpl; [reflexivity|].
  intros H. apply andb_prop in H. destruct H as [Hc Hs].
  rewrite Hc. now apply IH.
Qed.

Lemma no_coin_id_empty (f : form) :
  no_coin_id f -> PyStr.lower (PyStr.strip (form_get f "coin_id" "")) = "".
Proof.
  unfold no_coin_id, form_get.
  destruct (assoc "coin_id" f) as [s|]; [|reflexivity].
  intros H. now rewrite (strip_only_spaces s H).
Qed.

Lemma refreshed_id (prices : json) (ts : string) (r : holding) :
  id (refreshed prices ts r) = id r.
Proof. unfold refreshed. now destruct (new_price prices (coin_id r)). Qed.

Lemma perform_holds_blank (i : Z) (a : action) (db : store) :
  a <> Delete i -> holds_blank i db -> holds_blank i (perform a db).
Proof.
  intros Ha [r [Hr [Hc Hi]]]. destruct a as [w | w method f | j]; simpl.
  - destruct (refresh_run_complete w db)
      as [Hnil | e t0 _ Hb | prices e t0 _ Hb Hl | prices t0 _ Hb Hok];
      try (now exists r).
    exists (refreshed prices (DateTime.isoformat (utcnow w)) r).
    unfold table_after. simpl.
    rewrite refreshed_coin_id, refreshed_id.
    split; [now apply in_map | now split].
  - destruct (String.eqb_spec method "POST") as [->|Hm].
    + destruct (add_coin_post w f db) as [[e [_ ->]] | [q [p [_ [_ [_ ->]]]]]];
        [now exists r|].
      exists r. unfold Sql.inserted. simpl.
      split; [apply in_or_app; now left | now split].
    + unfold add_coin.
      destruct (String.eqb_spec method "POST"); [contradiction | now exists r].
  - exists r. unfold delete_coin, table_after, Sql.delete.
    destruct (Sql.int64 j); simpl; (split; [|now split]); [|exact Hr].
    apply filter_In. split; [exact Hr|].
    apply negb_true_iff, Z.eqb_neq. intros E. apply Ha. congruence.
Qed.

Lemma batches_look_up_blank (i : Z) (acts : list action) :
  forall db,
    holds_blank i db ->
    Forall (fun a => a <> Delete i) acts ->
    Forall looks_up_empty_id (batches acts db).
Proof.
  induction acts as [|a rest IH]; intros db Hb Hacts; simpl; [constructor|].
  inversion Hacts as [|a' rest' Ha Hrest]; subst.
  apply Forall_app. split.
  - destruct a as [w | |]; constructor; [|constructor].
    destruct Hb as [r [Hr [Hc _]]]. split; simpl.
    + rewrite <- Hc. now apply select_distinct_In.
    + apply refresh_requests. intros E. rewrite E in Hr. destruct Hr.
  - apply IH; [now apply perform_holds_blank | exact Hrest].
Qed.

(** C10.  [add_coin] does not check that the coin id is non-empty.  When the
    submitted form has no [coin_id] field, or one of white space only, and
    the handler completes, the table has one more row and its [coin_id] is
    the empty string.  From then on, through any later refreshes, additions
    and deletions of other rows, every refresh reads a distinct-id list that
    contains the empty string and sends the lookup for that list. *)
Theorem blank_coin_id_is_stored_and_batched
    (w : env) (f : form) (db : store) (rep : reply) :
  no_coin_id f ->
  outcome (add_coin w "POST" f db) = Ok rep ->
  exists r,
    rows (table_after (add_coin w "POST" f db)) = (rows db ++ [r])%list /\
    coin_id r = "" /\
    forall acts,
      Forall (fun a => a <> Delete (id r)) acts ->
      Forall looks_up_empty_id
        (batches acts (table_after (add_coin w "POST" f db))).
Proof.
  intros Hblank Hout.
  pose proof (no_coin_id_empty f Hblank) as Hcid.
  destruct (add_coin_post w f db) as [[e [He _]] | [q [p [_ [_ [_ Ht]]]]]].
  - rewrite Hout in He. discriminate.
  - rewrite Ht, Hcid. unfold Sql.inserted at 1. simpl rows.
    eexists. split; [reflexivity|]. split; [reflexivity|].
    intros acts Hacts. simpl id in Hacts.
    eapply batches_look_up_blank; [|exact Hacts].
    eexists. unfold Sql.inserted. simpl.
    split; [apply in_or_app; right; left; reflexivity | now split].
Qed.

Lemma blank_coin_id_is_stored_and_batched_witness :
  exists r,
    rows (table_after
            (add_coin Sample.market "POST"
               [("coin_id", "  "); ("quantity", "1")] Sample.three))
    = (rows Sample.three ++ [r])%list /\
    coin_id r = "" /\
    forall acts,
      Forall (fun a => a <> Delete (id r)) acts ->
      Forall looks_up_empty_id
        (batches acts
           (table_after
              (add_coin Sample.market "POST"
                 [("coin_id", "  "); ("quantity", "1")] Sample.three))).
Proof.
  apply (blank_coin_id_is_stored_and_batched Sample.market
           [("coin_id", "  "); ("quantity", "1")] Sample.three
           (redirect "/portfolio")).
  - vm_compute. reflexivity.
  - vm_compute. reflexivity.
Defined.

(** ** The stored quantity *)

Lemma of_string_raises (s : string) (e : exn) :
  PyFloat.of_string s = Raise e -> e = ValueError.
Proof.
  unfold PyFloat.of_string.
  destruct (PyFloat.sign _) as [neg cs].
  destruct (_ || _); [discriminate|].
  destruct (_ =? _)%string; [discriminate|].
  destruct (PyFloat.floatnumber neg cs); [discriminate|].
  now intros [= <-].
Qed.

Lemma parse_quantity_total (raw : string) :
  parse_quantity raw = Ok (quantity_of raw).
Proof.
  unfold parse_quantity, quantity_of.
  destruct (PyFloat.of_string raw) as [v|e] eqn:E; [reflexivity|].
  now rewrite (of_string_raises raw e E).
Qed.

(** C4, as the code has it.  Reading the quantity never raises: the value
    read is [float] of the stripped text when that text is a float literal
    and 0.0 otherwise.  The row a completed [add_coin] appends holds what the
    REAL column keeps of that value: NULL when it is a NaN, 0.0 for a
    negative zero, the value itself otherwise.  Nothing checks its sign or
    that it is finite. *)
Theorem add_stores_parsed_quantity (w : env) (f : form) (db : store) :
  let raw := PyStr.strip (form_get f "quantity" "0") in
  parse_quantity raw = Ok (quantity_of raw)
  /\ (forall v, PyFloat.of_string raw = Ok v -> quantity_of raw = v)
  /\ (forall e, PyFloat.of_string raw = Raise e ->
                e = ValueError /\ quantity_of raw = PyFloat.zero)
  /\ (forall rep,
        outcome (add_coin w "POST" f db) = Ok rep ->
        exists r,
          rows (table_after (add_coin w "POST" f db)) = (rows db ++ [r])%list /\
          quantity r = Sql.real (quantity_of raw) /\
          quantity r = match quantity_of raw with
                       | S754_nan => None
                       | S754_zero _ => Some PyFloat.zero
                       | q => Some q
                       end).
Proof.
  intros raw. split; [apply parse_quantity_total|]. split; [|split].
  - intros v E. unfold quantity_of. now rewrite E.
  - intros e E. split; [now apply (of_string_raises raw)|].
    unfold quantity_of. now rewrite E.
  - intros rep Hout.
    destruct (add_coin_post w f db) as [[e [He _]] | [q [p [Hq [_ [_ Ht]]]]]].
    + rewrite Hout in He. discriminate.
    + rewrite Ht. unfold Sql.inserted. simpl rows.
      eexists. split; [reflexivity|]. simpl.
      fold raw in Hq. rewrite parse_quantity_total in Hq. injection Hq as <-.
      split; [reflexivity|]. now destruct (quantity_of raw).
Qed.

(** C4, against the claim as stated: submitting the quantity [-5] stores a
    row whose quantity is the float -5.0, which is below zero. *)
Lemma add_stores_negative_quantity :
  exists r q,
    add_coin Sample.market "POST"
      [("coin_id", "bitcoin"); ("name", "Bitcoin"); ("symbol", "BTC");
       ("quantity", "-5")] init_db
    = (Ok (redirect "/portfolio"), {| rows := [r]; seq := 1 |},
       [EvGet (simple_price_request "bitcoin")]) /\
    quantity r = Some q /\
    PyFloat.of_string "-5" = Ok q /\
    PyFloat.ltb q PyFloat.zero = true /\
    PyFloat.nonneg_real q = false.
Proof.
  do 2 eexists. split; [vm_compute; reflexivity|].
  split; [reflexivity|].
  split; [vm_compute; reflexivity|]. split; reflexivity.
Qed.

Example quantity_of_odd_texts :
  quantity_of "nan" = PyFloat.nan /\ quantity_of "-inf" = PyFloat.inf true /\
  quantity_of "abc" = PyFloat.zero /\ quantity_of "" = PyFloat.zero /\
  Sql.real (quantity_of "nan") = None /\
  Sql.real (quantity_of "-0") = Some PyFloat.zero.
Proof. repeat split. Qed.

(** ** The ids parameter *)

Lemma split_no_sep (sep : ascii) (s : string) :
  PyStr.has_char sep s = false -> PyStr.split sep s = [s].
Proof.
  induction s as [|c s IH]; simpl; [reflexivity|].
  intros H. apply orb_false_elim in H. destruct H as [Hc Hs].
  rewrite Hc, (IH Hs). reflexivity.
Qed.

Lemma split_app_sep (sep : ascii) (x y : string) :
  PyStr.has_char sep x = false ->
  PyStr.split sep (x ++ String sep y) = x :: PyStr.split sep y.
Proof.
  induction x as [|c x IH]; simpl.
  - intros _. now rewrite Ascii.eqb_refl.
  - intros H. apply orb_false_elim in H. destruct H as [Hc Hx].
    rewrite Hc, (IH Hx). reflexivity.
Qed.

(** Splitting the joined parameter gives the ids back, repeats included. *)
Lemma split_join (ids : list string) :
  ids <> [] ->
  Forall (fun i => PyStr.has_char "," i = false) ids ->
  PyStr.split "," (PyStr.join "," ids) = ids.
Proof.
  induction ids as [|x rest IH]; intros Hne Hall; [contradiction|].
  inversion Hall as [|x' rest' Hx Hrest]; subst.
  destruct rest as [|y rest].
  - simpl. now apply split_no_sep.
  - change (PyStr.join "," (x :: y :: rest))
      with (x ++ String "," (PyStr.join "," (y :: rest))).
    rewrite (split_app_sep _ _ _ Hx), IH; [reflexivity | discriminate | exact Hrest].
Qed.

(** C3, as the code has it.  [get_simple_prices] sends exactly one request,
    whose [ids] parameter is the given list joined by commas, in the order
    given and without dropping repeats: for ids free of commas, splitting
    the parameter at the commas gives the list back, so an id occurs in it
    as often as in the list. *)
Theorem simple_prices_joins_ids_as_given (w : env) (ids : list string) :
  requests_of (snd (get_simple_prices w (IdsList ids)))
  = [simple_price_request (PyStr.join "," ids)]
  /\ (ids <> [] ->
      Forall (fun i => PyStr.has_char "," i = false) ids ->
      PyStr.split "," (PyStr.join "," ids) = ids)
  /\ (NoDup ids -> ids <> [] ->
      Forall (fun i => PyStr.has_char "," i = false) ids ->
      NoDup (PyStr.split "," (PyStr.join "," ids))).
Proof.
  split; [apply get_simple_prices_requests|]. split.
  - apply split_join.
  - intros Hnd Hne Hall. now rewrite split_join.
Qed.

(** C3, against the claim as stated: for the list bitcoin, bitcoin the one
    request carries [ids=bitcoin,bitcoin], the id twice. *)
Lemma simple_prices_keeps_repeated_ids :
  exists p,
    requests_of (snd (get_simple_prices Sample.market
                        (IdsList ["bitcoin"; "bitcoin"])))
    = [simple_price_request p] /\
    p = "bitcoin,bitcoin" /\
    count_occ string_dec (PyStr.split "," p) "bitcoin" = 2%nat.
Proof.
  exists "bitcoin,bitcoin". repeat split.
Qed.

(** ** A failing service *)

Lemma http_get_try_fails (w : env) (rq : request) :
  request_fails w rq -> http_get_try w rq = Raise RequestException.
Proof.
  intros [H | r H Hs | r H Hj]; unfold http_get_try; rewrite H; simpl.
  - reflexivity.
  - unfold raise_for_status.
    assert ((400 <=? status_code r) && (status_code r <? 600) = true) as ->.
    { apply andb_true_intro. split; [apply Z.leb_le | apply Z.ltb_lt]; lia. }
    reflexivity.
  - unfold raise_for_status.
    destruct ((400 <=? status_code r) && (status_code r <? 600)); simpl;
      [reflexivity | exact Hj].
Qed.

Lemma http_get_fails (w : env) (url : string) (ps : option params) :
  (forall rq, request_fails w rq) ->
  fst (http_get w url ps) = Ok JNull.
Proof.
  intros H. unfold http_get. now rewrite http_get_try_fails.
Qed.

(** C7.  Against a service whose every request fails, each gateway
    operation returns its empty default and raises nothing: [http_get]
    gives [None], [get_top_coins] the empty list, [get_simple_prices] the
    empty dict and [get_btc_chart_7d] the pair of two empty lists. *)
Theorem gateway_degrades_to_defaults
    (w : env) (url : string) (ps : option params) (ids : ids_arg)
    (point_label : json -> result string)
    (point_value : json -> result json) :
  (forall rq, request_fails w rq) ->
  fst (http_get w url ps) = Ok JNull
  /\ fst (get_top_coins w) = Ok (JList [])
  /\ fst (get_simple_prices w ids) = Ok (JDict [])
  /\ fst (get_btc_chart_7d point_label point_value w) = Ok ([], []).
Proof.
  intros H. split; [now apply http_get_fails|]. split; [|split].
  - unfold get_top_coins.
    pose proof (http_get_fails w (COINGECKO_BASE ++ "/coins/markets")
      (Some [("vs_currency", PStr "usd"); ("order", PStr "market_cap_desc");
             ("per_page", PInt 20); ("page", PInt 1);
             ("sparkline", PStr "false");
             ("price_change_percentage", PStr "24h")]) H) as E.
    destruct (http_get w _ _) as [d t]. simpl in E. now subst d.
  - unfold get_simple_prices.
    match goal with
    | |- context [http_get w ?u ?p] =>
        pose proof (http_get_fails w u p H) as E;
        destruct (http_get w u p) as [d t]
    end.
    simpl in E. now subst d.
  - unfold get_btc_chart_7d.
    match goal with
    | |- context [http_get w ?u ?p] =>
        pose proof (http_get_fails w u p H) as E;
        destruct (http_get w u p) as [d t]
    end.
    simpl in E. now subst d.
Qed.

Lemma gateway_degrades_to_defaults_witness :
  fst (http_get (Sample.down Sample.morning)
         (COINGECKO_BASE ++ "/coins/markets") None) = Ok JNull
  /\ fst (get_top_coins (Sample.down Sample.morning)) = Ok (JList [])
  /\ fst (get_simple_prices (Sample.down Sample.morning)
            (IdsList ["bitcoin"; "ethereum"])) = Ok (JDict [])
  /\ fst (get_btc_chart_7d (fun _ => Raise TypeError) (fun _ => Raise TypeError)
            (Sample.down Sample.morning)) = Ok ([], []).
Proof.
  apply (gateway_degrades_to_defaults (Sample.down Sample.morning)).
  intros rq. apply fails_to_connect. reflexivity.
Defined.

(** ** Deleting a row that is not there *)

Lemma filter_all {A : Type} (f : A -> bool) (l : list A) :
  (forall a, In a l -> f a = true) -> filter f l = l.
Proof.
  induction l as [|a l IH]; intros H; simpl; [reflexivity|].
  rewrite (H a (or_introl eq_refl)). f_equal.
  apply IH. intros b Hb. apply H. now right.
Qed.

(** C8, as the code has it.  Deleting an id no row has changes nothing:
    the table afterwards is the table before, so it has as many rows and
    each row is as it was, and no request is issued.  It is not an error
    when the id fits 64 bits: [delete_coin] then returns its redirect.  For
    an id that does not, binding it raises [OverflowError]. *)
Theorem delete_of_unknown_id_changes_nothing (item_id : Z) (db : store) :
  (forall r, In r (rows db) -> id r <> item_id) ->
  (Sql.int64 item_id = true ->
   delete_coin item_id db = (Ok (redirect "/portfolio"), db, []))
  /\ (Sql.int64 item_id = false ->
      delete_coin item_id db = (Raise OverflowError, db, []))
  /\ table_after (delete_coin item_id db) = db
  /\ trace (delete_coin item_id db) = []
  /\ List.length (rows (table_after (delete_coin item_id db)))
     = List.length (rows db).
Proof.
  intros H.
  assert (E : Sql.delete item_id db = db).
  { unfold Sql.delete. rewrite filter_all.
    - now destruct db.
    - intros r Hr. apply negb_true_iff, Z.eqb_neq. now apply H. }
  unfold delete_coin, table_after, trace.
  destruct (Sql.int64 item_id); rewrite ?E; simpl;
    repeat split; try reflexivity; discriminate.
Qed.

Lemma delete_of_unknown_id_changes_nothing_witness :
  (Sql.int64 7 = true ->
   delete_coin 7 Sample.three = (Ok (redirect "/portfolio"), Sample.three, []))
  /\ (Sql.int64 7 = false ->
      delete_coin 7 Sample.three = (Raise OverflowError, Sample.three, []))
  /\ table_after (delete_coin 7 Sample.three) = Sample.three
  /\ trace (delete_coin 7 Sample.three) = []
  /\ List.length (rows (table_after (delete_coin 7 Sample.three)))
     = List.length (rows Sample.three).
Proof.
  apply (delete_of_unknown_id_changes_nothing 7 Sample.three).
  intros r Hr. simpl in Hr.
  destruct Hr as [<-|[<-|[<-|[]]]]; simpl; lia.
Defined.

(** C8, against the claim as stated: the id 2^63, which the route accepts
    and no row has, makes [delete_coin] fail with [OverflowError]. *)
Lemma delete_of_huge_id_raises :
  (forall r, In r (rows Sample.three) -> id r <> 9223372036854775808) /\
  delete_coin 9223372036854775808 Sample.three
  = (Raise OverflowError, Sample.three, []).
Proof.
  split; [|reflexivity].
  intros r Hr. simpl in Hr.
  destruct Hr as [<-|[<-|[<-|[]]]]; simpl; lia.
Qed.

(** * Further properties of the gateway *)

Lemma raise_for_status_ok (r : response) :
  status_ok r -> raise_for_status r = Ok tt.
Proof.
  intros H. unfold raise_for_status.
  assert ((400 <=? status_code r) && (status_code r <? 600) = false) as ->;
    [|reflexivity].
  apply andb_false_iff. destruct H as [H|H].
  - left. apply Z.leb_gt. exact H.
  - right. apply Z.ltb_ge. exact H.
Qed.

Lemma http_get_answer
    (w : env) (url : string) (ps : option params) (r : response) (v : json) :
  session_get w (request_for url ps) = Ok r -> status_ok r ->
  json_body r = Ok v ->
  http_get w url ps = (Ok v, [EvGet (request_for url ps)]).
Proof.
  unfold http_get, http_get_try. fold (request_for url ps).
  intros Hs Hok Hj. rewrite Hs. simpl.
  rewrite (raise_for_status_ok r Hok). simpl. now rewrite Hj.
Qed.

(** X1.  [http_get] sends one request.  A decoded body of an answer whose
    status is neither 4xx nor 5xx is returned as it is, with no warning; an
    exception that is not a request error, raised by [session.get] or by the
    decoding of such an answer, is not caught and leaves [http_get] with no
    warning logged. *)
Theorem http_get_passes_through
    (w : env) (url : string) (ps : option params) :
  (forall r v,
     session_get w (request_for url ps) = Ok r -> status_ok r ->
     json_body r = Ok v ->
     http_get w url ps = (Ok v, [EvGet (request_for url ps)]))
  /\ (forall e,
        e <> RequestException ->
        session_get w (request_for url ps) = Raise e ->
        http_get w url ps = (Raise e, [EvGet (request_for url ps)]))
  /\ (forall r e,
        e <> RequestException ->
        session_get w (request_for url ps) = Ok r -> status_ok r ->
        json_body r = Raise e ->
        http_get w url ps = (Raise e, [EvGet (request_for url ps)])).
Proof.
  split; [intros r v; apply http_get_answer|].
  unfold http_get, http_get_try. fold (request_for url ps).
  split.
  - intros e He Hs. rewrite Hs. simpl. destruct e; try reflexivity.
    now elim He.
  - intros r e He Hs Hok Hj. rewrite Hs. simpl.
    rewrite (raise_for_status_ok r Hok). simpl. rewrite Hj.
    destruct e; try reflexivity. now elim He.
Qed.

Lemma comprehension_Forall2 {A B : Type} (f : A -> result B) (ps : list A) :
  forall ys, comprehension f ps = Ok ys ->
             Forall2 (fun p y => f p = Ok y) ps ys.
Proof.
  induction ps as [|p ps IH]; intros ys H; simpl in H.
  - injection H as <-. constructor.
  - destruct (f p) as [y|e] eqn:Hf; simpl in H; [|discriminate].
    destruct (comprehension f ps) as [ys'|e] eqn:Hc; simpl in H; [|discriminate].
    injection H as <-. constructor; [exact Hf | now apply IH].
Qed.

(** X2.  When [get_btc_chart_7d] returns, its labels and its values are
    parallel: there is one series of points such that the i-th label is the
    label of the i-th point and the i-th value the value of the i-th point,
    so the two lists have the same length. *)
Theorem chart_labels_and_values_are_parallel
    (point_label : json -> result string)
    (point_value : json -> result json)
    (w : env) (labels : list string) (values : list json) :
  fst (get_btc_chart_7d point_label point_value w) = Ok (labels, values) ->
  List.length labels = List.length values /\
  exists points,
    Forall2 (fun p l => point_label p = Ok l) points labels /\
    Forall2 (fun p v => point_value p = Ok v) points values.
Proof.
  unfold get_btc_chart_7d.
  destruct (http_get w _ _) as [r t]. simpl fst.
  destruct r as [d|e]; simpl; [|discriminate].
  destruct (py_get (py_or d (JDict [])) "prices" (JList [])) as [prices|e];
    simpl; [|discriminate].
  destruct (py_iter prices) as [points|e]; simpl; [|discriminate].
  destruct (comprehension point_label points) as [ls|e] eqn:Hl;
    simpl; [|discriminate].
  destruct (comprehension point_value points) as [vs|e] eqn:Hv;
    simpl; [|discriminate].
  intros [= <- <-].
  pose proof (comprehension_Forall2 _ _ _ Hl) as Fl.
  pose proof (comprehension_Forall2 _ _ _ Hv) as Fv.
  split.
  - rewrite <- (Forall2_length Fl). apply (Forall2_length Fv).
  - now exists points.
Qed.

Lemma chart_labels_and_values_are_parallel_witness :
  List.length ["p"; "p"] = List.length [JInt 1; JInt 1] /\
  exists points,
    Forall2 (fun p l => (fun _ : json => Ok "p") p = Ok l) points ["p"; "p"] /\
    Forall2 (fun p v => (fun _ : json => Ok (JInt 1)) p = Ok v) points
      [JInt 1; JInt 1].
Proof.
  apply (chart_labels_and_values_are_parallel
           (fun _ => Ok "p") (fun _ => Ok (JInt 1))
           (Sample.answering
              (JDict [("prices", JList [JList [JInt 0; JInt 5];
                                        JList [JInt 1; JInt 6]])])
              Sample.morning)).
  vm_compute. reflexivity.
Defined.

(** ** The logo lookup *)

Lemma get_coin_logos_unfold (w : env) (ids : list string) :
  ids <> [] ->
  get_coin_logos_by_ids w ids =
  (let (r, t) := http_get w (req_url (logo_request ids))
                   (Some (req_params (logo_request ids))) in
   (d <- r ;; items <- py_iter (py_or d (JList [])) ;; logo_items items [],
    t)).
Proof.
  intros Hne. destruct ids as [|i ids]; [contradiction|].
  unfold get_coin_logos_by_ids, logo_request, request_for.
  cbn [req_url req_params]. reflexivity.
Qed.

(** X3.  [get_coin_logos_by_ids] sends nothing and returns the empty dict
    for an empty id list; for any other list it sends exactly one request,
    the [coins/markets] lookup for all the ids joined by commas with
    [per_page] set to their number. *)
Theorem logos_one_request_for_all_ids (w : env) (ids : list string) :
  get_coin_logos_by_ids w [] = (Ok [], [])
  /\ (ids <> [] ->
      requests_of (snd (get_coin_logos_by_ids w ids)) = [logo_request ids]).
Proof.
  split; [reflexivity|]. intros Hne.
  rewrite (get_coin_logos_unfold w ids Hne).
  pose proof (http_get_requests w (req_url (logo_request ids))
                (Some (req_params (logo_request ids)))) as H.
  destruct (http_get w _ _) as [r t]. exact H.
Qed.

(** X4.  Against a service whose every request fails the logo lookup
    returns the empty dict and raises nothing, whatever the ids. *)
Theorem logos_degrade_to_empty (w : env) (ids : list string) :
  (forall rq, request_fails w rq) ->
  fst (get_coin_logos_by_ids w ids) = Ok [].
Proof.
  intros H. destruct ids as [|i ids]; [reflexivity|].
  rewrite get_coin_logos_unfold by discriminate.
  pose proof (http_get_fails w (req_url (logo_request (i :: ids)))
                (Some (req_params (logo_request (i :: ids)))) H) as E.
  destruct (http_get w _ _) as [r t]. simpl in E. now subst r.
Qed.

Lemma logos_degrade_to_empty_witness :
  fst (get_coin_logos_by_ids (Sample.down Sample.morning)
         ["bitcoin"; "ethereum"]) = Ok [].
Proof.
  apply (logos_degrade_to_empty (Sample.down Sample.morning)
           ["bitcoin"; "ethereum"]).
  intros rq. apply fails_to_connect. reflexivity.
Defined.

Lemma key_eqb_str_r (a : json) (c : string) :
  key_eqb a (JStr c) = true <-> a = JStr c.
Proof.
  destruct a as [| b | n | f | s | l | d]; simpl;
    try (split; [discriminate | intros H; discriminate H]).
  - destruct f; simpl; split; try discriminate; intros H; discriminate H.
  - rewrite String.eqb_eq. split; [now intros -> | now intros [= ->]].
Qed.

Lemma key_eqb_str_l (c : string) (b : json) :
  key_eqb (JStr c) b = true <-> b = JStr c.
Proof.
  destruct b as [| b | n | f | s | l | d]; simpl;
    try (split; [discriminate | intros H; discriminate H]).
  rewrite String.eqb_eq. split; [now intros -> | now intros [= ->]].
Qed.

(** Looking a string key up after an assignment. *)
Lemma dict_get_set_str (c : string) (k v : json) (d : pydict) :
  dict_get (JStr c) (dict_set k v d) =
  match k with
  | JStr s => if (s =? c)%string then Some v else dict_get (JStr c) d
  | _ => dict_get (JStr c) d
  end.
Proof.
  assert (Hk : key_eqb k (JStr c) = match k with
                                    | JStr s => (s =? c)%string
                                    | _ => false
                                    end).
  { destruct (key_eqb k (JStr c)) eqn:E.
    - apply key_eqb_str_r in E. subst k. now rewrite String.eqb_refl.
    - destruct k; try reflexivity.
      destruct (String.eqb_spec s c) as [->|]; [|reflexivity].
      assert (key_eqb (JStr c) (JStr c) = true) as H by now apply key_eqb_str_r.
      rewrite H in E. discriminate. }
  induction d as [|[k' v'] d IH]; simpl.
  - rewrite Hk. now destruct k.
  - destruct (key_eqb k' k) eqn:Ek; simpl.
    + destruct (key_eqb k' (JStr c)) eqn:Ec.
      * apply key_eqb_str_r in Ec. subst k'.
        apply key_eqb_str_l in Ek. subst k. now rewrite String.eqb_refl.
      * destruct k; try reflexivity.
        destruct (String.eqb_spec s c) as [->|]; [|reflexivity].
        apply key_eqb_str_r in Ek. subst k'.
        assert (key_eqb (JStr c) (JStr c) = true) as H
          by now apply key_eqb_str_r.
        rewrite H in Ec. discriminate.
    + destruct (key_eqb k' (JStr c)) eqn:Ec; [|exact IH].
      apply key_eqb_str_r in Ec. subst k'.
      destruct k; try reflexivity.
      destruct (String.eqb_spec s c) as [->|]; [|reflexivity].
      assert (key_eqb (JStr c) (JStr c) = true) as H by now apply key_eqb_str_r.
      rewrite H in Ek. discriminate.
Qed.

Lemma dict_set_keys (k v : json) (d : pydict) (k' v' : json) :
  In (k', v') (dict_set k v d) -> k' = k \/ exists v0, In (k', v0) d.
Proof.
  induction d as [|[k0 v0] d IH]; simpl.
  - intros [E|[]]. injection E as E _. now left.
  - destruct (key_eqb k0 k); simpl.
    + intros [E|H]; right.
      * injection E as E _. subst k0. exists v0. now left.
      * exists v'. now right.
    + intros [E|H].
      * injection E as E1 E2. subst k0 v0. right. exists v'. now left.
      * destruct (IH H) as [->|[x Hx]]; [now left|].
        right. exists x. now right.
Qed.

Lemma logo_items_get (cid : string) (items : list json) :
  cid <> "" ->
  forall acc d, logo_items items acc = Ok d ->
    dict_get (JStr cid) d =
    match last_image cid items with
    | Some v => Some v
    | None => dict_get (JStr cid) acc
    end.
Proof.
  intros Hcid. induction items as [|item rest IH]; intros acc d H; simpl in H.
  - now injection H as <-.
  - simpl. destruct (py_get item "id" JNull) as [i|e] eqn:Hi; simpl in H;
      [|discriminate].
    destruct (truthy i) eqn:Ht.
    + destruct (py_get item "image" JNull) as [img|e] eqn:Hg; simpl in H;
        [|discriminate].
      destruct (hashable i); [|discriminate].
      rewrite (IH _ _ H), dict_get_set_str.
      destruct (last_image cid rest); [reflexivity|].
      destruct i; try reflexivity. now destruct (s =? cid)%string.
    + rewrite (IH _ _ H).
      destruct (last_image cid rest); [reflexivity|].
      destruct i; try reflexivity.
      destruct (py_get item "image" JNull); [|reflexivity].
      destruct (String.eqb_spec s cid) as [->|]; [|reflexivity].
      simpl in Ht. destruct (String.eqb_spec cid ""); [contradiction|].
      discriminate.
Qed.

Lemma logo_items_keys (items : list json) :
  forall acc d, logo_items items acc = Ok d ->
    forall k v, In (k, v) d ->
      (exists v0, In (k, v0) acc) \/
      exists item, In item items /\ py_get item "id" JNull = Ok k /\
                   truthy k = true.
Proof.
  induction items as [|item rest IH]; intros acc d H k v Hin; simpl in H.
  - injection H as <-. left. now exists v.
  - destruct (py_get item "id" JNull) as [i|e] eqn:Hi; simpl in H;
      [|discriminate].
    destruct (truthy i) eqn:Ht.
    + destruct (py_get item "image" JNull) as [img|e]; simpl in H;
        [|discriminate].
      destruct (hashable i); [|discriminate].
      destruct (IH _ _ H k v Hin) as [[v0 Hacc] | [x [Hx Hr]]].
      * destruct (dict_set_keys _ _ _ _ _ Hacc) as [->|Hold];
          [right; exists item; simpl; tauto | now left].
      * right. exists x. simpl. tauto.
    + destruct (IH _ _ H k v Hin) as [Hacc | [x [Hx Hr]]]; [now left|].
      right. exists x. simpl. tauto.
Qed.

(** X5.  When the service answers the logo lookup with a list of items, the
    dict [get_coin_logos_by_ids] returns maps a coin id to the image of the
    last item reported under that id (null when that item has none) and has
    no entry for a coin id no item carries; every key of the dict is the
    truthy id of some item. *)
Theorem logos_come_from_reported_items
    (w : env) (ids : list string) (r : response) (items : list json)
    (logos : pydict) :
  ids <> [] ->
  session_get w (logo_request ids) = Ok r -> status_ok r ->
  json_body r = Ok (JList items) ->
  fst (get_coin_logos_by_ids w ids) = Ok logos ->
  (forall cid, cid <> "" -> logo_of cid logos = last_image cid items)
  /\ (forall cid,
        (forall item, In item items ->
           py_get item "id" JNull <> Ok (JStr cid)) ->
        logo_of cid logos = None)
  /\ (forall k v, In (k, v) logos ->
        exists item, In item items /\ py_get item "id" JNull = Ok k /\
                     truthy k = true).
Proof.
  intros Hne Hs Hok Hj Hres.
  rewrite (get_coin_logos_unfold w ids Hne) in Hres.
  rewrite (http_get_answer w (req_url (logo_request ids))
             (Some (req_params (logo_request ids))) r (JList items) Hs Hok Hj)
    in Hres.
  simpl in Hres.
  assert (Hitems : logo_items items [] = Ok logos).
  { destruct items as [|x rest]; simpl in Hres; exact Hres. }
  assert (Hkeys : forall k v, In (k, v) logos ->
            exists item, In item items /\ py_get item "id" JNull = Ok k /\
                         truthy k = true).
  { intros k v Hin.
    destruct (logo_items_keys items [] logos Hitems k v Hin) as [[v0 []]|H];
      exact H. }
  split; [|split; [|exact Hkeys]].
  - intros cid Hcid. unfold logo_of.
    rewrite (logo_items_get cid items Hcid [] logos Hitems).
    now destruct (last_image cid items).
  - intros cid Hno. unfold logo_of.
    destruct (dict_get (JStr cid) logos) as [v|] eqn:Hg; [|reflexivity].
    exfalso.
    assert (Hin : exists k, key_eqb k (JStr cid) = true /\ In (k, v) logos).
    { clear - Hg. induction logos as [|[k' v'] d IH]; simpl in Hg;
        [discriminate|].
      destruct (key_eqb k' (JStr cid)) eqn:E.
      - injection Hg as ->. exists k'. split; [exact E | now left].
      - destruct (IH Hg) as [k [Hk Hd]]. exists k. split; [exact Hk | now right]. }
    destruct Hin as [k [Hk Hin]]. apply key_eqb_str_r in Hk. subst k.
    destruct (Hkeys _ _ Hin) as [item [Hitem [Hid _]]].
    exact (Hno item Hitem Hid).
Qed.

Lemma logos_come_from_reported_items_witness :
  (forall cid, cid <> "" ->
     logo_of cid [(JStr "a", JStr "3"); (JStr "b", JStr "2")]
     = last_image cid
         [JDict [("id", JStr "a"); ("image", JStr "1")];
          JDict [("id", JStr "b"); ("image", JStr "2")];
          JDict [("name", JStr "no id")];
          JDict [("id", JStr "a"); ("image", JStr "3")]])
  /\ (forall cid,
        (forall item,
           In item [JDict [("id", JStr "a"); ("image", JStr "1")];
                    JDict [("id", JStr "b"); ("image", JStr "2")];
                    JDict [("name", JStr "no id")];
                    JDict [("id", JStr "a"); ("image", JStr "3")]] ->
           py_get item "id" JNull <> Ok (JStr cid)) ->
        logo_of cid [(JStr "a", JStr "3"); (JStr "b", JStr "2")] = None)
  /\ (forall k v,
        In (k, v) [(JStr "a", JStr "3"); (JStr "b", JStr "2")] ->
        exists item,
          In item [JDict [("id", JStr "a"); ("image", JStr "1")];
                   JDict [("id", JStr "b"); ("image", JStr "2")];
                   JDict [("name", JStr "no id")];
                   JDict [("id", JStr "a"); ("image", JStr "3")]] /\
          py_get item "id" JNull = Ok k /\ truthy k = true).
Proof.
  apply (logos_come_from_reported_items
           (Sample.answering
              (JList [JDict [("id", JStr "a"); ("image", JStr "1")];
                      JDict [("id", JStr "b"); ("image", JStr "2")];
                      JDict [("name", JStr "no id")];
                      JDict [("id", JStr "a"); ("image", JStr "3")]])
              Sample.morning)
           ["a"; "b"]
           {| status_code := 200;
              json_body :=
                Ok (JList [JDict [("id", JStr "a"); ("image", JStr "1")];
                           JDict [("id", JStr "b"); ("image", JStr "2")];
                           JDict [("name", JStr "no id")];
                           JDict [("id", JStr "a"); ("image", JStr "3")]]) |}).
  - discriminate.
  - reflexivity.
  - left. simpl. lia.
  - reflexivity.
  - vm_compute. reflexivity.
Defined.

Example logos_keep_the_last_image :
  fst (get_coin_logos_by_ids
         (Sample.answering
            (JList [JDict [("id", JStr "a"); ("image", JStr "1")];
                    JDict [("id", JInt 1); ("image", JStr "x")];
                    JDict [("id", JStr "a"); ("image", JStr "3")];
                    JDict [("id", JBool true); ("image", JStr "y")]])
            Sample.morning) ["a"])
  = Ok [(JStr "a", JStr "3"); (JInt 1, JStr "y")].
Proof. vm_compute. reflexivity. Qed.

(** * Further properties of the store *)

Lemma refreshed_same_holding (prices : json) (ts : string) (r : holding) :
  same_holding r (refreshed prices ts r).
Proof.
  unfold refreshed, same_holding.
  destruct (new_price prices (coin_id r)); simpl; now repeat split.
Qed.

Lemma refresh_frame (w : env) (db : store) :
  seq (table_after (refresh_portfolio_prices w db)) = seq db /\
  Forall2 same_holding (rows db)
    (rows (table_after (refresh_portfolio_prices w db))).
Proof.
  destruct (refresh_run_complete w db)
    as [Hnil | e t0 _ Hb | prices e t0 _ Hb Hl | prices t0 _ Hb Hok];
    unfold table_after; simpl; (split; [reflexivity|]);
    try (apply Forall2_same; intros r _; unfold same_holding; now repeat split).
  apply Forall2_map_r. intros r _. apply refreshed_same_holding.
Qed.

(** X6.  A refresh never adds, drops or reorders rows and never touches a
    row's [id], [coin_id], [name], [symbol] or [quantity], nor the
    AUTOINCREMENT counter: whatever the service answers, only prices and
    time stamps can differ afterwards. *)
Theorem refresh_touches_only_price_and_stamp (w : env) (db : store) :
  seq (table_after (refresh_portfolio_prices w db)) = seq db /\
  List.length (rows (table_after (refresh_portfolio_prices w db)))
  = List.length (rows db) /\
  Forall2 same_holding (rows db)
    (rows (table_after (refresh_portfolio_prices w db))).
Proof.
  destruct (refresh_frame w db) as [Hs Hf].
  split; [exact Hs|]. split; [|exact Hf].
  symmetry. apply (Forall2_length Hf).
Qed.

(** X7.  After a refresh that completed, every row whose [coin_id] has a usd
    value in the lookup result holds [float] of that value, as the REAL
    column keeps it, as its [current_price], stamped with the clock reading
    of the refresh; every other row is as it was. *)
Theorem refresh_writes_float_of_usd
    (w : env) (db : store) (prices : json) :
  outcome (refresh_portfolio_prices w db) = Ok tt ->
  fst (batch w db) = Ok prices ->
  Forall2
    (fun old new =>
       exists v, usd_of prices (coin_id old) = Ok v /\
         ((v = JNull /\ new = old) \/
          (v <> JNull /\
           exists p, py_float v = Ok p /\
             new = Sql.set_price p (DateTime.isoformat (utcnow w)) old)))
    (rows db) (rows (table_after (refresh_portfolio_prices w db))).
Proof.
  intros Hout Hp.
  destruct (refresh_run_complete w db)
    as [Hnil | e t0 _ Hb | prices' e t0 _ Hb Hl | prices' t0 _ Hb Hok];
    try discriminate Hout.
  - unfold table_after. simpl. rewrite Hnil. constructor.
  - rewrite Hb in Hp. injection Hp as ->.
    unfold table_after. simpl. apply Forall2_map_r. intros r Hr.
    destruct (Hok r Hr) as [v [Hu Hv]]. exists v. split; [exact Hu|].
    unfold refreshed, new_price. rewrite Hu.
    destruct Hv as [-> | [p Hf]]; [now left|].
    destruct v; [now left | right ..]; (split; [discriminate|]);
      exists p; rewrite Hf; now split.
Qed.

Lemma refresh_writes_float_of_usd_witness :
  Forall2
    (fun old new =>
       exists v, usd_of Sample.quotes (coin_id old) = Ok v /\
         ((v = JNull /\ new = old) \/
          (v <> JNull /\
           exists p, py_float v = Ok p /\
             new = Sql.set_price p
                     (DateTime.isoformat (utcnow Sample.market)) old)))
    (rows Sample.three)
    (rows (table_after (refresh_portfolio_prices Sample.market Sample.three))).
Proof.
  apply (refresh_writes_float_of_usd Sample.market Sample.three Sample.quotes).
  - vm_compute. reflexivity.
  - vm_compute. reflexivity.
Defined.

Lemma get_simple_prices_fails (w : env) (ids : ids_arg) :
  (forall rq, request_fails w rq) ->
  fst (get_simple_prices w ids) = Ok (JDict []).
Proof.
  intros H. unfold get_simple_prices.
  match goal with
  | |- context [http_get w ?u ?p] =>
      pose proof (http_get_fails w u p H) as E;
      destruct (http_get w u p) as [d t]
  end.
  simpl in E. now subst d.
Qed.

Lemma refresh_outage_eq (w : env) (db : store) :
  (forall rq, request_fails w rq) ->
  outcome (refresh_portfolio_prices w db) = Ok tt /\
  table_after (refresh_portfolio_prices w db) = db.
Proof.
  intros H.
  pose proof (get_simple_prices_fails w
                (IdsList (Sql.select_distinct_coin_id (rows db))) H) as Hb.
  fold (batch w db) in Hb.
  destruct (refresh_run_complete w db)
    as [Hnil | e t0 _ Hb' | prices e t0 _ Hb' Hl | prices t0 _ Hb' Hok];
    [now split | rewrite Hb' in Hb; simpl in Hb; try discriminate Hb ..].
  - injection Hb as ->. exfalso.
    destruct (refresh_loop_total (JDict [])
                (Sql.select_distinct_coin_id (rows db))) with
      (ts := "") (tbl := @nil holding) as [tbl' E].
    + intros cid _. exists JNull. split; [reflexivity | now left].
    + rewrite Hl in E. discriminate.
  - injection Hb as ->. split; [reflexivity|].
    unfold table_after. simpl.
    rewrite (map_ext _ (fun r => r)), map_id; [now destruct db|].
    intros r. reflexivity.
Qed.

(** X8.  While every request fails a refresh still completes and leaves
    the table exactly as it was: stale prices are kept, nothing is erased
    and nothing is raised; all it did was send its one lookup, when the
    table has rows. *)
Theorem refresh_survives_outage (w : env) (db : store) :
  (forall rq, request_fails w rq) ->
  outcome (refresh_portfolio_prices w db) = Ok tt /\
  table_after (refresh_portfolio_prices w db) = db /\
  List.length (requests_of (trace (refresh_portfolio_prices w db)))
  = (if Nat.eqb (List.length (rows db)) 0 then 0 else 1)%nat.
Proof.
  intros H. destruct (refresh_outage_eq w db H) as [Ho Ht].
  split; [exact Ho|]. split; [exact Ht|].
  destruct (rows db) as [|r rs] eqn:E.
  - unfold refresh_portfolio_prices, Sql.select_distinct_coin_id.
    rewrite E. reflexivity.
  - rewrite refresh_requests; [reflexivity|]. rewrite E. discriminate.
Qed.

Lemma refresh_survives_outage_witness :
  outcome (refresh_portfolio_prices (Sample.down Sample.evening) Sample.three)
  = Ok tt /\
  table_after (refresh_portfolio_prices (Sample.down Sample.evening)
                 Sample.three) = Sample.three /\
  List.length
    (requests_of
       (trace (refresh_portfolio_prices (Sample.down Sample.evening)
                 Sample.three)))
  = (if Nat.eqb (List.length (rows Sample.three)) 0 then 0 else 1)%nat.
Proof.
  apply (refresh_survives_outage (Sample.down Sample.evening) Sample.three).
  intros rq. apply fails_to_connect. reflexivity.
Defined.

(** ** Row ids *)

Lemma max_rowid_nonneg (rs : list holding) : 0 <= Sql.max_rowid rs.
Proof. induction rs as [|r rs IH]; simpl; lia. Qed.

Lemma max_rowid_bound (rs : list holding) (r : holding) :
  In r rs -> id r <= Sql.max_rowid rs.
Proof.
  induction rs as [|a rs IH]; simpl; [tauto|].
  intros [<-|H]; [lia|]. specialize (IH H). lia.
Qed.

Lemma StronglySorted_snoc (l : list Z) (x : Z) :
  StronglySorted Z.lt l -> Forall (fun y => y < x) l ->
  StronglySorted Z.lt (l ++ [x]).
Proof.
  induction l as [|a l IH]; intros Hs Hf; simpl.
  - constructor; constructor.
  - inversion Hs as [|a' l' Hs' Ha]; subst.
    inversion Hf as [|a' l' Hax Hf']; subst.
    constructor; [now apply IH|].
    apply Forall_app. split; [exact Ha | now constructor].
Qed.

Lemma StronglySorted_filter (f : holding -> bool) (rs : list holding) :
  StronglySorted Z.lt (map id rs) ->
  StronglySorted Z.lt (map id (filter f rs)).
Proof.
  induction rs as [|a rs IH]; simpl; [constructor|].
  intros Hs. inversion Hs as [|a' l' Hs' Ha]; subst.
  destruct (f a); [|now apply IH].
  simpl. constructor; [now apply IH|].
  rewrite Forall_forall in *. intros y Hy.
  apply Ha. apply in_map_iff in Hy. destruct Hy as [r [<- Hr]].
  apply in_map. apply filter_In in Hr. tauto.
Qed.

Lemma insert_rowids_ok (cid nm sym : string) (q p : PyFloat.float)
    (ts : string) (db : store) :
  rowids_ok db -> rowids_ok (Sql.inserted cid nm sym q p ts db).
Proof.
  intros [Hs Hb]. unfold rowids_ok, Sql.inserted. simpl.
  rewrite map_app. simpl. split.
  - apply StronglySorted_snoc; [exact Hs|].
    apply Forall_forall. intros y Hy. apply in_map_iff in Hy.
    destruct Hy as [r [<- Hr]]. pose proof (max_rowid_bound _ _ Hr). lia.
  - apply Forall_app. split.
    + revert Hb. apply Forall_impl. intros r Hr. lia.
    + constructor; [simpl; lia | constructor].
Qed.

Lemma same_holding_ids (l l' : list holding) :
  Forall2 same_holding l l' -> map id l' = map id l.
Proof.
  induction 1 as [|a b l l' Hab _ IH]; simpl; [reflexivity|].
  destruct Hab as [-> _]. now rewrite IH.
Qed.

Lemma StronglySorted_NoDup (l : list Z) : StronglySorted Z.lt l -> NoDup l.
Proof.
  induction 1 as [|a l _ IH Ha]; constructor; [|exact IH].
  intros Hin. rewrite Forall_forall in Ha. specialize (Ha a Hin). lia.
Qed.

(** X9.  Row ids stay in order and are never reused.  The empty table has
    its rows in strictly increasing rowid order below the AUTOINCREMENT
    counter, and [add_coin], [refresh_portfolio_prices] and [delete_coin]
    keep it so; hence no two rows ever share an id, and the counter never
    goes back. *)
Theorem rowids_stay_ordered (db : store) :
  rowids_ok db ->
  NoDup (map id (rows db))
  /\ (forall w method f,
        rowids_ok (table_after (add_coin w method f db)) /\
        seq db <= seq (table_after (add_coin w method f db)))
  /\ (forall w, rowids_ok (table_after (refresh_portfolio_prices w db)))
  /\ (forall item_id,
        rowids_ok (table_after (delete_coin item_id db)) /\
        seq (table_after (delete_coin item_id db)) = seq db)
  /\ rowids_ok init_db.
Proof.
  intros Hok. split; [|split; [|split; [|split]]].
  - apply StronglySorted_NoDup, Hok.
  - intros w method f.
    destruct (String.eqb_spec method "POST") as [->|Hm].
    + destruct (add_coin_post w f db) as [[e [_ ->]] | [q [p [_ [_ [_ ->]]]]]].
      * split; [exact Hok | lia].
      * split; [now apply insert_rowids_ok|]. unfold Sql.inserted. simpl. lia.
    + unfold add_coin.
      destruct (String.eqb_spec method "POST"); [contradiction|].
      unfold table_after. simpl. split; [exact Hok | lia].
  - intros w. destruct (refresh_frame w db) as [Hs Hf].
    destruct Hok as [Hsorted Hb]. split.
    + rewrite (same_holding_ids _ _ Hf). exact Hsorted.
    + rewrite Hs. clear Hsorted Hs.
      induction Hf as [|a b l l' Hab _ IH]; [constructor|].
      inversion Hb as [|a' l'' Ha Hb']; subst.
      constructor; [|now apply IH].
      destruct Hab as [-> _]. exact Ha.
  - intros item_id. unfold delete_coin.
    destruct (Sql.int64 item_id); unfold table_after, Sql.delete; simpl;
      [|split; [exact Hok | reflexivity]].
    split; [|reflexivity]. destruct Hok as [Hsorted Hb]. split; simpl.
    + now apply StronglySorted_filter.
    + apply Forall_forall. intros r Hr. apply filter_In in Hr.
      rewrite Forall_forall in Hb. now apply Hb.
  - split; simpl; constructor.
Qed.

Lemma rowids_stay_ordered_witness :
  NoDup (map id (rows Sample.three))
  /\ (forall w method f,
        rowids_ok (table_after (add_coin w method f Sample.three)) /\
        seq Sample.three <= seq (table_after (add_coin w method f Sample.three)))
  /\ (forall w, rowids_ok (table_after (refresh_portfolio_prices w Sample.three)))
  /\ (forall item_id,
        rowids_ok (table_after (delete_coin item_id Sample.three)) /\
        seq (table_after (delete_coin item_id Sample.three)) = seq Sample.three)
  /\ rowids_ok init_db.
Proof.
  apply (rowids_stay_ordered Sample.three).
  split; simpl.
  - repeat constructor; lia.
  - repeat constructor; simpl; lia.
Defined.

(** X10.  Adding a holding and then deleting the id it was given brings
    the rows back to what they were: the new row is appended under an id
    larger than every id in the table and than the counter, the deletion
    removes that row and no other, and the counter keeps the new id, so
    the id is not given again. *)
Theorem add_then_delete_restores_rows
    (w : env) (f : form) (db : store) (rep : reply) :
  outcome (add_coin w "POST" f db) = Ok rep ->
  exists r,
    rows (table_after (add_coin w "POST" f db)) = (rows db ++ [r])%list /\
    (forall old, In old (rows db) -> id old < id r) /\
    seq db < id r /\
    rows (table_after (delete_coin (id r) (table_after (add_coin w "POST" f db))))
    = rows db /\
    seq (table_after (delete_coin (id r) (table_after (add_coin w "POST" f db))))
    = id r.
Proof.
  intros Hout.
  destruct (add_coin_post w f db) as [[e [He _]] | [q [p [_ [_ [_ Ht]]]]]].
  - rewrite Hout in He. discriminate.
  - rewrite Ht. unfold Sql.inserted at 1. simpl rows.
    eexists. split; [reflexivity|]. simpl id.
    assert (Hlt : forall old, In old (rows db) ->
              id old < Z.max (seq db) (Sql.max_rowid (rows db)) + 1).
    { intros old Hin. pose proof (max_rowid_bound _ _ Hin). lia. }
    split; [exact Hlt|]. split; [lia|].
    pose proof (add_coin_completed w f db rep Hout) as Hmax.
    pose proof (max_rowid_nonneg (rows db)) as Hnn.
    assert (Hfit : Sql.int64 (Z.max (seq db) (Sql.max_rowid (rows db)) + 1)
                   = true).
    { unfold Sql.int64, Sql.int64_max in *.
      apply andb_true_iff. split; apply Z.leb_le; lia. }
    unfold delete_coin. rewrite Hfit.
    unfold table_after, Sql.delete, Sql.inserted. simpl.
    split; [|reflexivity].
    rewrite filter_app. simpl. rewrite Z.eqb_refl. simpl.
    rewrite app_nil_r. apply filter_all.
    intros old Hin. apply negb_true_iff, Z.eqb_neq.
    specialize (Hlt old Hin). lia.
Qed.

Lemma add_then_delete_restores_rows_witness :
  exists r,
    rows (table_after
            (add_coin Sample.market "POST"
               [("coin_id", "ethereum"); ("quantity", "1.5")] Sample.three))
    = (rows Sample.three ++ [r])%list /\
    (forall old, In old (rows Sample.three) -> id old < id r) /\
    seq Sample.three < id r /\
    rows (table_after
            (delete_coin (id r)
               (table_after
                  (add_coin Sample.market "POST"
                     [("coin_id", "ethereum"); ("quantity", "1.5")]
                     Sample.three))))
    = rows Sample.three /\
    seq (table_after
           (delete_coin (id r)
              (table_after
                 (add_coin Sample.market "POST"
                    [("coin_id", "ethereum"); ("quantity", "1.5")]
                    Sample.three))))
    = id r.
Proof.
  apply (add_then_delete_restores_rows Sample.market
           [("coin_id", "ethereum"); ("quantity", "1.5")] Sample.three
           (redirect "/portfolio")).
  vm_compute. reflexivity.
Defined.

(** X11.  In a table whose row ids are in order, deleting the id of a row
    (a rowid, so a 64-bit integer) removes exactly that row: the rows
    before it and after it stay, in order, and the table has one row
    less. *)
Theorem delete_removes_exactly_one_row
    (db : store) (r : holding) :
  rowids_ok db -> In r (rows db) -> Sql.int64 (id r) = true ->
  exists before after,
    rows db = (before ++ r :: after)%list /\
    rows (table_after (delete_coin (id r) db)) = (before ++ after)%list /\
    S (List.length (rows (table_after (delete_coin (id r) db))))
    = List.length (rows db).
Proof.
  intros [Hs _] Hin Hfit.
  destruct (in_split _ _ Hin) as [before [after E]].
  exists before, after. split; [exact E|].
  pose proof (StronglySorted_NoDup _ Hs) as Hnd.
  rewrite E, map_app in Hnd. simpl in Hnd.
  assert (Hothers : forall x, In x before \/ In x after -> id x <> id r).
  { intros x Hx Heq. apply NoDup_remove_2 in Hnd. apply Hnd.
    rewrite <- Heq. apply in_or_app.
    destruct Hx as [Hx|Hx]; [left | right]; now apply in_map. }
  assert (Hrows : rows (table_after (delete_coin (id r) db))
                  = (before ++ after)%list).
  { unfold delete_coin. rewrite Hfit. unfold table_after, Sql.delete. simpl.
    rewrite E, filter_app. simpl. rewrite Z.eqb_refl. simpl.
    rewrite !filter_all; [reflexivity | |];
      intros x Hx; apply negb_true_iff, Z.eqb_neq, Hothers; tauto. }
  split; [exact Hrows|].
  rewrite Hrows, E, !length_app. simpl. lia.
Qed.

Lemma delete_removes_exactly_one_row_witness :
  exists before after,
    rows Sample.three
    = (before ++ Sample.held 2 "bitcoin" 5 200 :: after)%list /\
    rows (table_after
            (delete_coin (id (Sample.held 2 "bitcoin" 5 200)) Sample.three))
    = (before ++ after)%list /\
    S (List.length
         (rows (table_after
                  (delete_coin (id (Sample.held 2 "bitcoin" 5 200))
                     Sample.three))))
    = List.length (rows Sample.three).
Proof.
  apply (delete_removes_exactly_one_row Sample.three
           (Sample.held 2 "bitcoin" 5 200)).
  - split; simpl.
    + repeat constructor; lia.
    + repeat constructor; simpl; lia.
  - simpl. right. left. reflexivity.
  - reflexivity.
Defined.

(** X24.  Row ids fit 64 bits.  The empty table has every rowid between 1
    and the largest 64-bit integer and its counter within that integer, and
    [add_coin], [refresh_portfolio_prices] and [delete_coin] keep it so: an
    insertion that would need a larger rowid fails and stores nothing.
    Hence the id of every row is one that [delete_coin] can bind. *)
Theorem rowids_fit_64_bits (db : store) :
  rowids_in_range db ->
  (forall w method f, rowids_in_range (table_after (add_coin w method f db)))
  /\ (forall w, rowids_in_range (table_after (refresh_portfolio_prices w db)))
  /\ (forall item_id, rowids_in_range (table_after (delete_coin item_id db)))
  /\ rowids_in_range init_db
  /\ (forall r, In r (rows db) -> Sql.int64 (id r) = true).
Proof.
  intros [Hrows Hseq]. split; [|split; [|split; [|split]]].
  - intros w method f.
    destruct (String.eqb_spec method "POST") as [->|Hm];
      [|rewrite add_coin_not_post by exact Hm; now split].
    destruct (add_coin_post w f db)
      as [[e [_ ->]] | [q [p [_ [_ [Hout ->]]]]]]; [now split|].
    pose proof (add_coin_completed w f db _ Hout) as Hmax.
    pose proof (max_rowid_nonneg (rows db)) as Hnn.
    unfold rowids_in_range, Sql.inserted. simpl. split; [|lia].
    apply Forall_app. split; [exact Hrows|].
    constructor; [simpl; lia | constructor].
  - intros w. destruct (refresh_frame w db) as [Hs Hf].
    split; [|now rewrite Hs].
    clear Hs Hseq.
    induction Hf as [|a b l l' Hab _ IH]; [constructor|].
    inversion Hrows as [|a' l'' Ha Hl]; subst.
    constructor; [|now apply IH].
    destruct Hab as [-> _]. exact Ha.
  - intros item_id. split.
    + apply Forall_forall. intros r Hr.
      rewrite Forall_forall in Hrows.
      apply Hrows. now apply (delete_coin_rows item_id).
    + unfold delete_coin.
      destruct (Sql.int64 item_id); unfold table_after; simpl; exact Hseq.
  - split; simpl; [constructor | unfold Sql.int64_max; lia].
  - intros r Hr. rewrite Forall_forall in Hrows. specialize (Hrows r Hr).
    unfold Sql.int64. apply andb_true_iff.
    unfold Sql.int64_max in *. split; apply Z.leb_le; lia.
Qed.

Lemma rowids_fit_64_bits_witness :
  (forall w method f,
     rowids_in_range (table_after (add_coin w method f Sample.three)))
  /\ (forall w,
        rowids_in_range (table_after (refresh_portfolio_prices w Sample.three)))
  /\ (forall item_id,
        rowids_in_range (table_after (delete_coin item_id Sample.three)))
  /\ rowids_in_range init_db
  /\ (forall r, In r (rows Sample.three) -> Sql.int64 (id r) = true).
Proof.
  apply (rowids_fit_64_bits Sample.three).
  split; simpl.
  - repeat constructor; simpl; unfold Sql.int64_max; lia.
  - unfold Sql.int64_max. lia.
Defined.

(** At the end of the rowids an insertion fails and the table stays. *)
Example add_at_the_last_rowid :
  add_coin Sample.market "POST" [("coin_id", "bitcoin"); ("quantity", "1")]
    {| rows := [Sample.held Sql.int64_max "bitcoin" 1 1];
       seq := Sql.int64_max |}
  = (Raise (OtherError "sqlite3.OperationalError"),
     {| rows := [Sample.held Sql.int64_max "bitcoin" 1 1];
        seq := Sql.int64_max |},
     [EvGet (simple_price_request "bitcoin")]).
Proof. vm_compute. reflexivity. Qed.

(** ** What [add_coin] stores *)

Lemma is_space_lower_char (c : ascii) :
  PyStr.is_space (PyStr.lower_char c) = PyStr.is_space c.
Proof. destruct c as [[] [] [] [] [] [] [] []]; reflexivity. Qed.

Lemma lower_char_idem (c : ascii) :
  PyStr.lower_char (PyStr.lower_char c) = PyStr.lower_char c.
Proof. destruct c as [[] [] [] [] [] [] [] []]; reflexivity. Qed.

Lemma lower_idem (s : string) : PyStr.lower (PyStr.lower s) = PyStr.lower s.
Proof.
  induction s as [|c s IH]; simpl; [reflexivity|].
  now rewrite lower_char_idem, IH.
Qed.

Lemma lstrip_lower (s : string) :
  PyStr.lstrip (PyStr.lower s) = PyStr.lower (PyStr.lstrip s).
Proof.
  induction s as [|c s IH]; simpl; [reflexivity|].
  rewrite is_space_lower_char. now destruct (PyStr.is_space c).
Qed.

Lemma rstrip_lower (s : string) :
  PyStr.rstrip (PyStr.lower s) = PyStr.lower (PyStr.rstrip s).
Proof.
  induction s as [|c s IH]; simpl; [reflexivity|].
  rewrite IH, is_space_lower_char.
  destruct (PyStr.rstrip s); simpl; [|reflexivity].
  now destruct (PyStr.is_space c).
Qed.

Lemma strip_lower (s : string) :
  PyStr.strip (PyStr.lower s) = PyStr.lower (PyStr.strip s).
Proof. unfold PyStr.strip. now rewrite lstrip_lower, rstrip_lower. Qed.

Lemma rstrip_idem (s : string) : PyStr.rstrip (PyStr.rstrip s) = PyStr.rstrip s.
Proof.
  induction s as [|c s IH]; simpl; [reflexivity|].
  destruct (PyStr.rstrip s) as [|d u] eqn:E.
  - destruct (PyStr.is_space c) eqn:Hc; simpl; [reflexivity|]. now rewrite Hc.
  - simpl. simpl in IH. now rewrite IH.
Qed.

Lemma lstrip_head (s : string) (c : ascii) (t : string) :
  PyStr.lstrip s = String c t -> PyStr.is_space c = false.
Proof.
  induction s as [|a s IH]; simpl; [discriminate|].
  destruct (PyStr.is_space a) eqn:Ha; [exact IH|].
  intros [= <- <-]. exact Ha.
Qed.

Lemma lstrip_rstrip_lstrip (s : string) :
  PyStr.lstrip (PyStr.rstrip (PyStr.lstrip s)) = PyStr.rstrip (PyStr.lstrip s).
Proof.
  destruct (PyStr.lstrip s) as [|c t] eqn:E; [reflexivity|].
  pose proof (lstrip_head s c t E) as Hc. simpl.
  destruct (PyStr.rstrip t); simpl; rewrite Hc; simpl; now rewrite ?Hc.
Qed.

Lemma strip_idem (s : string) : PyStr.strip (PyStr.strip s) = PyStr.strip s.
Proof.
  unfold PyStr.strip. now rewrite lstrip_rstrip_lstrip, rstrip_idem.
Qed.

(** [add_coin] on a POST, as one equation. *)
Lemma add_coin_post_eq (w : env) (f : form) (db : store) :
  let cid := PyStr.lower (PyStr.strip (form_get f "coin_id" "")) in
  let lookup := get_simple_prices w (IdsList [cid]) in
  add_coin w "POST" f db =
  match prices <- fst lookup ;; seed_price prices cid with
  | Raise e => (Raise e, db, snd lookup)
  | Ok p =>
      match Sql.insert cid (PyStr.strip (form_get f "name" ""))
              (PyStr.lower (PyStr.strip (form_get f "symbol" "")))
              (quantity_of (PyStr.strip (form_get f "quantity" "0"))) p
              (DateTime.isoformat (utcnow w)) db with
      | Raise e => (Raise e, db, snd lookup)
      | Ok db' => (Ok (redirect "/portfolio"), db', snd lookup)
      end
  end.
Proof.
  intros cid lookup. unfold add_coin. simpl String.eqb. cbv iota.
  rewrite parse_quantity_total. fold cid. fold lookup.
  destruct lookup as [r t]. reflexivity.
Qed.

(** X12.  A completed [add_coin] appends one row holding the submitted
    texts in normal form: [coin_id] and [symbol] trimmed and in lower case,
    [name] trimmed, so that trimming or lower-casing them again changes
    nothing; and the one price lookup it sent was for that stored
    [coin_id]. *)
Theorem add_stores_normalised_text
    (w : env) (f : form) (db : store) (rep : reply) :
  outcome (add_coin w "POST" f db) = Ok rep ->
  exists r,
    rows (table_after (add_coin w "POST" f db)) = (rows db ++ [r])%list /\
    coin_id r = PyStr.lower (PyStr.strip (form_get f "coin_id" "")) /\
    name r = PyStr.strip (form_get f "name" "") /\
    symbol r = PyStr.lower (PyStr.strip (form_get f "symbol" "")) /\
    PyStr.lower (coin_id r) = coin_id r /\
    PyStr.strip (coin_id r) = coin_id r /\
    PyStr.strip (name r) = name r /\
    PyStr.lower (symbol r) = symbol r /\
    PyStr.strip (symbol r) = symbol r /\
    requests_of (trace (add_coin w "POST" f db))
    = [simple_price_request (coin_id r)].
Proof.
  intros Hout. pose proof (add_coin_post_eq w f db) as E. simpl in E.
  rewrite E in Hout |- *. clear E.
  pose proof (get_simple_prices_requests w
    [PyStr.lower (PyStr.strip (form_get f "coin_id" ""))]) as Hreq.
  destruct (prices <- fst _ ;; seed_price prices _) as [p|e];
    [|discriminate Hout].
  unfold Sql.insert in Hout |- *.
  destruct (Sql.int64_max <=? _); [discriminate Hout|].
  unfold table_after, trace, Sql.inserted. simpl.
  eexists. split; [reflexivity|]. simpl.
  repeat split; try apply lower_idem; try apply strip_idem;
    try (rewrite strip_lower, strip_idem; reflexivity).
  exact Hreq.
Qed.

Lemma add_stores_normalised_text_witness :
  exists r,
    rows (table_after
            (add_coin Sample.market "POST"
               [("coin_id", "  BitCoin "); ("name", " Bitcoin ");
                ("symbol", "BTC "); ("quantity", "2")] Sample.mixed))
    = (rows Sample.mixed ++ [r])%list /\
    coin_id r = PyStr.lower (PyStr.strip "  BitCoin ") /\
    name r = PyStr.strip " Bitcoin " /\
    symbol r = PyStr.lower (PyStr.strip "BTC ") /\
    PyStr.lower (coin_id r) = coin_id r /\
    PyStr.strip (coin_id r) = coin_id r /\
    PyStr.strip (name r) = name r /\
    PyStr.lower (symbol r) = symbol r /\
    PyStr.strip (symbol r) = symbol r /\
    requests_of
      (trace (add_coin Sample.market "POST"
                [("coin_id", "  BitCoin "); ("name", " Bitcoin ");
                 ("symbol", "BTC "); ("quantity", "2")] Sample.mixed))
    = [simple_price_request (coin_id r)].
Proof.
  apply (add_stores_normalised_text Sample.market
           [("coin_id", "  BitCoin "); ("name", " Bitcoin ");
            ("symbol", "BTC "); ("quantity", "2")] Sample.mixed
           (redirect "/portfolio")).
  vm_compute. reflexivity.
Defined.

Lemma seed_price_unquoted (prices : json) (cid : string) :
  unquoted prices cid -> seed_price prices cid = Ok PyFloat.zero.
Proof.
  intros [d [-> [H | [e [H He]]]]]; unfold seed_price; simpl; rewrite H; simpl;
    [reflexivity | now rewrite He].
Qed.

(** X13.  When the price lookup gives no quote for the coin, because every
    request fails or because the result has no entry for the coin or an
    entry without a [usd] key, [add_coin] still completes as long as the
    table has a rowid left to give: it redirects to the portfolio and
    appends the row with the price 0.0, the parsed quantity as SQLite
    keeps it (NULL for NaN, 0.0 for a negative zero) and the current time
    stamp. *)
Theorem add_seeds_zero_price_without_quote
    (w : env) (f : form) (db : store) :
  rowid_left db ->
  (forall rq, request_fails w rq) \/
  (exists prices,
     fst (get_simple_prices w
            (IdsList [PyStr.lower (PyStr.strip (form_get f "coin_id" ""))]))
     = Ok prices /\
     unquoted prices (PyStr.lower (PyStr.strip (form_get f "coin_id" "")))) ->
  outcome (add_coin w "POST" f db) = Ok (redirect "/portfolio") /\
  exists r,
    rows (table_after (add_coin w "POST" f db)) = (rows db ++ [r])%list /\
    current_price r = Some PyFloat.zero /\
    quantity r
    = Sql.real (quantity_of (PyStr.strip (form_get f "quantity" "0"))) /\
    last_updated r = Some (DateTime.isoformat (utcnow w)).
Proof.
  intros Hleft H.
  set (cid := PyStr.lower (PyStr.strip (form_get f "coin_id" ""))) in *.
  assert (Hseed : (prices <- fst (get_simple_prices w (IdsList [cid])) ;;
                   seed_price prices cid) = Ok PyFloat.zero).
  { destruct H as [Hfail | [prices [Hp Hu]]].
    - now rewrite (get_simple_prices_fails w (IdsList [cid]) Hfail).
    - rewrite Hp. simpl. now apply seed_price_unquoted. }
  pose proof (add_coin_post_eq w f db) as E. simpl in E. fold cid in E.
  rewrite E, Hseed. unfold Sql.insert.
  apply Z.leb_gt in Hleft. rewrite Hleft.
  unfold outcome, table_after, Sql.inserted. simpl.
  split; [reflexivity|]. eexists. split; [reflexivity|]. now repeat split.
Qed.

Lemma add_seeds_zero_price_without_quote_witness :
  outcome (add_coin (Sample.down Sample.evening) "POST"
             [("coin_id", "bogus-coin-xyz"); ("name", "X"); ("symbol", "x");
              ("quantity", "3")] init_db)
  = Ok (redirect "/portfolio") /\
  exists r,
    rows (table_after
            (add_coin (Sample.down Sample.evening) "POST"
               [("coin_id", "bogus-coin-xyz"); ("name", "X"); ("symbol", "x");
                ("quantity", "3")] init_db))
    = (rows init_db ++ [r])%list /\
    current_price r = Some PyFloat.zero /\
    quantity r = Sql.real (quantity_of (PyStr.strip "3")) /\
    last_updated r = Some (DateTime.isoformat (utcnow (Sample.down Sample.evening))).
Proof.
  apply (add_seeds_zero_price_without_quote (Sample.down Sample.evening)
           [("coin_id", "bogus-coin-xyz"); ("name", "X"); ("symbol", "x");
            ("quantity", "3")] init_db).
  - reflexivity.
  - left. intros rq. apply fails_to_connect. reflexivity.
Defined.

(** X14.  A quote whose [usd] value is null is not covered by the default
    of the lookup: [add_coin] raises [TypeError] from [float(None)] and
    stores nothing, where a refresh would skip such an entry. *)
Theorem add_raises_on_null_quote
    (w : env) (f : form) (db : store) (d e : list (string * json)) :
  fst (get_simple_prices w
         (IdsList [PyStr.lower (PyStr.strip (form_get f "coin_id" ""))]))
  = Ok (JDict d) ->
  assoc (PyStr.lower (PyStr.strip (form_get f "coin_id" ""))) d
  = Some (JDict e) ->
  assoc "usd" e = Some JNull ->
  outcome (add_coin w "POST" f db) = Raise TypeError /\
  table_after (add_coin w "POST" f db) = db /\
  usd_of (JDict d) (PyStr.lower (PyStr.strip (form_get f "coin_id" "")))
  = Ok JNull.
Proof.
  intros Hp Hd He.
  pose proof (add_coin_post_eq w f db) as E. simpl in E.
  rewrite E, Hp. unfold seed_price, usd_of. simpl. rewrite Hd. simpl.
  rewrite He. simpl. now repeat split.
Qed.

Lemma add_raises_on_null_quote_witness :
  outcome (add_coin
             (Sample.answering
                (JDict [("bitcoin", JDict [("usd", JNull)])]) Sample.morning)
             "POST" [("coin_id", "Bitcoin"); ("quantity", "1")] Sample.three)
  = Raise TypeError /\
  table_after (add_coin
                 (Sample.answering
                    (JDict [("bitcoin", JDict [("usd", JNull)])])
                    Sample.morning)
                 "POST" [("coin_id", "Bitcoin"); ("quantity", "1")]
                 Sample.three)
  = Sample.three /\
  usd_of (JDict [("bitcoin", JDict [("usd", JNull)])])
    (PyStr.lower (PyStr.strip "Bitcoin")) = Ok JNull.
Proof.
  apply (add_raises_on_null_quote
           (Sample.answering
              (JDict [("bitcoin", JDict [("usd", JNull)])]) Sample.morning)
           [("coin_id", "Bitcoin"); ("quantity", "1")] Sample.three
           [("bitcoin", JDict [("usd", JNull)])] [("usd", JNull)]).
  - vm_compute. reflexivity.
  - vm_compute. reflexivity.
  - reflexivity.
Defined.

(** * Properties of the pages *)

(** ** [/prices] *)

Lemma search_term_blank (search : option string) :
  match search with
  | None => True
  | Some s => PyStr.only_spaces s = true
  end ->
  search_term search = "".
Proof.
  unfold search_term. destruct search as [s|]; [|reflexivity].
  intros H. now rewrite strip_lower, (strip_only_spaces s H).
Qed.

(** X15.  Without a search term, or with one of white space only, the
    price page lists what [get_top_coins] returned, unfiltered and whatever
    its shape, and the one request sent is that of [get_top_coins]. *)
Theorem prices_without_search_lists_all (w : env) (search : option string) :
  match search with
  | None => True
  | Some s => PyStr.only_spaces s = true
  end ->
  fst (prices w search)
  = (coins <- fst (get_top_coins w) ;; Ok (prices_html coins)) /\
  snd (prices w search) = snd (get_top_coins w) /\
  List.length (requests_of (snd (prices w search))) = 1%nat.
Proof.
  intros H. unfold prices. rewrite (search_term_blank search H).
  assert (Hone : List.length (requests_of (snd (get_top_coins w))) = 1%nat).
  { unfold get_top_coins.
    match goal with
    | |- context [http_get w ?u ?p] =>
        pose proof (http_get_requests w u p) as Hr;
        destruct (http_get w u p) as [d t]
    end.
    simpl in *. now rewrite Hr. }
  destruct (get_top_coins w) as [r t]. simpl in *.
  split; [now destruct r | now split].
Qed.

Lemma prices_without_search_lists_all_witness :
  fst (prices Sample.market (Some "   "))
  = (coins <- fst (get_top_coins Sample.market) ;; Ok (prices_html coins)) /\
  snd (prices Sample.market (Some "   ")) = snd (get_top_coins Sample.market) /\
  List.length (requests_of (snd (prices Sample.market (Some "   ")))) = 1%nat.
Proof.
  apply (prices_without_search_lists_all Sample.market (Some "   ")).
  reflexivity.
Defined.

Lemma lowered_plain (c : json) (key : string) :
  plain_coin c -> key = "name" \/ key = "symbol" \/ key = "id" ->
  exists s, lowered c key = Ok s.
Proof.
  intros [d [-> H]] Hk. specialize (H key Hk). unfold lowered. simpl.
  destruct (assoc key d) as [[]|]; try contradiction; simpl; eauto.
Qed.

Lemma coin_matches_plain (q : string) (c : json) :
  plain_coin c -> exists b, coin_matches q c = Ok b.
Proof.
  intros H. unfold coin_matches.
  destruct (lowered_plain c "name" H) as [nm ->]; [tauto|]. simpl.
  destruct (contains q nm); [eauto|].
  destruct (lowered_plain c "symbol" H) as [sym ->]; [tauto|]. simpl.
  destruct (contains q sym); [eauto|].
  destruct (lowered_plain c "id" H) as [i ->]; [tauto|]. simpl. eauto.
Qed.

Lemma coin_matches_id (q : string) (d : list (string * json)) (i : string) :
  plain_coin (JDict d) -> assoc "id" d = Some (JStr i) -> PyStr.lower i = q ->
  coin_matches q (JDict d) = Ok true.
Proof.
  intros H Hi Hq. unfold coin_matches.
  destruct (lowered_plain (JDict d) "name" H) as [nm ->]; [tauto|]. simpl.
  destruct (contains q nm); [reflexivity|].
  destruct (lowered_plain (JDict d) "symbol" H) as [sym ->]; [tauto|]. simpl.
  destruct (contains q sym); [reflexivity|].
  unfold lowered. simpl. rewrite Hi. simpl. rewrite Hq.
  now rewrite String.eqb_refl.
Qed.

Lemma filter_coins_plain (q : string) (cs : list json) :
  Forall plain_coin cs -> exists kept, filter_coins q cs = Ok kept.
Proof.
  induction 1 as [|c cs Hc _ [kept IH]]; simpl; [eauto|].
  destruct (coin_matches_plain q c Hc) as [b ->]. simpl. rewrite IH. simpl.
  eauto.
Qed.

Lemma filter_coins_spec (q : string) (cs : list json) :
  forall kept, filter_coins q cs = Ok kept ->
    sublist kept cs /\
    forall c, In c kept <-> In c cs /\ coin_matches q c = Ok true.
Proof.
  induction cs as [|c cs IH]; intros kept H; simpl in H.
  - injection H as <-. split; [constructor|]. simpl. tauto.
  - destruct (coin_matches q c) as [b|e] eqn:Hb; simpl in H; [|discriminate].
    destruct (filter_coins q cs) as [k|e]; simpl in H; [|discriminate].
    injection H as <-. destruct (IH k eq_refl) as [Hsub Hin].
    destruct b.
    + split; [now constructor|]. intros x. simpl. rewrite Hin. split.
      * intros [<-|[H1 H2]]; [split; [now left | exact Hb] | tauto].
      * intros [[<-|H1] H2]; [now left | right; tauto].
    + split; [now constructor|]. intros x. rewrite Hin. simpl. split.
      * intros [H1 H2]. tauto.
      * intros [[<-|H1] H2]; [congruence | tauto].
Qed.

Lemma prices_search_eq (w : env) (search : option string) (cs : list json) :
  fst (get_top_coins w) = Ok (JList cs) ->
  search_term search <> "" ->
  fst (prices w search)
  = (kept <- filter_coins (search_term search) cs ;;
     Ok (prices_html (JList kept))).
Proof.
  intros Hc Hq. unfold prices.
  destruct (get_top_coins w) as [r t]. simpl in Hc. subst r. simpl.
  destruct (String.eqb_spec (search_term search) "") as [E|_];
    [contradiction|].
  simpl. now destruct (filter_coins (search_term search) cs).
Qed.

(** X16.  A search over a list of coins whose name, symbol and id are
    strings (or missing) never fails.  The page lists a selection of the
    coins, in their order: exactly those the filter accepts.  A coin whose
    id, in lower case, is the search term is always among them, so looking
    a coin up by its id works in any letter case. *)
Theorem prices_search_selects_matching_coins
    (w : env) (search : option string) (cs : list json) :
  fst (get_top_coins w) = Ok (JList cs) ->
  search_term search <> "" ->
  Forall plain_coin cs ->
  exists kept,
    fst (prices w search) = Ok (prices_html (JList kept)) /\
    sublist kept cs /\
    (forall c, In c kept <->
               In c cs /\ coin_matches (search_term search) c = Ok true) /\
    (forall d i, In (JDict d) cs -> assoc "id" d = Some (JStr i) ->
                 PyStr.lower i = search_term search -> In (JDict d) kept).
Proof.
  intros Hc Hq Hplain.
  destruct (filter_coins_plain (search_term search) cs Hplain) as [kept Hk].
  exists kept. rewrite (prices_search_eq w search cs Hc Hq), Hk.
  destruct (filter_coins_spec _ _ _ Hk) as [Hsub Hin].
  split; [reflexivity|]. split; [exact Hsub|]. split; [exact Hin|].
  intros d i Hd Hi Hl. apply Hin. split; [exact Hd|].
  apply (coin_matches_id _ d i); [|exact Hi | exact Hl].
  rewrite Forall_forall in Hplain. now apply Hplain.
Qed.

Lemma prices_search_selects_matching_coins_witness :
  exists kept,
    fst (prices
           (Sample.answering
              (JList [JDict [("id", JStr "bitcoin"); ("name", JStr "Bitcoin");
                             ("symbol", JStr "btc")];
                      JDict [("id", JStr "ethereum"); ("name", JStr "Ethereum")]])
              Sample.morning)
           (Some " ETHEREUM "))
    = Ok (prices_html (JList kept)) /\
    sublist kept
      [JDict [("id", JStr "bitcoin"); ("name", JStr "Bitcoin");
              ("symbol", JStr "btc")];
       JDict [("id", JStr "ethereum"); ("name", JStr "Ethereum")]] /\
    (forall c, In c kept <->
       In c [JDict [("id", JStr "bitcoin"); ("name", JStr "Bitcoin");
                    ("symbol", JStr "btc")];
             JDict [("id", JStr "ethereum"); ("name", JStr "Ethereum")]] /\
       coin_matches (search_term (Some " ETHEREUM ")) c = Ok true) /\
    (forall d i,
       In (JDict d)
          [JDict [("id", JStr "bitcoin"); ("name", JStr "Bitcoin");
                  ("symbol", JStr "btc")];
           JDict [("id", JStr "ethereum"); ("name", JStr "Ethereum")]] ->
       assoc "id" d = Some (JStr i) ->
       PyStr.lower i = search_term (Some " ETHEREUM ") -> In (JDict d) kept).
Proof.
  apply (prices_search_selects_matching_coins
           (Sample.answering
              (JList [JDict [("id", JStr "bitcoin"); ("name", JStr "Bitcoin");
                             ("symbol", JStr "btc")];
                      JDict [("id", JStr "ethereum"); ("name", JStr "Ethereum")]])
              Sample.morning)
           (Some " ETHEREUM ")).
  - vm_compute. reflexivity.
  - vm_compute. discriminate.
  - repeat constructor; eexists; (split; [reflexivity|]);
      intros key [-> | [-> | ->]]; exact I.
Defined.

(** X17.  The default of [c.get("name", "")] does not cover a name that is
    present but not a string (a null, a number): a search over a list in
    which such a coin follows well-formed ones raises [AttributeError],
    although the same list is shown without a search. *)
Theorem prices_search_raises_on_odd_name
    (w : env) (search : option string) (before after : list json)
    (d : list (string * json)) (v : json) :
  fst (get_top_coins w) = Ok (JList (before ++ JDict d :: after)) ->
  search_term search <> "" ->
  Forall plain_coin before ->
  assoc "name" d = Some v -> (forall s, v <> JStr s) ->
  fst (prices w search) = Raise AttributeError /\
  fst (prices w None)
  = Ok (prices_html (JList (before ++ JDict d :: after))).
Proof.
  intros Hc Hq Hplain Hn Hv. split.
  - rewrite (prices_search_eq w search _ Hc Hq).
    assert (Hbad : coin_matches (search_term search) (JDict d)
                   = Raise AttributeError).
    { unfold coin_matches, lowered. simpl. rewrite Hn. simpl.
      destruct v; try reflexivity. now elim (Hv s). }
    clear Hc. induction Hplain as [|c cs Hc0 _ IH]; simpl.
    + now rewrite Hbad.
    + destruct (coin_matches_plain (search_term search) c Hc0) as [b ->].
      simpl.
      destruct (filter_coins (search_term search) (cs ++ JDict d :: after))
        as [k|e]; simpl in *; [discriminate IH | exact IH].
  - unfold prices. destruct (get_top_coins w) as [r t]. simpl in Hc.
    subst r. reflexivity.
Qed.

Lemma prices_search_raises_on_odd_name_witness :
  fst (prices
         (Sample.answering
            (JList [JDict [("id", JStr "bitcoin"); ("name", JStr "Bitcoin")];
                    JDict [("id", JStr "x"); ("name", JNull)]])
            Sample.morning)
         (Some "eth"))
  = Raise AttributeError /\
  fst (prices
         (Sample.answering
            (JList [JDict [("id", JStr "bitcoin"); ("name", JStr "Bitcoin")];
                    JDict [("id", JStr "x"); ("name", JNull)]])
            Sample.morning)
         None)
  = Ok (prices_html
          (JList ([JDict [("id", JStr "bitcoin"); ("name", JStr "Bitcoin")]]
                  ++ JDict [("id", JStr "x"); ("name", JNull)] :: []))).
Proof.
  apply (prices_search_raises_on_odd_name
           (Sample.answering
              (JList [JDict [("id", JStr "bitcoin"); ("name", JStr "Bitcoin")];
                      JDict [("id", JStr "x"); ("name", JNull)]])
              Sample.morning)
           (Some "eth")
           [JDict [("id", JStr "bitcoin"); ("name", JStr "Bitcoin")]] []
           [("id", JStr "x"); ("name", JNull)] JNull).
  - vm_compute. reflexivity.
  - vm_compute. discriminate.
  - repeat constructor; eexists; (split; [reflexivity|]);
      intros key [-> | [-> | ->]]; exact I.
  - reflexivity.
  - discriminate.
Defined.

(** ** [/portfolio] *)

Lemma str_lt_trans (a b c : string) : str_lt a b -> str_lt b c -> str_lt a c.
Proof.
  unfold str_lt. intros H1 H2.
  apply String_as_OT.cmp_lt in H1, H2. apply String_as_OT.cmp_lt.
  exact (String_as_OT.lt_trans _ _ _ H1 H2).
Qed.

Lemma insert_sorted_In (x a : string) (l : list string) :
  In x (insert_sorted a l) <-> x = a \/ In x l.
Proof.
  induction l as [|y l IH]; simpl; [intuition|].
  destruct (String.compare a y) eqn:E; simpl.
  - apply String_as_OT.cmp_eq in E. subst y. intuition.
  - intuition.
  - rewrite IH. intuition.
Qed.

Lemma insert_sorted_sorted (a : string) (l : list string) :
  StronglySorted str_lt l -> StronglySorted str_lt (insert_sorted a l).
Proof.
  induction 1 as [|y l Hs IH Hy]; simpl; [repeat constructor|].
  destruct (String.compare a y) eqn:E.
  - now constructor.
  - constructor; [now constructor|]. constructor; [exact E|].
    revert Hy. apply Forall_impl. intros z Hz. exact (str_lt_trans _ _ _ E Hz).
  - constructor; [exact IH|].
    apply Forall_forall. intros z Hz. apply insert_sorted_In in Hz.
    destruct Hz as [->|Hz].
    + unfold str_lt. rewrite String_as_OT.cmp_antisym.
      unfold String_as_OT.cmp. now rewrite E.
    + rewrite Forall_forall in Hy. now apply Hy.
Qed.

Lemma sorted_set_In (x : string) (l : list string) :
  In x (sorted_set l) <-> In x l.
Proof.
  induction l as [|a l IH]; simpl; [tauto|].
  rewrite insert_sorted_In, IH. intuition.
Qed.

Lemma sorted_set_sorted (l : list string) : StronglySorted str_lt (sorted_set l).
Proof.
  induction l as [|a l IH]; simpl; [constructor|].
  now apply insert_sorted_sorted.
Qed.

Lemma sorted_set_nil (l : list string) : sorted_set l = [] -> l = [].
Proof.
  destruct l as [|a l]; [reflexivity|]. intros E.
  assert (H : In a (sorted_set (a :: l))) by (apply sorted_set_In; now left).
  rewrite E in H. destruct H.
Qed.

Lemma refresh_keeps_coin_ids (w : env) (db : store) :
  map coin_id (rows (table_after (refresh_portfolio_prices w db)))
  = map coin_id (rows db).
Proof.
  destruct (refresh_frame w db) as [_ Hf].
  induction Hf as [|a b l l' Hab _ IH]; simpl; [reflexivity|].
  destruct Hab as [_ [-> _]]. now rewrite IH.
Qed.

(** [portfolio] after a refresh that completed. *)
Lemma portfolio_eq (w : env) (db : store) :
  outcome (refresh_portfolio_prices w db) = Ok tt ->
  portfolio w db =
  (let db' := table_after (refresh_portfolio_prices w db) in
   let lookup := get_coin_logos_by_ids w (sorted_set (map coin_id (rows db))) in
   (logo_urls <- fst lookup ;; Ok (portfolio_html (rows db') logo_urls),
    db',
    (trace (refresh_portfolio_prices w db) ++ snd lookup)%list)).
Proof.
  intros Hout. unfold portfolio, get_portfolio_rows.
  pose proof (refresh_keeps_coin_ids w db) as Hids.
  destruct (refresh_portfolio_prices w db) as [[r db'] t].
  unfold outcome, table_after, trace in *. simpl in *. subst r.
  rewrite Hids.
  now destruct (get_coin_logos_by_ids w (sorted_set (map coin_id (rows db)))).
Qed.

Lemma requests_of_app (t1 t2 : list event) :
  requests_of (t1 ++ t2) = (requests_of t1 ++ requests_of t2)%list.
Proof. unfold requests_of. apply flat_map_app. Qed.

(** X18.  For a table with rows whose refresh completes, the portfolio page
    sends exactly two requests: the price lookup of the refresh, then one
    logo lookup.  The ids of the logo lookup are the coin ids of the table,
    each once and in increasing string order. *)
Theorem portfolio_sends_two_lookups (w : env) (db : store) :
  rows db <> [] ->
  outcome (refresh_portfolio_prices w db) = Ok tt ->
  let ids := sorted_set (map coin_id (rows db)) in
  requests_of (trace (portfolio w db))
  = [simple_price_request
       (PyStr.join "," (Sql.select_distinct_coin_id (rows db)));
     logo_request ids]
  /\ StronglySorted str_lt ids
  /\ (forall c, In c ids <-> exists r, In r (rows db) /\ coin_id r = c).
Proof.
  intros Hne Hout ids. split; [|split].
  - rewrite (portfolio_eq w db Hout). unfold trace at 1. simpl.
    rewrite requests_of_app, (refresh_requests w db Hne).
    pose proof (get_coin_logos_unfold w ids) as Hu.
    pose proof (http_get_requests w (req_url (logo_request ids))
                  (Some (req_params (logo_request ids)))) as Hr.
    fold ids. rewrite Hu.
    + destruct (http_get w _ _) as [r t]. simpl in *. now rewrite Hr.
    + intros E. apply sorted_set_nil in E. apply map_eq_nil in E.
      contradiction.
  - apply sorted_set_sorted.
  - intros c. subst ids. rewrite sorted_set_In, in_map_iff.
    split; intros [r [H1 H2]]; exists r; tauto.
Qed.

Lemma portfolio_sends_two_lookups_witness :
  requests_of (trace (portfolio Sample.market Sample.mixed))
  = [simple_price_request
       (PyStr.join "," (Sql.select_distinct_coin_id (rows Sample.mixed)));
     logo_request (sorted_set (map coin_id (rows Sample.mixed)))]
  /\ StronglySorted str_lt (sorted_set (map coin_id (rows Sample.mixed)))
  /\ (forall c, In c (sorted_set (map coin_id (rows Sample.mixed))) <->
        exists r, In r (rows Sample.mixed) /\ coin_id r = c).
Proof.
  apply (portfolio_sends_two_lookups Sample.market Sample.mixed).
  - discriminate.
  - vm_compute. reflexivity.
Defined.

(** X19.  The portfolio page shows the table as the refresh left it.  If
    the refresh raises, the page raises the same exception after the same
    trace and no logo lookup is made; otherwise the table after the page is
    the table after the refresh, and a page that is returned lists exactly
    those rows.  For the empty table the page comes without any request. *)
Theorem portfolio_shows_refreshed_rows (w : env) (db : store) :
  table_after (portfolio w db) = table_after (refresh_portfolio_prices w db)
  /\ (forall e,
        outcome (refresh_portfolio_prices w db) = Raise e ->
        outcome (portfolio w db) = Raise e /\
        trace (portfolio w db) = trace (refresh_portfolio_prices w db))
  /\ (forall pg,
        outcome (portfolio w db) = Ok pg ->
        exists logo_urls,
          pg = portfolio_html
                 (rows (table_after (refresh_portfolio_prices w db)))
                 logo_urls)
  /\ (rows db = [] -> portfolio w db = (Ok (portfolio_html [] []), db, [])).
Proof.
  split; [|split; [|split]].
  - unfold portfolio.
    destruct (refresh_portfolio_prices w db) as [[[u|e] db'] t];
      [|reflexivity].
    now destruct (get_coin_logos_by_ids w _).
  - intros e He. unfold portfolio.
    destruct (refresh_portfolio_prices w db) as [[r db'] t].
    unfold outcome in He. simpl in He. subst r. now split.
  - intros pg Hpg. unfold portfolio, get_portfolio_rows in Hpg.
    destruct (refresh_portfolio_prices w db) as [[[u|e] db'] t];
      [|discriminate Hpg].
    destruct (get_coin_logos_by_ids w _) as [[logos|e] t'];
      [|discriminate Hpg].
    unfold outcome in Hpg. simpl in Hpg. injection Hpg as <-.
    now exists logos.
  - intros Hnil. unfold portfolio, refresh_portfolio_prices,
      Sql.select_distinct_coin_id, get_portfolio_rows.
    rewrite Hnil. simpl. rewrite Hnil. reflexivity.
Qed.

(** ** [/] *)

Lemma get_top_coins_fails (w : env) :
  (forall rq, request_fails w rq) -> fst (get_top_coins w) = Ok (JList []).
Proof.
  intros H. unfold get_top_coins.
  match goal with
  | |- context [http_get w ?u ?p] =>
      pose proof (http_get_fails w u p H) as E;
      destruct (http_get w u p) as [d t]
  end.
  simpl in E. now subst d.
Qed.

Lemma chart_fails (point_label : json -> result string)
    (point_value : json -> result json) (w : env) :
  (forall rq, request_fails w rq) ->
  fst (get_btc_chart_7d point_label point_value w) = Ok ([], []).
Proof.
  intros H. unfold get_btc_chart_7d.
  match goal with
  | |- context [http_get w ?u ?p] =>
      pose proof (http_get_fails w u p H) as E;
      destruct (http_get w u p) as [d t]
  end.
  simpl in E. now subst d.
Qed.

Lemma py_or_not_null (a b : json) : b <> JNull -> py_or a b <> JNull.
Proof.
  intros Hb. unfold py_or. destruct (truthy a) eqn:Ht; [|exact Hb].
  intros E. rewrite E in Ht. discriminate.
Qed.

Section DashboardProperties.

Variable point_label : json -> result string.
Variable point_value : json -> result json.
Variable sql_sum : list PyFloat.float -> json.

(** [index] after a refresh that completed. *)
Lemma index_eq (w : env) (db : store) :
  outcome (refresh_portfolio_prices w db) = Ok tt ->
  outcome (index point_label point_value sql_sum w db) =
  (let db' := table_after (refresh_portfolio_prices w db) in
   coins <- fst (get_top_coins w) ;;
   lv <- fst (get_btc_chart_7d point_label point_value w) ;;
   change <- change_24h_of coins ;;
   Ok (index_html coins
         (py_or (fst (select_totals sql_sum db')) (JFloat PyFloat.zero))
         (Z.of_nat (List.length (rows db'))) change (fst lv) (snd lv)))
  /\ table_after (index point_label point_value sql_sum w db)
     = table_after (refresh_portfolio_prices w db).
Proof.
  intros Hout. unfold index.
  destruct (refresh_portfolio_prices w db) as [[r db'] t].
  unfold outcome, table_after in *. simpl in *. subst r.
  destruct (get_top_coins w) as [[coins|e] t1]; simpl; [|now split].
  destruct (get_btc_chart_7d point_label point_value w) as [[lv|e] t2];
    simpl; [|now split].
  split; [|reflexivity].
  destruct (change_24h_of coins) as [c|e]; simpl; [|reflexivity].
  unfold select_totals. simpl.
  now destruct (rows db') as [|x l].
Qed.

(** X20.  While every request fails the dashboard is still rendered and
    nothing is raised: it shows no coins, an empty chart, a 24 hour change
    of 0.0, the number of rows of the table and the total of the table as it
    stands, and the table is left as it was. *)
Theorem index_renders_during_outage (w : env) (db : store) :
  (forall rq, request_fails w rq) ->
  outcome (index point_label point_value sql_sum w db)
  = Ok (index_html (JList [])
          (py_or (fst (select_totals sql_sum db)) (JFloat PyFloat.zero))
          (Z.of_nat (List.length (rows db)))
          (JFloat PyFloat.zero) [] [])
  /\ table_after (index point_label point_value sql_sum w db) = db.
Proof.
  intros H. destruct (refresh_outage_eq w db H) as [Ho Ht].
  destruct (index_eq w db Ho) as [E1 E2].
  rewrite E1, E2, Ht.
  rewrite (get_top_coins_fails w H), (chart_fails point_label point_value w H).
  now split.
Qed.

(** X21.  Whenever the dashboard is rendered, the count it shows is the
    number of rows of the table, the total it shows is never null (a NULL
    sum, as for the empty table, shows as 0.0), the coins are those
    [get_top_coins] returned, and the table is the one the refresh left. *)
Theorem index_shows_count_and_total
    (w : env) (db : store) (coins total change : json) (tracked : Z)
    (labels : list string) (values : list json) :
  outcome (index point_label point_value sql_sum w db)
  = Ok (index_html coins total tracked change labels values) ->
  tracked = Z.of_nat (List.length (rows db))
  /\ total <> JNull
  /\ (rows db = [] -> total = JFloat PyFloat.zero)
  /\ fst (get_top_coins w) = Ok coins
  /\ change_24h_of coins = Ok change
  /\ table_after (index point_label point_value sql_sum w db)
     = table_after (refresh_portfolio_prices w db).
Proof.
  intros Hpg.
  assert (Ho : outcome (refresh_portfolio_prices w db) = Ok tt).
  { unfold index, outcome in *.
    destruct (refresh_portfolio_prices w db) as [[[[]|e] db'] t];
      [reflexivity | discriminate Hpg]. }
  destruct (index_eq w db Ho) as [E1 E2]. rewrite E1 in Hpg. clear E1.
  destruct (refresh_frame w db) as [_ Hf].
  pose proof (Forall2_length Hf) as Hlen.
  destruct (fst (get_top_coins w)) as [cs|e]; simpl in Hpg; [|discriminate].
  destruct (fst (get_btc_chart_7d point_label point_value w)) as [lv|e];
    simpl in Hpg; [|discriminate].
  destruct (change_24h_of cs) as [c|e] eqn:Hc; simpl in Hpg; [|discriminate].
  injection Hpg as <- <- <- <- <- <-.
  split; [now rewrite Hlen|]. split; [|split; [|now repeat split]].
  - exact (py_or_not_null
             (fst (select_totals sql_sum
                     (table_after (refresh_portfolio_prices w db))))
             (JFloat PyFloat.zero) ltac:(discriminate)).
  - intros Hnil. rewrite Hnil in Hlen.
    change (py_or (fst (select_totals sql_sum
                          (table_after (refresh_portfolio_prices w db))))
              (JFloat PyFloat.zero) = JFloat PyFloat.zero).
    unfold select_totals.
    destruct (rows (table_after (refresh_portfolio_prices w db))) as [|x l];
      [reflexivity | discriminate Hlen].
Qed.

End DashboardProperties.

Lemma index_renders_during_outage_witness :
  outcome (index (fun _ => Raise TypeError) (fun _ => Raise TypeError)
             (fun _ => JNull) (Sample.down Sample.evening) Sample.three)
  = Ok (index_html (JList [])
          (py_or (fst (select_totals (fun _ => JNull) Sample.three))
             (JFloat PyFloat.zero))
          (Z.of_nat (List.length (rows Sample.three)))
          (JFloat PyFloat.zero) [] [])
  /\ table_after
       (index (fun _ => Raise TypeError) (fun _ => Raise TypeError)
          (fun _ => JNull) (Sample.down Sample.evening) Sample.three)
     = Sample.three.
Proof.
  apply (index_renders_during_outage
           (fun _ => Raise TypeError) (fun _ => Raise TypeError)
           (fun _ => JNull) (Sample.down Sample.evening) Sample.three).
  intros rq. apply fails_to_connect. reflexivity.
Defined.

Lemma index_shows_count_and_total_witness :
  3 = Z.of_nat (List.length (rows Sample.three))
  /\ JFloat (PyFloat.of_decimal false 3525005 (-1)) <> JNull
  /\ (rows Sample.three = [] ->
      JFloat (PyFloat.of_decimal false 3525005 (-1)) = JFloat PyFloat.zero)
  /\ fst (get_top_coins Sample.exchange) = Ok Sample.coin_list
  /\ change_24h_of Sample.coin_list = Ok (JInt 2)
  /\ table_after
       (index Sample.label Sample.rounded Sample.total Sample.exchange
          Sample.three)
     = table_after (refresh_portfolio_prices Sample.exchange Sample.three).
Proof.
  apply (index_shows_count_and_total
           Sample.label Sample.rounded Sample.total Sample.exchange
           Sample.three Sample.coin_list
           (JFloat (PyFloat.of_decimal false 3525005 (-1))) (JInt 2) 3
           ["Mar 09"; "Mar 10"] [JInt 68000; JInt 69000]).
  vm_compute. reflexivity.
Defined.

(** The dashboard of the sample service over the sample table: the two
    coins, the total 352500.5 of the three rows at their new prices, three
    rows, bitcoin's change and the two points of the chart. *)
Example index_of_sample_exchange :
  outcome (index Sample.label Sample.rounded Sample.total Sample.exchange
             Sample.three)
  = Ok (index_html Sample.coin_list
          (JFloat (PyFloat.of_decimal false 3525005 (-1))) 3 (JInt 2)
          ["Mar 09"; "Mar 10"] [JInt 68000; JInt 69000]).
Proof. vm_compute. reflexivity. Qed.

Lemma next_bitcoin_skips (before : list json) (rest : list json)
    (default : json) :
  Forall not_bitcoin before ->
  next_bitcoin (before ++ rest) default = next_bitcoin rest default.
Proof.
  induction 1 as [|c cs [d [-> Hd]] _ IH]; simpl; [reflexivity|].
  destruct (assoc "id" d) as [[| | | |s| |]|]; simpl; try exact IH.
  destruct (String.eqb_spec s "bitcoin") as [->|]; [now elim Hd | exact IH].
Qed.

(** X22.  The 24 hour change of the dashboard is bitcoin's when the coin
    list has a bitcoin entry after entries of other ids, and the first
    coin's when no coin of the list is bitcoin; a change that is missing,
    null or zero shows as 0.0, and so does an empty coin list. *)
Theorem change_24h_prefers_bitcoin :
  (forall before after b,
     Forall not_bitcoin before ->
     assoc "id" b = Some (JStr "bitcoin") ->
     change_24h_of (JList (before ++ JDict b :: after)) = Ok (change_of b))
  /\ (forall c rest,
        Forall not_bitcoin (JDict c :: rest) ->
        change_24h_of (JList (JDict c :: rest)) = Ok (change_of c))
  /\ change_24h_of (JList []) = Ok (JFloat PyFloat.zero)
  /\ (forall d,
        assoc "price_change_percentage_24h" d = None \/
        assoc "price_change_percentage_24h" d = Some JNull ->
        change_of d = JFloat PyFloat.zero).
Proof.
  split; [|split; [|split]].
  - intros before after b Hb Hid.
    assert (Hfirst : exists x, py_first (JList (before ++ JDict b :: after)) = Ok x).
    { destruct before; simpl; eauto. }
    destruct Hfirst as [x Hx].
    unfold change_24h_of.
    assert (truthy (JList (before ++ JDict b :: after)) = true) as ->
      by now destruct before.
    rewrite Hx. simpl. rewrite (next_bitcoin_skips before _ x Hb). simpl.
    rewrite Hid. simpl. reflexivity.
  - intros c rest Hall. unfold change_24h_of.
    cbn [truthy py_iter py_first rbind].
    pose proof (next_bitcoin_skips (JDict c :: rest) [] (JDict c) Hall) as E.
    rewrite app_nil_r in E. rewrite E. reflexivity.
  - reflexivity.
  - intros d [H|H]; unfold change_of; now rewrite H.
Qed.

(** ** Deleting twice, deleting in either order *)

Lemma filter_filter_comm {A : Type} (f g : A -> bool) (l : list A) :
  filter f (filter g l) = filter g (filter f l).
Proof.
  induction l as [|a l IH]; simpl; [reflexivity|].
  destruct (f a) eqn:Hf, (g a) eqn:Hg; simpl; rewrite ?Hf, ?Hg, IH;
    reflexivity.
Qed.

(** X23.  Deleting an id a second time changes nothing, and two deletions
    give the same table in either order, also for an id too large to be
    bound, whose deletion raises and leaves the table alone; every row that
    remains after a deletion was there before, and none of them carries the
    deleted id: for an id that fits 64 bits since its rows are removed, for
    a larger one since no rowid, a 64-bit integer, equals it. *)
Theorem delete_is_idempotent_and_commutes (i j : Z) (db : store) :
  table_after (delete_coin i (table_after (delete_coin i db)))
  = table_after (delete_coin i db)
  /\ table_after (delete_coin i (table_after (delete_coin j db)))
     = table_after (delete_coin j (table_after (delete_coin i db)))
  /\ (forall r, In r (rows (table_after (delete_coin i db))) ->
                In r (rows db) /\
                (Sql.int64 i = true \/ Sql.int64 (id r) = true -> id r <> i)).
Proof.
  unfold delete_coin.
  destruct (Sql.int64 i) eqn:Hi, (Sql.int64 j) eqn:Hj;
    unfold table_after, Sql.delete; simpl; rewrite ?Hi, ?Hj; simpl;
    (split; [|split]); try reflexivity.
  - f_equal. apply filter_all. intros r Hr. apply filter_In in Hr. tauto.
  - f_equal. apply filter_filter_comm.
  - intros r Hr. apply filter_In in Hr. destruct Hr as [Hin Hne].
    split; [exact Hin|]. intros _.
    apply negb_true_iff, Z.eqb_neq in Hne. exact Hne.
  - f_equal. apply filter_all. intros r Hr. apply filter_In in Hr. tauto.
  - intros r Hr. apply filter_In in Hr. destruct Hr as [Hin Hne].
    split; [exact Hin|]. intros _.
    apply negb_true_iff, Z.eqb_neq in Hne. exact Hne.
  - intros r Hr. split; [exact Hr|].
    intros [H|H] E; [discriminate|]. rewrite E, Hi in H. discriminate.
  - intros r Hr. split; [exact Hr|].
    intros [H|H] E; [discriminate|]. rewrite E, Hi in H. discriminate.
Qed.
